(** * upsc_backend: request handlers over an ORM store, embedded in Rocq

  The TypeScript handlers of [src/controllers] and [src/middleware] are
  rendered as pure functions that take the database state (and the clock)
  and return the new state together with what the handler sent:
  - a Prisma table is a [list] of rows; [findUnique] is the first row that
    satisfies the predicate, [create] appends a row, [update] rewrites the
    matching rows, [upsert] is [findUnique] followed by [update] or
    [create];
  - a JavaScript [number] is an integer ([Z]) for counters and integer
    columns and a rational ([Q]) where the code computes with fractions;
    the accuracy of a submission, the score of the daily MCQ and the
    simulated score of an answer are computed as the machine does, every
    quotient, product and sum rounded to the nearest double ([rnd]);
  - a [Date] is a local calendar day and the milliseconds elapsed since
    local midnight of that day;
  - [res.status(c).json(b)] is [Respond c b], [next(error)] is [Next e];
  - [setTimeout] pushes a closure record on the list of armed timers of
    the state; an event fires one of them. *)

From Stdlib Require Import ZArith QArith Qround Qpower Lia Lqa Ascii Sorted.
From stdpp Require Import base list strings gmap pretty.

Set Warnings "-register-all".
Local Open Scope Z_scope.

(** ** JavaScript values *)

Module Js.

(** The JSON documents the handlers send. *)
Inductive json : Type :=
| JNull
| JBool (b : bool)
| JNum (q : Q)
| JStr (s : string)
| JArr (items : list json)
| JObj (fields : list (string * json)).

Definition JInt (z : Z) : json := JNum (inject_Z z).

(** [o.k] on a document built by a handler. *)
Definition field (k : string) (j : json) : option json :=
  match j with
  | JObj fs => snd <$> find (fun kv => String.eqb (fst kv) k) fs
  | _ => None
  end.

Definition keys (j : json) : list string :=
  match j with
  | JObj fs => fst <$> fs
  | _ => []
  end.

(** Truthiness of the values the handlers test with [!x], [x || d] and
    [x ? a : b]. *)
Definition truthy_str (s : string) : bool := negb (String.eqb s "").
Definition truthy_int (z : Z) : bool := negb (z =? 0).

(** [x || d] for an optional string. *)
Definition or_str (x : option string) (d : string) : string :=
  match x with
  | Some s => if truthy_str s then s else d
  | None => d
  end.

(** [x || d] for an optional integer. *)
Definition or_int (x : option Z) (d : Z) : Z :=
  match x with
  | Some z => if truthy_int z then z else d
  | None => d
  end.

(** [x || null] for an optional string: a falsy string becomes [null]. *)
Definition or_null (x : option string) : option string :=
  match x with
  | Some s => if truthy_str s then Some s else None
  | None => None
  end.

(** A text a user types: the UTF-16 code units of the JavaScript string.
    The other strings of the handlers (ids, names, messages) are never
    looked into and stay Rocq strings. *)
Definition text : Type := list N.

(** The code units of a text written in ASCII. *)
Definition units (s : string) : text :=
  (fun c => N.of_nat (nat_of_ascii c)) <$> String.list_ascii_of_string s.

(** Truthiness of a text: it is not empty. *)
Definition truthy_text (t : text) : bool :=
  match t with
  | [] => false
  | _ :: _ => true
  end.

(** [Math.round]: the nearest integer, halves going up. *)
Definition round (x : Q) : Z := Qfloor (x + (1 # 2)).

(** [Math.round(x * 10) / 10] for an [x] given exactly: the decimal with
    one place nearest to [x]. *)
Definition round1 (x : Q) : Q := inject_Z (round (x * 10)) / 10.

(** *** Doubles

    A double is a rational [m * 2^e] with [m] an integer below [2^53] in
    absolute value.  The quantities rounded here are quotients of counts
    and marks and their products with small constants, so the limits of
    the exponent of a double (overflow above [2^1024], gradual underflow
    below [2^-1022]) are left out. *)

(** The integer part of the binary logarithm of a positive rational:
    [2^(ilog2 x) <= x < 2^(ilog2 x + 1)]. *)
Definition ilog2 (x : Q) : Z :=
  let e := Z.log2 (Qnum x) - Z.log2 (Z.pos (Qden x)) in
  if Qle_bool (2 ^ e) x then e else e - 1.

(** The integer nearest to [y], the even one of the two when [y] is half
    way. *)
Definition roundEven (y : Q) : Z :=
  let f := Qfloor y in
  match (y - inject_Z f ?= 1 # 2)%Q with
  | Lt => f
  | Gt => f + 1
  | Eq => if Z.even f then f else f + 1
  end.

(** The distance between the doubles around a positive [x]: a
    significand has 53 bits. *)
Definition ulp (x : Q) : Q := (2 ^ (ilog2 x - 52))%Q.

Definition rndPos (x : Q) : Q := inject_Z (roundEven (x / ulp x)) * ulp x.

(** The double nearest to [x], ties going to the even significand: the
    rounding that follows every arithmetic operation on numbers. *)
Definition rnd (x : Q) : Q :=
  match (0 ?= x)%Q with
  | Lt => rndPos x
  | Eq => 0
  | Gt => - rndPos (- x)
  end.

(** [a * b], [a / b] and [a + b] on doubles. *)
Definition fmul (a b : Q) : Q := rnd (a * b).
Definition fdiv (a b : Q) : Q := rnd (a / b).
Definition fadd (a b : Q) : Q := rnd (a + b).

(** [Math.round(x * 10) / 10] for a double [x]: the product is rounded to
    a double before [Math.round] takes the nearest integer [k]; the
    quotient, the double nearest to [k / 10], is written as that decimal,
    as [round1] writes it. *)
Definition roundTenth (x : Q) : Q := inject_Z (round (fmul x 10)) / 10.

(** [Math.max] and [Math.min] on rationals. *)
Definition max (a b : Q) : Q := if Qle_bool a b then b else a.
Definition min (a b : Q) : Q := if Qle_bool a b then a else b.

(** A [Date] in local time. *)
Record Date : Type := mkDate { day : Z; msec : Z }.

(** [d.setHours(0, 0, 0, 0)]. *)
Definition setHours0 (d : Date) : Date := {| day := day d; msec := 0 |}.

(** [d.setDate(d.getDate() - 1)]. *)
Definition prevDay (d : Date) : Date := {| day := day d - 1; msec := msec d |}.

(** [a.getTime() === b.getTime()]. *)
Definition sameTime (a b : Date) : bool :=
  (day a =? day b) && (msec a =? msec b).

(** [d.getDay()], 0 for Sunday; day 0 of the calendar is a Thursday. *)
Definition getDay (d : Date) : Z := (day d + 4) mod 7.

(** The helper [getToday] of the controllers: [new Date()] at midnight. *)
Definition getToday (now : Date) : Date := setHours0 now.

End Js.

Import Js.

(** ** middleware/errorHandler.ts *)

Module ErrorHandler.

(** [interface AppError extends Error]. *)
Record AppError : Type := mkAppError {
  message : string;
  statusCode : option Z;
  status : option string;
  stack : option string
}.

(** What a handler hands to Express. *)
Inductive outcome : Type :=
| Respond (code : Z) (body : json)
| Next (err : AppError).

(** The [TypeError] raised by calling a method a value does not have. *)
Definition typeError (msg : string) : AppError :=
  {| message := msg; statusCode := None; status := None; stack := None |}.

(** [...(cond && { stack: err.stack })]: an undefined property is dropped
    by [JSON.stringify]. *)
Definition stackField (nodeEnv : option string) (err : AppError)
  : list (string * json) :=
  if bool_decide (nodeEnv = Some "development") then
    match stack err with
    | Some s => [("stack", JStr s)]
    | None => []
    end
  else [].

(** What [res.status(code).json(body)] comes to: the response is sent, or
    the runtime refuses the status code with a [RangeError] and nothing is
    sent. *)
Inductive sending : Type :=
| Sends (code : Z) (body : json)
| Refuses (code : Z).

(** [res.status(code).json(body)]: a status code has three digits. *)
Definition send (code : Z) (body : json) : sending :=
  if (100 <=? code) && (code <=? 999) then Sends code body else Refuses code.

Definition errorHandler (nodeEnv : option string) (err : AppError)
  : sending :=
  let statusCode := or_int (statusCode err) 500 in
  let status := or_str (status err) "error" in
  send statusCode
    (JObj ([("status", JStr status); ("message", JStr (message err))]
             ++ stackField nodeEnv err)).

Definition notFoundHandler (originalUrl : string) : sending :=
  send 404
    (JObj [("status", JStr "error");
           ("message", JStr ("Route " +:+ originalUrl +:+ " not found"))]).

End ErrorHandler.

Import ErrorHandler.

(** The uniform envelope of the inline error responses. *)
Definition errorBody (msg : string) : json :=
  JObj [("status", JStr "error"); ("message", JStr msg)].

(** [res.json(b)]: status 200. *)
Definition ok (body : json) : outcome := Respond 200 body.

(** ** The rows of the store

    One module per Prisma model, with the columns the handlers read or
    write.  Ids are strings; [score] columns hold rationals. *)

Module MockTest.
Record t : Type := mk {
  id : string;
  title : string;
  source : string;
  examMode : string;
  paperType : option string;
  subject : option string;
  difficulty : string;
  questionCount : Z;
  duration : Z;
  totalMarks : Z;
  isGenerated : bool
}.
End MockTest.

Module MockTestQuestion.
Record t : Type := mk {
  id : string;
  mockTestId : string;
  questionNum : Z;
  questionText : string;
  subject : string;
  category : string;
  difficulty : string;
  options : list (string * string);
  correctOption : string;
  explanation : string
}.
End MockTestQuestion.

(** The entry of [subjectWise] for one subject. *)
Record tally : Type := mkTally { correct : Z; wrong : Z; total : Z }.

Module MockTestAttempt.
Record t : Type := mk {
  id : string;
  userId : string;
  mockTestId : string;
  answers : gmap string string;
  score : Q;
  totalMarks : Z;
  correctCount : Z;
  wrongCount : Z;
  skippedCount : Z;
  accuracy : Q;
  timeTaken : Z;
  subjectWise : list (string * tally);
  analysis : string;
  completedAt : option Date
}.
End MockTestAttempt.

Module UserActivity.
Record t : Type := mk {
  userId : string;
  type : string;
  title : string;
  description : string
}.
End UserActivity.

Module DailyMCQ.
Record t : Type := mk {
  id : string;
  date : Date;
  title : string;
  topic : string;
  tags : list string;
  questionCount : Z;
  timeLimit : Z;
  totalMarks : Z
}.
End DailyMCQ.

Module MCQQuestion.
Record t : Type := mk {
  id : string;
  dailyMcqId : string;
  questionNum : Z;
  questionText : string;
  category : string;
  difficulty : string;
  options : list (string * string);
  correctOption : string;
  explanation : string
}.
End MCQQuestion.

Module MCQAttempt.
(** [score] is [None] when the stored number is not finite (a division by
    a zero [questionCount]). *)
Record t : Type := mk {
  id : string;
  userId : string;
  dailyMcqId : string;
  score : option Q;
  totalMarks : Z;
  correctCount : Z;
  wrongCount : Z;
  skippedCount : Z;
  accuracy : Q;
  timeTaken : Z;
  strongTopics : list string;
  weakTopics : list string;
  completedAt : option Date
}.
End MCQAttempt.

Module MCQResponse.
Record t : Type := mk {
  attemptId : string;
  questionId : string;
  selectedOption : option string;
  isCorrect : option bool;
  timeTaken : Z
}.
End MCQResponse.

Module UserStreak.
Record t : Type := mk {
  userId : string;
  currentStreak : Z;
  longestStreak : Z;
  lastActiveDate : option Date;
  weekActivity : list bool
}.
End UserStreak.

Module StudyStreak.
Record t : Type := mk {
  userId : string;
  currentStreak : Z;
  longestStreak : Z;
  totalStudyDays : Z;
  lastStudyDate : option Date
}.
End StudyStreak.

Module DailyMainsQuestion.
Record t : Type := mk {
  id : string;
  date : Date;
  title : string;
  paper : string;
  subject : string;
  marks : Z;
  wordLimit : Z;
  timeLimit : Z
}.
End DailyMainsQuestion.

Module MainsAttempt.
Record t : Type := mk {
  id : string;
  userId : string;
  questionId : string;
  answerText : option text;
  fileUrl : option string;
  wordCount : option Z;
  submittedAt : option Date
}.
End MainsAttempt.

Module MainsEvaluation.
Record t : Type := mk {
  id : string;
  attemptId : string;
  score : Q;
  maxScore : Z;
  status : string;
  strengths : list string;
  improvements : list string;
  suggestions : list string;
  detailedFeedback : option string;
  evaluatedAt : option Date
}.
End MainsEvaluation.

(** The closure handed to [setTimeout] by [startEvaluation]: the variables
    it captured. *)
Module Timer.
Record t : Type := mk {
  evaluationId : string;
  answerText : option text;
  marks : Z
}.
End Timer.

(** The store, the id generator of the ORM and the armed timers. *)
Record State : Type := mkState {
  mockTests : list MockTest.t;
  mockTestQuestions : list MockTestQuestion.t;
  mockTestAttempts : list MockTestAttempt.t;
  userActivities : list UserActivity.t;
  dailyMCQs : list DailyMCQ.t;
  mcqQuestions : list MCQQuestion.t;
  mcqAttempts : list MCQAttempt.t;
  mcqResponses : list MCQResponse.t;
  userStreaks : list UserStreak.t;
  studyStreaks : list StudyStreak.t;
  dailyMainsQuestions : list DailyMainsQuestion.t;
  mainsAttempts : list MainsAttempt.t;
  mainsEvaluations : list MainsEvaluation.t;
  timers : list Timer.t;
  nextId : N
}.

(** The id the ORM gives the next created row. *)
Definition genId (st : State) : string := pretty (nextId st).

(** [rows.update({ where, data })]: the rows that satisfy [where] are
    rewritten by [data]. *)
Definition updateWhere {A : Type} (p : A -> bool) (f : A -> A) (rows : list A)
  : list A :=
  (fun r => if p r then f r else r) <$> rows.

(** Writing one table of the store. *)
Definition set_mockTests (v : list MockTest.t) (st : State) : State :=
  mkState v (mockTestQuestions st) (mockTestAttempts st) (userActivities st)
    (dailyMCQs st) (mcqQuestions st) (mcqAttempts st) (mcqResponses st)
    (userStreaks st) (studyStreaks st) (dailyMainsQuestions st)
    (mainsAttempts st) (mainsEvaluations st) (timers st) (nextId st).

Definition set_mockTestQuestions (v : list MockTestQuestion.t) (st : State)
  : State :=
  mkState (mockTests st) v (mockTestAttempts st) (userActivities st)
    (dailyMCQs st) (mcqQuestions st) (mcqAttempts st) (mcqResponses st)
    (userStreaks st) (studyStreaks st) (dailyMainsQuestions st)
    (mainsAttempts st) (mainsEvaluations st) (timers st) (nextId st).

Definition set_mockTestAttempts (v : list MockTestAttempt.t) (st : State)
  : State :=
  mkState (mockTests st) (mockTestQuestions st) v (userActivities st)
    (dailyMCQs st) (mcqQuestions st) (mcqAttempts st) (mcqResponses st)
    (userStreaks st) (studyStreaks st) (dailyMainsQuestions st)
    (mainsAttempts st) (mainsEvaluations st) (timers st) (nextId st).

Definition set_userActivities (v : list UserActivity.t) (st : State) : State :=
  mkState (mockTests st) (mockTestQuestions st) (mockTestAttempts st) v
    (dailyMCQs st) (mcqQuestions st) (mcqAttempts st) (mcqResponses st)
    (userStreaks st) (studyStreaks st) (dailyMainsQuestions st)
    (mainsAttempts st) (mainsEvaluations st) (timers st) (nextId st).

Definition set_mcqAttempts (v : list MCQAttempt.t) (st : State) : State :=
  mkState (mockTests st) (mockTestQuestions st) (mockTestAttempts st)
    (userActivities st) (dailyMCQs st) (mcqQuestions st) v (mcqResponses st)
    (userStreaks st) (studyStreaks st) (dailyMainsQuestions st)
    (mainsAttempts st) (mainsEvaluations st) (timers st) (nextId st).

Definition set_mcqResponses (v : list MCQResponse.t) (st : State) : State :=
  mkState (mockTests st) (mockTestQuestions st) (mockTestAttempts st)
    (userActivities st) (dailyMCQs st) (mcqQuestions st) (mcqAttempts st) v
    (userStreaks st) (studyStreaks st) (dailyMainsQuestions st)
    (mainsAttempts st) (mainsEvaluations st) (timers st) (nextId st).

Definition set_userStreaks (v : list UserStreak.t) (st : State) : State :=
  mkState (mockTests st) (mockTestQuestions st) (mockTestAttempts st)
    (userActivities st) (dailyMCQs st) (mcqQuestions st) (mcqAttempts st)
    (mcqResponses st) v (studyStreaks st) (dailyMainsQuestions st)
    (mainsAttempts st) (mainsEvaluations st) (timers st) (nextId st).

Definition set_studyStreaks (v : list StudyStreak.t) (st : State) : State :=
  mkState (mockTests st) (mockTestQuestions st) (mockTestAttempts st)
    (userActivities st) (dailyMCQs st) (mcqQuestions st) (mcqAttempts st)
    (mcqResponses st) (userStreaks st) v (dailyMainsQuestions st)
    (mainsAttempts st) (mainsEvaluations st) (timers st) (nextId st).

Definition set_mainsAttempts (v : list MainsAttempt.t) (st : State) : State :=
  mkState (mockTests st) (mockTestQuestions st) (mockTestAttempts st)
    (userActivities st) (dailyMCQs st) (mcqQuestions st) (mcqAttempts st)
    (mcqResponses st) (userStreaks st) (studyStreaks st)
    (dailyMainsQuestions st) v (mainsEvaluations st) (timers st) (nextId st).

Definition set_mainsEvaluations (v : list MainsEvaluation.t) (st : State)
  : State :=
  mkState (mockTests st) (mockTestQuestions st) (mockTestAttempts st)
    (userActivities st) (dailyMCQs st) (mcqQuestions st) (mcqAttempts st)
    (mcqResponses st) (userStreaks st) (studyStreaks st)
    (dailyMainsQuestions st) (mainsAttempts st) v (timers st) (nextId st).

Definition set_timers (v : list Timer.t) (st : State) : State :=
  mkState (mockTests st) (mockTestQuestions st) (mockTestAttempts st)
    (userActivities st) (dailyMCQs st) (mcqQuestions st) (mcqAttempts st)
    (mcqResponses st) (userStreaks st) (studyStreaks st)
    (dailyMainsQuestions st) (mainsAttempts st) (mainsEvaluations st) v
    (nextId st).

(** A row was created with a generated id: the generator moves on. *)
Definition bumpId (st : State) : State :=
  mkState (mockTests st) (mockTestQuestions st) (mockTestAttempts st)
    (userActivities st) (dailyMCQs st) (mcqQuestions st) (mcqAttempts st)
    (mcqResponses st) (userStreaks st) (studyStreaks st)
    (dailyMainsQuestions st) (mainsAttempts st) (mainsEvaluations st)
    (timers st) (N.succ (nextId st)).

(** [prisma.userActivity.create]. *)
Definition logActivity (userId type title description : string) (st : State)
  : State :=
  set_userActivities
    (userActivities st ++ [UserActivity.mk userId type title description]) st.

(** ** String helpers of the handlers *)

Definition nl : string := String "010"%char "".

(** [s.toLowerCase()] on the letters A to Z. *)
Definition lowerChar (c : ascii) : ascii :=
  let n := nat_of_ascii c in
  if (65 <=? n)%nat && (n <=? 90)%nat then ascii_of_nat (n + 32) else c.

Fixpoint toLowerCase (s : string) : string :=
  match s with
  | EmptyString => EmptyString
  | String c r => String (lowerChar c) (toLowerCase r)
  end.

(** [l.join(sep)]. *)
Definition join (sep : string) (l : list string) : string :=
  String.concat sep l.

(** [a < b] on rationals. *)
Definition qlt (a b : Q) : bool := negb (Qle_bool b a).

(** [l[Math.floor(Math.random() * l.length)]], the draw being [k]. *)
Definition pick (k : nat) (l : list string) : string :=
  nth (k mod length l) l "".

(** The entry of the key [k] of a dictionary is made when absent, and
    changed by [f]; the keys keep their insertion order. *)
Fixpoint bump {V : Type} (zero : V) (k : string) (f : V -> V)
    (o : list (string * V)) : list (string * V) :=
  match o with
  | [] => [(k, f zero)]
  | (k', v) :: rest =>
      if String.eqb k' k then (k', f v) :: rest
      else (k', v) :: bump zero k f rest
  end.

(** The names that every object inherits from [Object.prototype]: read
    on an object that has no entry of its own for them, they give a
    function, or the prototype itself, and so a value that is truthy. *)
Definition objectPrototype : list string :=
  ["constructor"; "__defineGetter__"; "__defineSetter__"; "hasOwnProperty";
   "__lookupGetter__"; "__lookupSetter__"; "isPrototypeOf";
   "propertyIsEnumerable"; "toString"; "valueOf"; "__proto__";
   "toLocaleString"].

Definition inherited (k : string) : bool := bool_decide (k ∈ objectPrototype).

(** [if (!o[k]) o[k] = zero; o[k] = f(o[k])] on an object literal used as
    a dictionary.  For an inherited name [o[k]] is truthy from the start:
    no entry is made, and what [f] writes goes to the inherited value,
    not to [o]. *)
Definition bumpObject {V : Type} (zero : V) (k : string) (f : V -> V)
    (o : list (string * V)) : list (string * V) :=
  if inherited k then o else bump zero k f o.

(** The array index that a property name is, when it is one: a decimal
    numeral with no leading zero, below 2^32 - 1. *)
Definition digitOf (c : ascii) : option Z :=
  let n := Z.of_nat (nat_of_ascii c) in
  if (48 <=? n) && (n <=? 57) then Some (n - 48) else None.

Fixpoint decimal (acc : Z) (s : string) : option Z :=
  match s with
  | EmptyString => Some acc
  | String c r =>
      match digitOf c with
      | Some d => decimal (10 * acc + d) r
      | None => None
      end
  end.

Definition arrayIndex (k : string) : option Z :=
  match k with
  | EmptyString => None
  | String c r =>
      if Ascii.eqb c "0" && negb (String.eqb r "") then None
      else
        match decimal 0 k with
        | Some n => if n <? 4294967295 then Some n else None
        | None => None
        end
  end.

Definition isArrayIndex (k : string) : bool :=
  match arrayIndex k with
  | Some _ => true
  | None => false
  end.

(** [rows.sort] by an integer column, ascending, equal keys keeping their
    order: the [orderBy] of a query. *)
Fixpoint insertBy {A : Type} (key : A -> Z) (x : A) (l : list A) : list A :=
  match l with
  | [] => [x]
  | y :: r => if key x <=? key y then x :: y :: r else y :: insertBy key x r
  end.

Fixpoint orderBy {A : Type} (key : A -> Z) (l : list A) : list A :=
  match l with
  | [] => []
  | x :: r => insertBy key x (orderBy key r)
  end.

(** [Object.entries(o)]: the entries whose names are array indices come
    first, by ascending index, and then the others in the order of their
    insertion. *)
Definition entries {V : Type} (o : list (string * V)) : list (string * V) :=
  orderBy (fun kv => default 0 (arrayIndex (fst kv)))
    (List.filter (fun kv => isArrayIndex (fst kv)) o)
  ++ List.filter (fun kv => negb (isArrayIndex (fst kv))) o.

(** ** controllers/mockTest.controller.ts *)

Module MockTestController.

(** The body of POST /api/mock-tests/generate. *)
Record GenerateBody : Type := mkGenerateBody {
  source : option string;
  subject : option string;
  examMode : option string;
  paperType : option string;
  questionCount : option Z;
  difficulty : option string
}.

(** The body of POST /api/mock-tests/:testId/submit; [answers] maps a
    question id to the selected option. *)
Record SubmitBody : Type := mkSubmitBody {
  answers : option (gmap string string);
  timeTaken : option Z
}.

Definition defaultSubjects : list string :=
  ["History"; "Geography"; "Indian Polity"; "Economy"].

Definition optionIds : list string := ["A"; "B"; "C"; "D"].

Definition sampleOptions : list (string * string) :=
  [("A", "1 and 2 only"); ("B", "2 and 3 only");
   ("C", "1 and 3 only"); ("D", "1, 2 and 3")].

Definition sampleText (qSubject : string) (i : Z) : string :=
  "Sample " +:+ qSubject +:+ " question " +:+ pretty i
  +:+ ": Which of the following statements about " +:+ toLowerCase qSubject
  +:+ " is/are correct?" +:+ nl +:+ nl
  +:+ "1. Statement A related to " +:+ qSubject +:+ nl
  +:+ "2. Statement B related to " +:+ qSubject +:+ nl
  +:+ "3. Statement C related to " +:+ qSubject.

Definition sampleExplanation (qSubject : string) (i : Z) : string :=
  "This is the explanation for question " +:+ pretty i
  +:+ ". The correct answer requires understanding of key concepts in "
  +:+ qSubject +:+ ".".

(** One turn of the loop [for (let i = 1; i <= count; i++)]; [draw] gives
    the successive values of [Math.random], three per turn. *)
Definition createQuestion (draw : nat -> nat) (testId : string)
    (subjectList difficultyList : list string) (st : State) (i : Z) : State :=
  let k := (3 * Z.to_nat (i - 1))%nat in
  let qSubject := pick (draw k) subjectList in
  let qDifficulty := pick (draw (k + 1)%nat) difficultyList in
  let q :=
    {| MockTestQuestion.id := genId st;
       MockTestQuestion.mockTestId := testId;
       MockTestQuestion.questionNum := i;
       MockTestQuestion.questionText := sampleText qSubject i;
       MockTestQuestion.subject := qSubject;
       MockTestQuestion.category := qSubject;
       MockTestQuestion.difficulty := qDifficulty;
       MockTestQuestion.options := sampleOptions;
       MockTestQuestion.correctOption := pick (draw (k + 2)%nat) optionIds;
       MockTestQuestion.explanation := sampleExplanation qSubject i |} in
  bumpId (set_mockTestQuestions (mockTestQuestions st ++ [q]) st).

(** [Math.min(questionCount || 10, 100)]. *)
Definition countOf (body : GenerateBody) : Z :=
  Z.min (or_int (questionCount body) 10) 100.

(** The row of [prisma.mockTest.create]. *)
Definition newTest (st : State) (body : GenerateBody) : MockTest.t :=
  let count := countOf body in
  let duration := round (inject_Z count * 1.6) in
  let totalMarks := count * 2 in
  {| MockTest.id := genId st;
     MockTest.title :=
       or_str (subject body) "Mixed" +:+ " - "
       +:+ or_str (examMode body) "Prelims" +:+ " Practice";
     MockTest.source := or_str (source body) "mixed";
     MockTest.examMode := or_str (examMode body) "prelims";
     MockTest.paperType := paperType body;
     MockTest.subject :=
       if bool_decide (subject body = Some "All Subjects") then None
       else subject body;
     MockTest.difficulty := or_str (difficulty body) "mixed";
     MockTest.questionCount := count;
     MockTest.duration := duration;
     MockTest.totalMarks := totalMarks;
     MockTest.isGenerated := true |}.

(** [subject && subject !== "All Subjects" ? [subject] : [...]]. *)
Definition subjectListOf (body : GenerateBody) : list string :=
  match or_null (subject body) with
  | Some s => if String.eqb s "All Subjects" then defaultSubjects else [s]
  | None => defaultSubjects
  end.

(** [difficulty === "mixed" ? [...] : [difficulty || "Moderate"]]. *)
Definition difficultyListOf (body : GenerateBody) : list string :=
  if bool_decide (difficulty body = Some "mixed")
  then ["Easy"; "Moderate"; "Hard"]
  else [or_str (difficulty body) "Moderate"].

Definition generateTest (draw : nat -> nat) (st : State) (userId : string)
    (body : GenerateBody) : State * outcome :=
  let count := countOf body in
  let mockTest := newTest st body in
  let st1 := bumpId (set_mockTests (mockTests st ++ [mockTest]) st) in
  let st2 :=
    foldl (createQuestion draw (MockTest.id mockTest) (subjectListOf body)
             (difficultyListOf body)) st1 (seqZ 1 count) in
  let st3 :=
    logActivity userId "mock_test" "Generated Mock Test"
      (pretty count +:+ " questions on " +:+ or_str (subject body) "Mixed")
      st2 in
  (st3,
   ok (JObj [("status", JStr "success");
             ("data",
              JObj [("testId", JStr (MockTest.id mockTest));
                    ("title", JStr (MockTest.title mockTest));
                    ("questionCount", JInt (MockTest.questionCount mockTest));
                    ("duration", JInt (MockTest.duration mockTest));
                    ("totalMarks", JInt (MockTest.totalMarks mockTest))])])).

(** The counters of the loop of [submitTest]. *)
Record counters : Type := mkCounters {
  correctCount : Z;
  wrongCount : Z;
  skippedCount : Z;
  subjectWise : list (string * tally)
}.

(** [answers?.[q.id] || null]. *)
Definition selectedOf (answers : option (gmap string string)) (qid : string)
  : option string :=
  or_null (answers ≫= (fun m => m !! qid)).

(** The body of [for (const q of test.questions)]. *)
Definition grade (answers : option (gmap string string)) (acc : counters)
    (q : MockTestQuestion.t) : counters :=
  let subj := MockTestQuestion.subject q in
  match selectedOf answers (MockTestQuestion.id q) with
  | None =>
      mkCounters (correctCount acc) (wrongCount acc) (skippedCount acc + 1)
        (bumpObject (mkTally 0 0 0) subj (fun v => mkTally (correct v) (wrong v) (total v + 1))
           (subjectWise acc))
  | Some selected =>
      if String.eqb selected (MockTestQuestion.correctOption q) then
        mkCounters (correctCount acc + 1) (wrongCount acc) (skippedCount acc)
          (bumpObject (mkTally 0 0 0) subj (fun v => mkTally (correct v + 1) (wrong v) (total v + 1))
             (subjectWise acc))
      else
        mkCounters (correctCount acc) (wrongCount acc + 1) (skippedCount acc)
          (bumpObject (mkTally 0 0 0) subj (fun v => mkTally (correct v) (wrong v + 1) (total v + 1))
             (subjectWise acc))
  end.

Definition gradeAll (answers : option (gmap string string))
    (questions : list MockTestQuestion.t) : counters :=
  foldl (grade answers) (mkCounters 0 0 0 []) questions.

(** [totalAnswered > 0 ? (correctCount / totalAnswered) * 100 : 0], in
    doubles: 41 right answers and 39 wrong ones make
    51.24999999999999, not 51.25. *)
Definition accuracyOf (correctCount wrongCount : Z) : Q :=
  let totalAnswered := correctCount + wrongCount in
  if 0 <? totalAnswered
  then fmul (fdiv (inject_Z correctCount) (inject_Z totalAnswered)) 100
  else 0.

(** [v.total > 0 && v.correct / v.total < 0.5]; the quotient is compared
    as it is, which is what its double gives. *)
Definition isWeak (v : tally) : bool :=
  (0 <? total v) && qlt (inject_Z (correct v) / inject_Z (total v)) 0.5.

Definition weakSubjectsOf (sw : list (string * tally)) : list string :=
  fst <$> filter (fun kv => isWeak (snd kv) = true) (entries sw).

Definition generateAnalysis (correct wrong skipped total : Z)
    (subjectWise : list (string * tally)) : string :=
  let accuracy := accuracyOf correct wrong in
  let a0 :=
    "You answered " +:+ pretty correct +:+ " out of " +:+ pretty total
    +:+ " questions correctly (" +:+ pretty (round accuracy)
    +:+ "% accuracy). " in
  let a1 :=
    if 0 <? wrong
    then a0 +:+ pretty wrong
         +:+ " incorrect answers resulted in negative marking. "
    else a0 in
  let a2 :=
    if 0 <? skipped
    then a1 +:+ pretty skipped +:+ " questions were left unattempted. "
    else a1 in
  let weakSubjects := weakSubjectsOf subjectWise in
  let a3 :=
    if (0 <? length weakSubjects)%nat
    then a2 +:+ "Areas needing improvement: " +:+ join ", " weakSubjects
         +:+ ". "
    else a2 in
  a3 +:+ "Keep practicing regularly to improve your scores.".

(** [correctCount * 2 - wrongCount * 0.66]. *)
Definition rawScore (c : counters) : Q :=
  inject_Z (correctCount c) * 2 - inject_Z (wrongCount c) * 0.66.

(** The [score] column of the created attempt:
    [Math.max(0, Math.round(score * 10) / 10)]. *)
Definition storedScore (c : counters) : Q := Js.max 0 (round1 (rawScore c)).

Definition questionsOf (st : State) (testId : string)
  : list MockTestQuestion.t :=
  filter (fun q => MockTestQuestion.mockTestId q = testId)
    (mockTestQuestions st).

(** [prisma.mockTest.findUnique({ where: { id: testId } })]. *)
Definition findTest (st : State) (testId : string) : option MockTest.t :=
  find (fun t => String.eqb (MockTest.id t) testId) (mockTests st).

Definition submitTest (st : State) (now : Date) (userId testId : string)
    (body : SubmitBody) : State * outcome :=
  match findTest st testId with
  | None => (st, Respond 404 (errorBody "Test not found"))
  | Some test =>
      let c := gradeAll (answers body) (questionsOf st testId) in
      let accuracy := accuracyOf (correctCount c) (wrongCount c) in
      let score := rawScore c in
      let analysis :=
        generateAnalysis (correctCount c) (wrongCount c) (skippedCount c)
          (MockTest.questionCount test) (subjectWise c) in
      let attempt :=
        {| MockTestAttempt.id := genId st;
           MockTestAttempt.userId := userId;
           MockTestAttempt.mockTestId := testId;
           MockTestAttempt.answers := default ∅ (answers body);
           MockTestAttempt.score := storedScore c;
           MockTestAttempt.totalMarks := MockTest.totalMarks test;
           MockTestAttempt.correctCount := correctCount c;
           MockTestAttempt.wrongCount := wrongCount c;
           MockTestAttempt.skippedCount := skippedCount c;
           MockTestAttempt.accuracy := roundTenth accuracy;
           MockTestAttempt.timeTaken := or_int (timeTaken body) 0;
           MockTestAttempt.subjectWise := subjectWise c;
           MockTestAttempt.analysis := analysis;
           MockTestAttempt.completedAt := Some now |} in
      let st1 :=
        bumpId (set_mockTestAttempts (mockTestAttempts st ++ [attempt]) st) in
      let st2 :=
        logActivity userId "mock_test" "Completed Mock Test"
          ("Score: " +:+ pretty (round score) +:+ "/"
           +:+ pretty (MockTest.totalMarks test)) st1 in
      (st2,
       ok (JObj [("status", JStr "success");
                 ("data", JObj [("attemptId", JStr (MockTestAttempt.id attempt));
                                ("testId", JStr testId)])]))
  end.

End MockTestController.

(** ** controllers/dailyMcq.controller.ts *)

Module DailyMcqController.

(** One element of the [answers] array of POST /api/daily-mcq/today/submit. *)
Record Answer : Type := mkAnswer {
  questionId : string;
  selectedOption : option string;
  timeTaken : option Z
}.

(** The [answers] property of the body: absent, an array, or a value that
    has no [find] method. *)
Inductive answersField : Type :=
| NoAnswers
| AnswerList (l : list Answer)
| NotAnArray.

Record SubmitBody : Type := mkSubmitBody {
  answers : answersField;
  bodyTimeTaken : option Z
}.

(** The entry of [topicResults] for one category. *)
Record topic : Type := mkTopic { correct : Z; total : Z }.

(** One element of [responseData]. *)
Record responseDatum : Type := mkDatum {
  r_questionId : string;
  r_selectedOption : option string;
  r_isCorrect : option bool;
  r_timeTaken : Z
}.

Definition optionsJson (opts : list (string * string)) : json :=
  JArr ((fun o => JObj [("id", JStr (fst o)); ("text", JStr (snd o))]) <$> opts).

(** [select: { id, questionNum, questionText, category, difficulty,
    options }]. *)
Definition selectQuestion (q : MCQQuestion.t) : json :=
  JObj [("id", JStr (MCQQuestion.id q));
        ("questionNum", JInt (MCQQuestion.questionNum q));
        ("questionText", JStr (MCQQuestion.questionText q));
        ("category", JStr (MCQQuestion.category q));
        ("difficulty", JStr (MCQQuestion.difficulty q));
        ("options", optionsJson (MCQQuestion.options q))].

(** [prisma.dailyMCQ.findUnique({ where: { date: today } })]. *)
Definition findMcq (st : State) (today : Date) : option DailyMCQ.t :=
  find (fun m => sameTime (DailyMCQ.date m) today) (dailyMCQs st).

(** [include: { questions: true }]. *)
Definition questionsOf (st : State) (mcqId : string) : list MCQQuestion.t :=
  filter (fun q => MCQQuestion.dailyMcqId q = mcqId) (mcqQuestions st).

Definition getTodayQuestions (st : State) (now : Date) : outcome :=
  let today := getToday now in
  match findMcq st today with
  | None => Respond 404 (errorBody "No MCQ challenge available for today")
  | Some mcq =>
      let questions :=
        selectQuestion
          <$> orderBy MCQQuestion.questionNum (questionsOf st (DailyMCQ.id mcq)) in
      ok (JObj [("status", JStr "success");
                ("data", JObj [("mcqId", JStr (DailyMCQ.id mcq));
                               ("timeLimit", JInt (DailyMCQ.timeLimit mcq));
                               ("totalMarks", JInt (DailyMCQ.totalMarks mcq));
                               ("questions", JArr questions)])])
  end.

(** [getWeekActivity]. *)
Definition getWeekActivity (today : Date) : list bool :=
  let dayOfWeek := getDay today in
  let mondayIndex := if dayOfWeek =? 0 then 6 else dayOfWeek - 1 in
  <[Z.to_nat mondayIndex := true]> (replicate 7 false).

(** [prisma.userStreak.findUnique({ where: { userId } })]. *)
Definition findStreak (st : State) (userId : string) : option UserStreak.t :=
  find (fun s => String.eqb (UserStreak.userId s) userId) (userStreaks st).

(** [updateStreak]. *)
Definition updateStreak (st : State) (now : Date) (userId : string) : State :=
  let today := setHours0 now in
  match findStreak st userId with
  | None =>
      set_userStreaks
        (userStreaks st
           ++ [UserStreak.mk userId 1 1 (Some today) (getWeekActivity today)])
        st
  | Some streak =>
      let lastActive := setHours0 <$> UserStreak.lastActiveDate streak in
      let isToday :=
        match lastActive with
        | Some d => sameTime d today
        | None => false
        end in
      if isToday then st
      else
        let yesterday := prevDay today in
        let isConsecutive :=
          match lastActive with
          | Some d => sameTime d yesterday
          | None => false
          end in
        let newStreak :=
          if isConsecutive then UserStreak.currentStreak streak + 1 else 1 in
        let newLongest := Z.max newStreak (UserStreak.longestStreak streak) in
        set_userStreaks
          (updateWhere (fun s => String.eqb (UserStreak.userId s) userId)
             (fun s =>
                UserStreak.mk (UserStreak.userId s) newStreak newLongest
                  (Some today) (getWeekActivity today))
             (userStreaks st))
          st
  end.

(** [answers?.find((a) => a.questionId === q.id)] on an array. *)
Definition findAnswer (l : list Answer) (qid : string) : option Answer :=
  find (fun a => String.eqb (questionId a) qid) l.

(** The accumulators of the loop of [submitMCQ]. *)
Record counters : Type := mkCounters {
  correctCount : Z;
  wrongCount : Z;
  skippedCount : Z;
  topicResults : list (string * topic);
  responseData : list responseDatum
}.

(** The body of [for (const q of mcq.questions)]. *)
Definition grade (l : list Answer) (acc : counters) (q : MCQQuestion.t)
  : counters :=
  let answer := findAnswer l (MCQQuestion.id q) in
  let selected := or_null (answer ≫= selectedOption) in
  let isCorrect :=
    (fun s => String.eqb s (MCQQuestion.correctOption q)) <$> selected in
  let bumpTopic (hit : bool) :=
    bumpObject (mkTopic 0 0) (MCQQuestion.category q)
      (fun v => mkTopic (if hit then correct v + 1 else correct v) (total v + 1))
      (topicResults acc) in
  let datum :=
    mkDatum (MCQQuestion.id q) selected isCorrect
      (or_int (answer ≫= timeTaken) 0) in
  match isCorrect with
  | None =>
      mkCounters (correctCount acc) (wrongCount acc) (skippedCount acc + 1)
        (bumpTopic false) (responseData acc ++ [datum])
  | Some true =>
      mkCounters (correctCount acc + 1) (wrongCount acc) (skippedCount acc)
        (bumpTopic true) (responseData acc ++ [datum])
  | Some false =>
      mkCounters (correctCount acc) (wrongCount acc + 1) (skippedCount acc)
        (bumpTopic false) (responseData acc ++ [datum])
  end.

Definition gradeAll (l : list Answer) (questions : list MCQQuestion.t)
  : counters :=
  foldl (grade l) (mkCounters 0 0 0 [] []) questions.

(** [correctCount * (mcq.totalMarks / mcq.questionCount)] in doubles,
    rounded to one decimal; not a finite number when [questionCount] is
    zero. *)
Definition scoreOf (correctCount : Z) (mcq : DailyMCQ.t) : option Q :=
  if DailyMCQ.questionCount mcq =? 0 then None
  else
    Some (roundTenth
            (fmul (inject_Z correctCount)
               (fdiv (inject_Z (DailyMCQ.totalMarks mcq))
                  (inject_Z (DailyMCQ.questionCount mcq))))).

Definition accuracyOf (correctCount wrongCount : Z) : Q :=
  let totalAnswered := correctCount + wrongCount in
  if 0 <? totalAnswered
  then fmul (fdiv (inject_Z correctCount) (inject_Z totalAnswered)) 100
  else 0.

(** [v.correct / v.total], compared with [0.7] and [0.5] as it is: the
    doubles of the quotient and of [0.7] compare the same way. *)
Definition ratio (v : topic) : Q := inject_Z (correct v) / inject_Z (total v).

Definition strongTopicsOf (tr : list (string * topic)) : list string :=
  fst <$> filter (fun kv => (0 <? total (snd kv))
                            && Qle_bool 0.7 (ratio (snd kv)) = true)
            (entries tr).

Definition weakTopicsOf (tr : list (string * topic)) : list string :=
  fst <$> filter (fun kv => (0 <? total (snd kv))
                            && qlt (ratio (snd kv)) 0.5 = true)
            (entries tr).

(** The unique key [userId_dailyMcqId]. *)
Definition hasKey (userId mcqId : string) (a : MCQAttempt.t) : bool :=
  String.eqb (MCQAttempt.userId a) userId
  && String.eqb (MCQAttempt.dailyMcqId a) mcqId.

Definition findAttempt (st : State) (userId mcqId : string)
  : option MCQAttempt.t :=
  find (hasKey userId mcqId) (mcqAttempts st).

(** The unique key [attemptId_questionId]. *)
Definition hasResponseKey (attemptId questionId : string) (r : MCQResponse.t)
  : bool :=
  String.eqb (MCQResponse.attemptId r) attemptId
  && String.eqb (MCQResponse.questionId r) questionId.

(** [prisma.mCQResponse.upsert] for one element of [responseData]. *)
Definition upsertResponse (attemptId : string) (st : State) (r : responseDatum)
  : State :=
  match find (hasResponseKey attemptId (r_questionId r)) (mcqResponses st) with
  | Some _ =>
      set_mcqResponses
        (updateWhere (hasResponseKey attemptId (r_questionId r))
           (fun x =>
              MCQResponse.mk (MCQResponse.attemptId x) (MCQResponse.questionId x)
                (r_selectedOption r) (r_isCorrect r) (r_timeTaken r))
           (mcqResponses st))
        st
  | None =>
      set_mcqResponses
        (mcqResponses st
           ++ [MCQResponse.mk attemptId (r_questionId r) (r_selectedOption r)
                 (r_isCorrect r) (r_timeTaken r)])
        st
  end.

Definition numJson (x : option Q) : json :=
  match x with
  | Some q => JNum q
  | None => JNull
  end.

Definition submitMCQ (st : State) (now : Date) (userId : string)
    (body : SubmitBody) : State * outcome :=
  let today := getToday now in
  match findMcq st today with
  | None => (st, Respond 404 (errorBody "No MCQ challenge available for today"))
  | Some mcq =>
      let existing := findAttempt st userId (DailyMCQ.id mcq) in
      if bool_decide (is_Some (existing ≫= MCQAttempt.completedAt)) then
        (st, Respond 400 (errorBody "You have already submitted today's MCQ"))
      else
        let questions := questionsOf st (DailyMCQ.id mcq) in
        match answers body, questions with
        | NotAnArray, _ :: _ =>
            (st, Next (typeError "answers.find is not a function"))
        | _, _ =>
            let l :=
              match answers body with
              | AnswerList l => l
              | _ => []
              end in
            let c := gradeAll l questions in
            let accuracy := accuracyOf (correctCount c) (wrongCount c) in
            let score := scoreOf (correctCount c) mcq in
            let strongTopics := strongTopicsOf (topicResults c) in
            let weakTopics := weakTopicsOf (topicResults c) in
            let timeTaken := or_int (bodyTimeTaken body) 0 in
            let '(attempt, st1) :=
              match existing with
              | Some old =>
                  let upd (a : MCQAttempt.t) :=
                    MCQAttempt.mk (MCQAttempt.id a) (MCQAttempt.userId a)
                      (MCQAttempt.dailyMcqId a) score (MCQAttempt.totalMarks a)
                      (correctCount c) (wrongCount c) (skippedCount c)
                      (roundTenth accuracy) timeTaken strongTopics weakTopics
                      (Some now) in
                  (upd old,
                   set_mcqAttempts
                     (updateWhere (hasKey userId (DailyMCQ.id mcq)) upd
                        (mcqAttempts st)) st)
              | None =>
                  let a :=
                    MCQAttempt.mk (genId st) userId (DailyMCQ.id mcq) score
                      (DailyMCQ.totalMarks mcq) (correctCount c) (wrongCount c)
                      (skippedCount c) (roundTenth accuracy) timeTaken
                      strongTopics weakTopics (Some now) in
                  (a, bumpId (set_mcqAttempts (mcqAttempts st ++ [a]) st))
              end in
            let st2 :=
              foldl (upsertResponse (MCQAttempt.id attempt)) st1
                (responseData c) in
            let st3 :=
              logActivity userId "mcq" "Completed Daily MCQ"
                ("Scored " +:+ pretty (correctCount c) +:+ "/"
                 +:+ pretty (DailyMCQ.questionCount mcq) +:+ " ("
                 +:+ pretty (round accuracy) +:+ "%)") st2 in
            let st4 := updateStreak st3 now userId in
            (st4,
             ok (JObj
                   [("status", JStr "success");
                    ("data",
                     JObj [("attemptId", JStr (MCQAttempt.id attempt));
                           ("score", numJson (MCQAttempt.score attempt));
                           ("totalMarks", JInt (MCQAttempt.totalMarks attempt));
                           ("correctCount", JInt (correctCount c));
                           ("wrongCount", JInt (wrongCount c));
                           ("skippedCount", JInt (skippedCount c));
                           ("accuracy", JNum (MCQAttempt.accuracy attempt));
                           ("timeTaken", JInt (MCQAttempt.timeTaken attempt));
                           ("strongTopics", JArr (JStr <$> strongTopics));
                           ("weakTopics", JArr (JStr <$> weakTopics))])]))
        end
  end.

End DailyMcqController.

(** ** controllers/studyPlanner.controller.ts *)

Module StudyPlannerController.

Definition findStreak (st : State) (userId : string) : option StudyStreak.t :=
  find (fun s => String.eqb (StudyStreak.userId s) userId) (studyStreaks st).

(** [getStudyStreak]: the record is created at zero when absent. *)
Definition getStudyStreak (st : State) (userId : string) : State * StudyStreak.t :=
  match findStreak st userId with
  | Some streak => (st, streak)
  | None =>
      let streak := StudyStreak.mk userId 0 0 0 None in
      (set_studyStreaks (studyStreaks st ++ [streak]) st, streak)
  end.

(** [updateStudyStreak]. *)
Definition updateStudyStreak (st : State) (now : Date) (userId : string)
  : State :=
  let today := getToday now in
  match findStreak st userId with
  | None =>
      set_studyStreaks
        (studyStreaks st ++ [StudyStreak.mk userId 1 1 1 (Some today)]) st
  | Some streak =>
      let lastDate := setHours0 <$> StudyStreak.lastStudyDate streak in
      let isToday :=
        match lastDate with
        | Some d => sameTime d today
        | None => false
        end in
      if isToday then st
      else
        let yesterday := prevDay today in
        let isConsecutive :=
          match lastDate with
          | Some d => sameTime d yesterday
          | None => false
          end in
        let newStreak :=
          if isConsecutive then StudyStreak.currentStreak streak + 1 else 1 in
        set_studyStreaks
          (updateWhere (fun s => String.eqb (StudyStreak.userId s) userId)
             (fun s =>
                StudyStreak.mk (StudyStreak.userId s) newStreak
                  (Z.max newStreak (StudyStreak.longestStreak streak))
                  (StudyStreak.totalStudyDays streak + 1) (Some today))
             (studyStreaks st))
          st
  end.

End StudyPlannerController.

(** ** controllers/dashboard.controller.ts *)

Module DashboardController.

(** [getStreak]: the record is created at zero when absent. *)
Definition getStreak (st : State) (userId : string) : State * UserStreak.t :=
  match DailyMcqController.findStreak st userId with
  | Some streak => (st, streak)
  | None =>
      let streak := UserStreak.mk userId 0 0 None (replicate 7 false) in
      (set_userStreaks (userStreaks st ++ [streak]) st, streak)
  end.

End DashboardController.

(** ** controllers/dailyAnswer.controller.ts *)

Module DailyAnswerController.

(** The [answerText] property of the body: absent, a string, or a value of
    another type ([null], a number, a boolean, an object), of which only the
    truthiness matters. *)
Inductive textField : Type :=
| TextMissing
| TextStr (s : text)
| TextOther (truthy : bool).

(** The white space of [trim] and of the class [\s]: the code units of
    the language's WhiteSpace (tab, vertical tab, form feed, space,
    no-break space, U+FEFF and the space separators U+1680, U+2000 to
    U+200A, U+202F, U+205F, U+3000) and LineTerminator (line feed, carriage
    return, U+2028, U+2029). *)
Definition isSpace (c : N) : bool :=
  (((9 <=? c) && (c <=? 13)) || (c =? 32) || (c =? 160) || (c =? 5760)
   || ((8192 <=? c) && (c <=? 8202)) || (c =? 8232) || (c =? 8233)
   || (c =? 8239) || (c =? 8287) || (c =? 12288) || (c =? 65279))%N.

Fixpoint trimStart (s : text) : text :=
  match s with
  | [] => []
  | c :: r => if isSpace c then trimStart r else s
  end.

Fixpoint trimEnd (s : text) : text :=
  match s with
  | [] => []
  | c :: r =>
      match trimEnd r with
      | [] => if isSpace c then [] else [c]
      | r' => c :: r'
      end
  end.

(** [s.trim()]. *)
Definition trim (s : text) : text := trimEnd (trimStart s).

(** [s.split(/\s+/)]: [cur] is the piece being read, [inSep] tells that the
    last code unit belonged to a separator. *)
Fixpoint splitFrom (cur : text) (inSep : bool) (s : text) : list text :=
  match s with
  | [] => [cur]
  | c :: r =>
      if isSpace c then
        if inSep then splitFrom cur true r
        else cur :: splitFrom [] true r
      else splitFrom (cur ++ [c]) false r
  end.

Definition splitSpaces (s : text) : list text :=
  splitFrom [] false s.

Definition findQuestion (st : State) (today : Date)
  : option DailyMainsQuestion.t :=
  find (fun q => sameTime (DailyMainsQuestion.date q) today)
    (dailyMainsQuestions st).

(** The unique key [userId_questionId]. *)
Definition hasKey (userId questionId : string) (a : MainsAttempt.t) : bool :=
  String.eqb (MainsAttempt.userId a) userId
  && String.eqb (MainsAttempt.questionId a) questionId.

Definition findAttempt (st : State) (userId questionId : string)
  : option MainsAttempt.t :=
  find (hasKey userId questionId) (mainsAttempts st).

(** [include: { evaluation: true }]: the evaluation of an attempt. *)
Definition evaluationOf (st : State) (attemptId : string)
  : option MainsEvaluation.t :=
  find (fun e => String.eqb (MainsEvaluation.attemptId e) attemptId)
    (mainsEvaluations st).

(** The [update] of the upsert of [startEvaluation]:
    [{ status: "evaluating" }]. *)
Definition markEvaluating (e : MainsEvaluation.t) : MainsEvaluation.t :=
  MainsEvaluation.mk (MainsEvaluation.id e) (MainsEvaluation.attemptId e)
    (MainsEvaluation.score e) (MainsEvaluation.maxScore e) "evaluating"
    (MainsEvaluation.strengths e) (MainsEvaluation.improvements e)
    (MainsEvaluation.suggestions e) (MainsEvaluation.detailedFeedback e)
    (MainsEvaluation.evaluatedAt e).

(** [startEvaluation]: the record is created in, or put back to, the state
    evaluating, and a callback is armed. *)
Definition startEvaluation (st : State) (attemptId : string)
    (answerText : option text) (question : DailyMainsQuestion.t) : State :=
  let '(evaluation, st1) :=
    match evaluationOf st attemptId with
    | Some old =>
        (markEvaluating old,
         set_mainsEvaluations
           (updateWhere
              (fun e => String.eqb (MainsEvaluation.attemptId e) attemptId)
              markEvaluating (mainsEvaluations st)) st)
    | None =>
        let e :=
          MainsEvaluation.mk (genId st) attemptId 0
            (DailyMainsQuestion.marks question) "evaluating" [] [] [] None None in
        (e, bumpId (set_mainsEvaluations (mainsEvaluations st ++ [e]) st))
    end in
  set_timers
    (timers st1
       ++ [Timer.mk (MainsEvaluation.id evaluation) answerText
             (DailyMainsQuestion.marks question)])
    st1.

Definition strengthsText : list string :=
  ["Good understanding of the core concept";
   "Well-structured argument with logical flow";
   "Relevant examples cited"].

Definition improvementsText : list string :=
  ["Could include more recent case studies";
   "Introduction could be more impactful";
   "Add a stronger conclusion"].

Definition suggestionsText : list string :=
  ["Reference constitutional provisions directly";
   "Include a diagram or flowchart where applicable";
   "Cite committee recommendations (e.g., Sarkaria Commission)"].

Definition feedbackText : string :=
  "Your answer demonstrates a solid grasp of the subject. The structure follows a logical progression. To improve further, focus on making your introduction more engaging and your conclusion more decisive.".

(** The score the callback computes; [r] is the value of [Math.random].
    The sum is made in doubles, [0.6] and [0.3] being the doubles nearest
    to these decimals: with 36 marks and [r = 0.125] it is
    13.499999999999998 and the score 13. *)
Definition simulatedScore (answerText : option text) (marks : Z) (r : Q) : Q :=
  match answerText with
  | Some (_ :: _) =>
      Js.min (inject_Z marks)
        (Js.max 3
           (inject_Z
              (round (fadd (fmul (fmul r (inject_Z marks)) (rnd 0.6))
                        (fmul (inject_Z marks) (rnd 0.3))))))
  | _ => fmul (inject_Z marks) 0.5
  end.

(** The [data] of the update of the callback. *)
Definition markCompleted (score : Q) (now : Date) (e : MainsEvaluation.t)
  : MainsEvaluation.t :=
  MainsEvaluation.mk (MainsEvaluation.id e) (MainsEvaluation.attemptId e)
    score (MainsEvaluation.maxScore e) "completed" strengthsText
    improvementsText suggestionsText (Some feedbackText) (Some now).

(** The callback of [setTimeout] for the closure [t], run at [now]. *)
Definition evaluationCallback (t : Timer.t) (now : Date) (r : Q) (st : State)
  : State :=
  let score := simulatedScore (Timer.answerText t) (Timer.marks t) r in
  set_mainsEvaluations
    (updateWhere
       (fun e => String.eqb (MainsEvaluation.id e) (Timer.evaluationId t))
       (markCompleted score now) (mainsEvaluations st))
    st.

(** The [k]-th armed timer expires: it leaves the list of armed timers and
    its callback runs once. *)
Definition fireTimer (st : State) (k : nat) (now : Date) (r : Q) : State :=
  match timers st !! k with
  | None => st
  | Some t => evaluationCallback t now r (set_timers (delete k (timers st)) st)
  end.

Definition submitted (attemptId : string) : outcome :=
  ok (JObj [("status", JStr "success");
            ("data", JObj [("attemptId", JStr attemptId);
                           ("status", JStr "evaluating")])]).

(** [prisma.mainsAttempt.upsert({ where: { userId_questionId }, create,
    update })]: the row written and the store after; [create] gets the
    generated id. *)
Definition upsertAttempt (st : State) (userId questionId : string)
    (create : string -> MainsAttempt.t)
    (update : MainsAttempt.t -> MainsAttempt.t) : MainsAttempt.t * State :=
  match findAttempt st userId questionId with
  | Some old =>
      (update old,
       set_mainsAttempts
         (updateWhere (hasKey userId questionId) update (mainsAttempts st)) st)
  | None =>
      let a := create (genId st) in
      (a, bumpId (set_mainsAttempts (mainsAttempts st ++ [a]) st))
  end.

(** [answerText.trim().split(/\s+/).length]. *)
Definition wordCountOf (text : text) : Z :=
  Z.of_nat (length (splitSpaces (trim text))).

(** The [update] of the upsert of [submitTextAnswer]:
    [{ answerText, wordCount, submittedAt: new Date() }]. *)
Definition withText (text : text) (now : Date) (a : MainsAttempt.t)
  : MainsAttempt.t :=
  MainsAttempt.mk (MainsAttempt.id a) (MainsAttempt.userId a)
    (MainsAttempt.questionId a) (Some text) (MainsAttempt.fileUrl a)
    (Some (wordCountOf text)) (Some now).

(** The [update] of the upsert of [uploadAnswer]:
    [{ fileUrl, submittedAt: new Date() }]; an undefined [fileUrl] leaves
    the column as it is. *)
Definition withFile (fileUrl : option string) (now : Date) (a : MainsAttempt.t)
  : MainsAttempt.t :=
  MainsAttempt.mk (MainsAttempt.id a) (MainsAttempt.userId a)
    (MainsAttempt.questionId a) (MainsAttempt.answerText a)
    (match fileUrl with
     | Some u => Some u
     | None => MainsAttempt.fileUrl a
     end)
    (MainsAttempt.wordCount a) (Some now).

Definition submitTextAnswer (st : State) (now : Date) (userId : string)
    (answerText : textField) : State * outcome :=
  match answerText with
  | TextMissing | TextOther false =>
      (st, Respond 400 (errorBody "Answer text is required"))
  | TextOther true =>
      (st, Next (typeError "answerText.trim is not a function"))
  | TextStr text =>
      if negb (truthy_text text) || (length (trim text) =? 0)%nat then
        (st, Respond 400 (errorBody "Answer text is required"))
      else
        let today := getToday now in
        match findQuestion st today with
        | None => (st, Respond 404 (errorBody "No mains question for today"))
        | Some question =>
            let qid := DailyMainsQuestion.id question in
            let wordCount := wordCountOf text in
            let '(attempt, st1) :=
              upsertAttempt st userId qid
                (fun id =>
                   MainsAttempt.mk id userId qid (Some text) None
                     (Some wordCount) (Some now))
                (withText text now) in
            let st2 :=
              startEvaluation st1 (MainsAttempt.id attempt) (Some text)
                question in
            let st3 :=
              logActivity userId "answer" "Submitted Daily Answer"
                (DailyMainsQuestion.subject question +:+ " - "
                 +:+ pretty wordCount +:+ " words") st2 in
            (st3, submitted (MainsAttempt.id attempt))
        end
  end.

Definition uploadAnswer (st : State) (now : Date) (userId : string)
    (fileUrl : option string) : State * outcome :=
  let today := getToday now in
  match findQuestion st today with
  | None => (st, Respond 404 (errorBody "No mains question for today"))
  | Some question =>
      let qid := DailyMainsQuestion.id question in
      let '(attempt, st1) :=
        upsertAttempt st userId qid
          (fun id => MainsAttempt.mk id userId qid None fileUrl None (Some now))
          (withFile fileUrl now) in
      let st2 := startEvaluation st1 (MainsAttempt.id attempt) None question in
      let st3 :=
        logActivity userId "answer" "Uploaded Daily Answer"
          (DailyMainsQuestion.subject question) st2 in
      (st3, submitted (MainsAttempt.id attempt))
  end.

(** [attempt.evaluation?.status || "pending"]. *)
Definition reportedStatus (evaluation : option MainsEvaluation.t) : string :=
  or_str (MainsEvaluation.status <$> evaluation) "pending".

(** [attempt.evaluation?.status === "completed"]. *)
Definition reportedComplete (evaluation : option MainsEvaluation.t) : bool :=
  match evaluation with
  | Some e => String.eqb (MainsEvaluation.status e) "completed"
  | None => false
  end.

Definition getEvaluationStatus (st : State) (now : Date) (userId : string)
  : outcome :=
  let today := getToday now in
  match findQuestion st today with
  | None => Respond 404 (errorBody "No mains question for today")
  | Some question =>
      match findAttempt st userId (DailyMainsQuestion.id question) with
      | None => Respond 404 (errorBody "No attempt found")
      | Some attempt =>
          let evaluation := evaluationOf st (MainsAttempt.id attempt) in
          ok (JObj
                [("status", JStr "success");
                 ("data",
                  JObj [("attemptId", JStr (MainsAttempt.id attempt));
                        ("evaluationStatus", JStr (reportedStatus evaluation));
                        ("isComplete", JBool (reportedComplete evaluation))])])
      end
  end.

End DailyAnswerController.

(** ** Requests and timer expiries as events *)

Inductive event : Type :=
| GenerateTest (draw : nat -> nat) (userId : string)
    (body : MockTestController.GenerateBody)
| SubmitTest (now : Date) (userId testId : string)
    (body : MockTestController.SubmitBody)
| SubmitMCQ (now : Date) (userId : string) (body : DailyMcqController.SubmitBody)
| SubmitTextAnswer (now : Date) (userId : string)
    (answerText : DailyAnswerController.textField)
| UploadAnswer (now : Date) (userId : string) (fileUrl : option string)
| TimerExpires (k : nat) (now : Date) (r : Q)
| GetStreak (userId : string)
| GetStudyStreak (userId : string)
| CompleteTask (now : Date) (userId : string).

(** [GenerateTest] to [UploadAnswer] are requests to the handlers of the
    same name, [TimerExpires k] is the expiry of the [k]-th armed timer,
    [GetStreak] and [GetStudyStreak] are the two GET requests that create
    a missing streak record, and [CompleteTask] is the call of
    [updateStudyStreak] that [updateTask] makes for a task it marks
    completed. *)

(** The store after one event. *)
Definition step (st : State) (ev : event) : State :=
  match ev with
  | GenerateTest draw u body => fst (MockTestController.generateTest draw st u body)
  | SubmitTest now u t body => fst (MockTestController.submitTest st now u t body)
  | SubmitMCQ now u body => fst (DailyMcqController.submitMCQ st now u body)
  | SubmitTextAnswer now u txt =>
      fst (DailyAnswerController.submitTextAnswer st now u txt)
  | UploadAnswer now u url => fst (DailyAnswerController.uploadAnswer st now u url)
  | TimerExpires k now r => DailyAnswerController.fireTimer st k now r
  | GetStreak u => fst (DashboardController.getStreak st u)
  | GetStudyStreak u => fst (StudyPlannerController.getStudyStreak st u)
  | CompleteTask now u => StudyPlannerController.updateStudyStreak st now u
  end.

Definition run (st : State) (evs : list event) : State := foldl step st evs.

(** ** The properties, in the words of the specification *)

Module Spec.

(** An HTTP status code: three digits. *)
Definition httpStatus (c : Z) : Prop := 100 <= c <= 999.




(** The option a submission selected for a question: a missing or empty
    entry is no selection. *)
Definition selection (answers : option (gmap string string))
    (q : MockTestQuestion.t) : option string :=
  match answers with
  | Some m =>
      match m !! MockTestQuestion.id q with
      | Some s => if decide (s = "") then None else Some s
      | None => None
      end
  | None => None
  end.

Definition answeredCorrectly (answers : option (gmap string string))
    (q : MockTestQuestion.t) : Prop :=
  selection answers q = Some (MockTestQuestion.correctOption q).

Definition answeredWrongly (answers : option (gmap string string))
    (q : MockTestQuestion.t) : Prop :=
  is_Some (selection answers q)
  ∧ selection answers q ≠ Some (MockTestQuestion.correctOption q).

Definition skipped (answers : option (gmap string string))
    (q : MockTestQuestion.t) : Prop :=
  selection answers q = None.

#[global] Instance answeredCorrectly_dec answers q
  : Decision (answeredCorrectly answers q) :=
  decide (selection answers q = Some (MockTestQuestion.correctOption q)).

#[global] Instance answeredWrongly_dec answers q
  : Decision (answeredWrongly answers q) :=
  decide (is_Some (selection answers q)
          ∧ selection answers q ≠ Some (MockTestQuestion.correctOption q)).

#[global] Instance skipped_dec answers q : Decision (skipped answers q) :=
  decide (selection answers q = None).

Definition numCorrect (answers : option (gmap string string))
    (qs : list MockTestQuestion.t) : Z :=
  Z.of_nat (length (filter (answeredCorrectly answers) qs)).

Definition numWrong (answers : option (gmap string string))
    (qs : list MockTestQuestion.t) : Z :=
  Z.of_nat (length (filter (answeredWrongly answers) qs)).

Definition numSkipped (answers : option (gmap string string))
    (qs : list MockTestQuestion.t) : Z :=
  Z.of_nat (length (filter (skipped answers) qs)).

(** The correct-minus-penalty formula. *)
Definition penaltyScore (nCorrect nWrong : Z) : Q :=
  inject_Z nCorrect * 2 - inject_Z nWrong * 0.66.

(** The id the next created row gets is not yet used by a mock test, nor
    referred to by a question. *)
Definition freshTestId (st : State) : Prop :=
  Forall (fun t => MockTest.id t ≠ genId st) (mockTests st)
  ∧ Forall (fun q => MockTestQuestion.mockTestId q ≠ genId st)
      (mockTestQuestions st).

(** A request was answered with [res.json], status 200. *)
Definition accepted (o : outcome) : bool :=
  match o with
  | Respond code _ => code =? 200
  | Next _ => false
  end.

(** The attempts a user has for one daily MCQ, and for one mains question. *)
Definition mcqAttemptsOf (st : State) (userId mcqId : string)
  : list MCQAttempt.t :=
  filter (fun a => DailyMcqController.hasKey userId mcqId a = true)
    (mcqAttempts st).

Definition mainsAttemptsOf (st : State) (userId questionId : string)
  : list MainsAttempt.t :=
  filter (fun a => DailyAnswerController.hasKey userId questionId a = true)
    (mainsAttempts st).

Definition oneAttemptPerItem (st : State) : Prop :=
  (∀ u i, (length (mcqAttemptsOf st u i) ≤ 1)%nat)
  ∧ (∀ u i, (length (mainsAttemptsOf st u i) ≤ 1)%nat).

(** The order pending, evaluating, completed of the evaluation status. *)
Definition rank (status : string) : Z :=
  if decide (status = "completed") then 2
  else if decide (status = "evaluating") then 1
  else 0.

(** The white-space code units of JavaScript: U+0009 to U+000D, U+0020,
    U+00A0, U+1680, U+2000 to U+200A, U+2028, U+2029, U+202F, U+205F,
    U+3000 and U+FEFF. *)
Definition whiteSpace : list N :=
  [9; 10; 11; 12; 13; 32; 160; 5760;
   8192; 8193; 8194; 8195; 8196; 8197; 8198; 8199; 8200; 8201; 8202;
   8232; 8233; 8239; 8287; 12288; 65279]%N.

(** A text made of white space only (the empty text included). *)
Definition whitespaceOnly (s : text) : bool :=
  forallb (fun c => bool_decide (c ∈ whiteSpace)) s.

(** An [answerText] that is missing, empty or made of white space only; a
    value that is no string counts as missing when it is falsy ([null], [0],
    [false]). *)
Definition blank (f : DailyAnswerController.textField) : Prop :=
  match f with
  | DailyAnswerController.TextMissing => True
  | DailyAnswerController.TextStr s => whitespaceOnly s = true
  | DailyAnswerController.TextOther truthy => truthy = false
  end.

(** A question with its answer and its explanation blanked out. *)
Definition redact (q : MCQQuestion.t) : MCQQuestion.t :=
  MCQQuestion.mk (MCQQuestion.id q) (MCQQuestion.dailyMcqId q)
    (MCQQuestion.questionNum q) (MCQQuestion.questionText q)
    (MCQQuestion.category q) (MCQQuestion.difficulty q) (MCQQuestion.options q)
    "" "".

(** Two stores that differ at most in the [correctOption] and [explanation]
    of the MCQ questions. *)
Definition sameUpToAnswers (st1 st2 : State) : Prop :=
  dailyMCQs st1 = dailyMCQs st2
  ∧ redact <$> mcqQuestions st1 = redact <$> mcqQuestions st2.

(** The rule of the streak: given the day last recorded, today, and the
    current streak, either the record is [unchanged] or the streak becomes
    [newCurrent]. *)
Definition streakRule (last : option Z) (today current : Z)
    (unchanged : Prop) (newCurrent : option Z) : Prop :=
  (last = Some today → unchanged)
  ∧ (last = Some (today - 1) → newCurrent = Some (current + 1))
  ∧ (last ≠ Some today → last ≠ Some (today - 1) → newCurrent = Some 1).

(** The invariant of the streak tables. *)
Definition streaksBounded (st : State) : Prop :=
  Forall (fun s => UserStreak.currentStreak s ≤ UserStreak.longestStreak s)
    (userStreaks st)
  ∧ Forall (fun s => StudyStreak.currentStreak s ≤ StudyStreak.longestStreak s)
      (studyStreaks st).

End Spec.

(** ** Vocabulary of the proofs *)

Section UpsertStep.

Context {A : Type} (hasKey : string -> string -> A -> bool).

(** How an upsert on a unique key of two columns changes a table: not at
    all, by rewriting rows without touching their key, or by adding a row
    whose key no row has. *)
Inductive upsertStep (l : list A) : list A -> Prop :=
| upsert_same : upsertStep l l
| upsert_update (p : A -> bool) (f : A -> A) :
    (forall a u i, hasKey u i (f a) = hasKey u i a) ->
    upsertStep l (updateWhere p f l)
| upsert_create (a : A) (u i : string) :
    find (hasKey u i) l = None -> hasKey u i a = true ->
    upsertStep l (l ++ [a]).

(** The rows that have a given key. *)
Definition rowsFor (u i : string) (l : list A) : list A :=
  filter (fun a => hasKey u i a = true) l.

End UpsertStep.

(** The tables of the daily quiz and the daily question that the handlers
    of the daily answer never write. *)
Definition quizTables (st : State) :=
  (dailyMCQs st, mcqQuestions st, mcqAttempts st, dailyMainsQuestions st).

(** The tables of the daily items: what the handlers of the mock tests,
    of the streaks and of the activity log never write. *)
Definition dailyTables (st : State) :=
  (quizTables st, mainsAttempts st, mainsEvaluations st, timers st).

(** The events that submit an answer to the daily mains question. *)
Definition isSubmission (ev : event) : bool :=
  match ev with
  | SubmitTextAnswer _ _ _ | UploadAnswer _ _ _ => true
  | _ => false
  end.

(** What an accepted submission of [answerText] by [userId] to [question]
    leaves behind: the attempt of the user, written by an upsert; its
    evaluation, in the state evaluating, either put back there or created;
    one more armed timer, for that evaluation. *)
Definition submissionEffect (st st' : State) (userId : string)
    (question : DailyMainsQuestion.t) (answerText : option text) : Prop :=
  quizTables st' = quizTables st
  ∧ upsertStep DailyAnswerController.hasKey (mainsAttempts st)
      (mainsAttempts st')
  ∧ ∃ attempt e,
      DailyAnswerController.findAttempt st' userId
        (DailyMainsQuestion.id question) = Some attempt
      ∧ DailyAnswerController.evaluationOf st' (MainsAttempt.id attempt) = Some e
      ∧ MainsEvaluation.status e = "evaluating"
      ∧ timers st'
        = timers st
          ++ [Timer.mk (MainsEvaluation.id e) answerText
                (DailyMainsQuestion.marks question)]
      ∧ (mainsEvaluations st'
         = updateWhere
             (fun x =>
                String.eqb (MainsEvaluation.attemptId x)
                  (MainsAttempt.id attempt))
             DailyAnswerController.markEvaluating (mainsEvaluations st)
         ∨ mainsEvaluations st' = mainsEvaluations st ++ [e]).

(** No evaluation of the first table has a status above its counterpart
    in the second. *)
Definition statusNotLowered (before after : list MainsEvaluation.t) : Prop :=
  Forall2
    (fun e e' =>
       MainsEvaluation.id e' = MainsEvaluation.id e
       ∧ Spec.rank (MainsEvaluation.status e)
         <= Spec.rank (MainsEvaluation.status e'))
    before after.

(** ** Sample data *)

Module Sample.

Definition emptyState : State :=
  mkState [] [] [] [] [] [] [] [] [] [] [] [] [] [] 0.

(** Noon of day 20000. *)
Definition noon : Date := mkDate 20000 43200000.

Definition mcq : DailyMCQ.t :=
  DailyMCQ.mk "mcq1" (mkDate 20000 0) "Polity quiz" "Polity" ["polity"] 2 600 4.

Definition abcd : list (string * string) :=
  [("A", "one"); ("B", "two"); ("C", "three"); ("D", "four")].

Definition q1 : MCQQuestion.t :=
  MCQQuestion.mk "q1" "mcq1" 1 "First?" "Polity" "Easy" abcd "A" "Because.".

Definition q2 : MCQQuestion.t :=
  MCQQuestion.mk "q2" "mcq1" 2 "Second?" "History" "Hard" abcd "C" "Indeed.".

Definition mains : DailyMainsQuestion.t :=
  DailyMainsQuestion.mk "m1" (mkDate 20000 0) "Federalism" "GS Paper II"
    "Polity" 15 250 20.

(** A store with today's MCQ and today's mains question and no attempt. *)
Definition seeded : State :=
  mkState [] [] [] [] [mcq] [q2; q1] [] [] [] [] [mains] [] [] [] 0.

(** The same store with other answers and explanations. *)
Definition seeded' : State :=
  mkState [] [] [] [] [mcq]
    [MCQQuestion.mk "q2" "mcq1" 2 "Second?" "History" "Hard" abcd "D" "No.";
     MCQQuestion.mk "q1" "mcq1" 1 "First?" "Polity" "Easy" abcd "B" "Yes."]
    [] [] [] [] [mains] [] [] [] 0.

Definition mcqBody : DailyMcqController.SubmitBody :=
  DailyMcqController.mkSubmitBody
    (DailyMcqController.AnswerList
       [DailyMcqController.mkAnswer "q1" (Some "A") (Some 30);
        DailyMcqController.mkAnswer "q2" (Some "B") None])
    (Some 95).

(** Both questions of the day answered right. *)
Definition allRight : DailyMcqController.SubmitBody :=
  DailyMcqController.mkSubmitBody
    (DailyMcqController.AnswerList
       [DailyMcqController.mkAnswer "q1" (Some "A") (Some 20);
        DailyMcqController.mkAnswer "q2" (Some "C") (Some 25)])
    (Some 45).

(** A mock test of one question, whose right answer is B, and a mock test
    of two questions, whose right answers are A and C. *)
Definition oneQuestionTest : State :=
  mkState
    [MockTest.mk "t1" "Mixed - Prelims Practice" "mixed" "prelims" None None
       "mixed" 1 2 2 true;
     MockTest.mk "t2" "Mixed - Prelims Practice" "mixed" "prelims" None None
       "mixed" 2 3 4 true]
    [MockTestQuestion.mk "tq1" "t1" 1 "Which?" "History" "History" "Easy" abcd
       "B" "So.";
     MockTestQuestion.mk "tq2" "t2" 1 "Who?" "Economy" "Economy" "Easy" abcd
       "A" "So.";
     MockTestQuestion.mk "tq3" "t2" 2 "When?" "History" "History" "Hard" abcd
       "C" "So."]
    [] [] [] [] [] [] [] [] [] [] [] [] 5.

(** One right and one wrong answer to the test of two questions. *)
Definition rightAndWrong : MockTestController.SubmitBody :=
  MockTestController.mkSubmitBody (Some {[ "tq2" := "A"; "tq3" := "B" ]}) None.

Definition wrongAnswer : MockTestController.SubmitBody :=
  MockTestController.mkSubmitBody (Some {[ "tq1" := "A" ]}) (Some 40).

Definition rightAnswer : MockTestController.SubmitBody :=
  MockTestController.mkSubmitBody (Some {[ "tq1" := "B" ]}) (Some 40).

Definition noDraw : nat -> nat := fun _ => 0%nat.

(** A body that asks for minus five questions. *)
Definition minusFive : MockTestController.GenerateBody :=
  MockTestController.mkGenerateBody None None None None (Some (-5)) None.

Definition threeQuestions : MockTestController.GenerateBody :=
  MockTestController.mkGenerateBody None (Some "History") None None (Some 3)
    (Some "mixed").

Definition noAnswers : MockTestController.SubmitBody :=
  MockTestController.mkSubmitBody None None.

(** A day of requests by one user. *)
Definition busyDay : list event :=
  [SubmitMCQ noon "u1" mcqBody;
   SubmitTextAnswer noon "u1" (DailyAnswerController.TextStr (units "A first answer"));
   SubmitMCQ noon "u1" mcqBody;
   TimerExpires 0 noon 0.5;
   SubmitTextAnswer noon "u1" (DailyAnswerController.TextStr (units "A better answer"));
   UploadAnswer noon "u1" (Some "https://files.example/answer.pdf");
   TimerExpires 1 noon 0.25].

(** An answer is submitted and its evaluation completes; then the user
    submits again. *)
Definition evaluated : list event :=
  [SubmitTextAnswer noon "u1" (DailyAnswerController.TextStr (units "A first answer"));
   TimerExpires 0 noon 0.5].

Definition resubmit : event :=
  SubmitTextAnswer noon "u1" (DailyAnswerController.TextStr (units "A better answer")).


Definition streaks : State :=
  mkState [] [] [] [] [] [] [] []
    [UserStreak.mk "u1" 3 5 (Some (mkDate 19999 0)) (replicate 7 false)]
    [StudyStreak.mk "u1" 2 2 9 (Some (mkDate 19998 0))]
    [] [] [] [] 0.

End Sample.

(** ** The queries of the controllers *)

(** [a.getTime() <= b.getTime()], the [gte] and [orderBy] of the store on
    dates. *)
Definition dateLe (a b : Date) : bool :=
  (day a <? day b) || ((day a =? day b) && (msec a <=? msec b)).

(** What a query sends: [res.json({ status: "success", data })], or
    [res.status(code).json({ status: "error", message })]. *)
Inductive reply (A : Type) : Type :=
| Data (data : A)
| Refused (code : Z) (message : string).

Arguments Data {A} data.
Arguments Refused {A} code message.

(** *** controllers/mockTest.controller.ts *)

Module MockTestQueries.

(** [select: { id, questionNum, questionText, subject, category,
    difficulty, options }]. *)
Definition selectQuestion (q : MockTestQuestion.t) : json :=
  JObj [("id", JStr (MockTestQuestion.id q));
        ("questionNum", JInt (MockTestQuestion.questionNum q));
        ("questionText", JStr (MockTestQuestion.questionText q));
        ("subject", JStr (MockTestQuestion.subject q));
        ("category", JStr (MockTestQuestion.category q));
        ("difficulty", JStr (MockTestQuestion.difficulty q));
        ("options", DailyMcqController.optionsJson (MockTestQuestion.options q))].

Definition getTestQuestions (st : State) (testId : string) : outcome :=
  match MockTestController.findTest st testId with
  | None => Respond 404 (errorBody "Test not found")
  | Some test =>
      let questions :=
        selectQuestion
          <$> orderBy MockTestQuestion.questionNum
                (MockTestController.questionsOf st testId) in
      ok (JObj [("status", JStr "success");
                ("data", JObj [("testId", JStr (MockTest.id test));
                               ("title", JStr (MockTest.title test));
                               ("duration", JInt (MockTest.duration test));
                               ("totalMarks", JInt (MockTest.totalMarks test));
                               ("questions", JArr questions)])])
  end.

(** [where: { userId, completedAt: { gte: today } }]. *)
Definition completedSince (userId : string) (today : Date)
    (a : MockTestAttempt.t) : bool :=
  String.eqb (MockTestAttempt.userId a) userId
  && match MockTestAttempt.completedAt a with
     | Some d => dateLe today d
     | None => false
     end.

(** The [data] of [getPracticeStats]. *)
Record practiceStats : Type := mkPracticeStats { todayCount : Z; streak : Z }.

Definition getPracticeStats (st : State) (now : Date) (userId : string)
  : practiceStats :=
  let today := setHours0 now in
  let todayTests :=
    Z.of_nat (length (List.filter (completedSince userId today)
                        (mockTestAttempts st))) in
  let streak := DailyMcqController.findStreak st userId in
  mkPracticeStats todayTests (or_int (UserStreak.currentStreak <$> streak) 0).

(** [where: { userId, mockTestId: testId, completedAt: { not: null } }]. *)
Definition isCompletedAttempt (userId testId : string) (a : MockTestAttempt.t)
  : bool :=
  String.eqb (MockTestAttempt.userId a) userId
  && String.eqb (MockTestAttempt.mockTestId a) testId
  && bool_decide (is_Some (MockTestAttempt.completedAt a)).

(** [findFirst({ where, orderBy: { completedAt: "desc" } })] on rows that
    all have a [completedAt]: a row no other row is later than, the first
    such row of the table. *)
Fixpoint latest (rows : list MockTestAttempt.t) : option MockTestAttempt.t :=
  match rows with
  | [] => None
  | a :: rest =>
      match latest rest with
      | None => Some a
      | Some b =>
          match MockTestAttempt.completedAt a, MockTestAttempt.completedAt b with
          | Some da, Some db => if dateLe db da then Some a else Some b
          | _, _ => Some a
          end
      end
  end.

(** One element of [questionReview]. *)
Record reviewItem : Type := mkReviewItem {
  rv_id : string;
  rv_questionNum : Z;
  rv_questionText : string;
  rv_subject : string;
  rv_options : list (string * string);
  rv_correctOption : string;
  rv_selectedOption : option string;
  rv_isCorrect : bool;
  rv_explanation : string
}.

(** The callback of [test?.questions.map]. *)
Definition review (answers : gmap string string) (q : MockTestQuestion.t)
  : reviewItem :=
  mkReviewItem (MockTestQuestion.id q) (MockTestQuestion.questionNum q)
    (MockTestQuestion.questionText q) (MockTestQuestion.subject q)
    (MockTestQuestion.options q) (MockTestQuestion.correctOption q)
    (or_null (answers !! MockTestQuestion.id q))
    (bool_decide (answers !! MockTestQuestion.id q
                  = Some (MockTestQuestion.correctOption q)))
    (MockTestQuestion.explanation q).

(** [getTestResults]: the latest completed attempt of the user for the
    test, and the review of the questions of the test when the test still
    exists. *)
Definition getTestResults (st : State) (userId testId : string)
  : reply (MockTestAttempt.t * option (list reviewItem)) :=
  match latest (List.filter (isCompletedAttempt userId testId)
                  (mockTestAttempts st)) with
  | None => Refused 404 "No completed attempt found"
  | Some attempt =>
      let questionReview :=
        match MockTestController.findTest st testId with
        | Some _ =>
            Some (review (MockTestAttempt.answers attempt)
                    <$> orderBy MockTestQuestion.questionNum
                          (MockTestController.questionsOf st testId))
        | None => None
        end in
      Data (attempt, questionReview)
  end.

(** The list [subjects] of [getSubjects] before the counts of the store
    are filled in. *)
Definition subjectDefaults : list (string * Z) :=
  [("All Subjects", 0); ("History", 348); ("Geography", 398);
   ("Indian Polity", 348); ("Economy", 368); ("Science & Technology", 215);
   ("Environment", 180); ("Art & Culture", 145)].

(** [prisma.mockTestQuestion.groupBy({ by: ["subject"], _count })]: one
    entry per subject that has a question, with the number of its
    questions. *)
Definition questionCounts (st : State) : list (string * Z) :=
  foldl (fun acc q => bump 0 (MockTestQuestion.subject q) (fun n => n + 1) acc)
    [] (mockTestQuestions st).

(** [countMap.get(name)]. *)
Definition countOfSubject (counts : list (string * Z)) (name : string)
  : option Z :=
  snd <$> find (fun kv => String.eqb (fst kv) name) counts.

Definition getSubjects (st : State) : list (string * Z) :=
  let counts := questionCounts st in
  if (0 <? length counts)%nat then
    let filled :=
      (fun s =>
         if negb (String.eqb (fst s) "All Subjects") then
           match countOfSubject counts (fst s) with
           | Some n => (fst s, n)
           | None => s
           end
         else s) <$> subjectDefaults in
    match filled with
    | (name, _) :: rest => (name, foldl (fun sum q => sum + snd q) 0 counts) :: rest
    | [] => []
    end
  else subjectDefaults.

End MockTestQueries.

(** *** controllers/dailyMcq.controller.ts *)

Module DailyMcqQueries.

(** [getTodayMCQ]; [user] is [req.user?.id], set by [optionalAuth]. *)
Definition getTodayMCQ (st : State) (now : Date) (user : option string)
  : outcome :=
  let today := getToday now in
  match DailyMcqController.findMcq st today with
  | None => Respond 404 (errorBody "No MCQ challenge available for today")
  | Some mcq =>
      let attempted :=
        match user with
        | Some userId =>
            bool_decide
              (is_Some (DailyMcqController.findAttempt st userId (DailyMCQ.id mcq)
                        ≫= MCQAttempt.completedAt))
        | None => false
        end in
      ok (JObj [("status", JStr "success");
                ("data",
                 JObj [("id", JStr (DailyMCQ.id mcq));
                       ("title", JStr (DailyMCQ.title mcq));
                       ("topic", JStr (DailyMCQ.topic mcq));
                       ("tags", JArr (JStr <$> DailyMCQ.tags mcq));
                       ("questionCount", JInt (DailyMCQ.questionCount mcq));
                       ("timeLimit", JInt (DailyMCQ.timeLimit mcq));
                       ("totalMarks", JInt (DailyMCQ.totalMarks mcq));
                       ("attempted", JBool attempted)])])
  end.

(** [include: { responses: true }]. *)
Definition responsesOf (st : State) (attemptId : string) : list MCQResponse.t :=
  List.filter (fun r => String.eqb (MCQResponse.attemptId r) attemptId)
    (mcqResponses st).

(** [new Map(responses.map((r) => [r.questionId, r])).get(id)]: the last
    response of the list for the question. *)
Definition responseFor (responses : list MCQResponse.t) (questionId : string)
  : option MCQResponse.t :=
  find (fun r => String.eqb (MCQResponse.questionId r) questionId)
    (reverse responses).

Definition nullable (x : option string) : json :=
  match x with
  | Some s => JStr s
  | None => JNull
  end.

(** The callback of [mcq.questions.map] in [getTodayReview]. *)
Definition reviewQuestion (responses : list MCQResponse.t) (q : MCQQuestion.t)
  : json :=
  let response := responseFor responses (MCQQuestion.id q) in
  JObj [("id", JStr (MCQQuestion.id q));
        ("questionNum", JInt (MCQQuestion.questionNum q));
        ("questionText", JStr (MCQQuestion.questionText q));
        ("category", JStr (MCQQuestion.category q));
        ("difficulty", JStr (MCQQuestion.difficulty q));
        ("options", DailyMcqController.optionsJson (MCQQuestion.options q));
        ("correctOption", JStr (MCQQuestion.correctOption q));
        ("explanation", JStr (MCQQuestion.explanation q));
        ("selectedOption",
         nullable (or_null (response ≫= MCQResponse.selectedOption)));
        ("isCorrect",
         JBool (default false (response ≫= MCQResponse.isCorrect)))].

Definition getTodayReview (st : State) (now : Date) (userId : string)
  : outcome :=
  let today := getToday now in
  match DailyMcqController.findMcq st today with
  | None => Respond 404 (errorBody "No MCQ challenge for today")
  | Some mcq =>
      match DailyMcqController.findAttempt st userId (DailyMCQ.id mcq) with
      | None => Respond 404 (errorBody "No attempt found")
      | Some attempt =>
          let responses := responsesOf st (MCQAttempt.id attempt) in
          let reviewData :=
            reviewQuestion responses
              <$> orderBy MCQQuestion.questionNum
                    (DailyMcqController.questionsOf st (DailyMCQ.id mcq)) in
          ok (JObj [("status", JStr "success");
                    ("data", JObj [("questions", JArr reviewData)])])
      end
  end.

End DailyMcqQueries.

(** *** controllers/dailyAnswer.controller.ts *)

Module DailyAnswerQueries.

(** [prisma.mainsAttempt.count({ where: { questionId } })]. *)
Definition attemptCount (st : State) (questionId : string) : Z :=
  Z.of_nat
    (length (List.filter
               (fun a => String.eqb (MainsAttempt.questionId a) questionId)
               (mainsAttempts st))).

(** [getTodayQuestion]; [user] is [req.user?.id], set by [optionalAuth]. *)
Definition getTodayQuestion (st : State) (now : Date) (user : option string)
  : outcome :=
  let today := getToday now in
  match DailyAnswerController.findQuestion st today with
  | None => Respond 404 (errorBody "No mains question available for today")
  | Some question =>
      let attempted :=
        match user with
        | Some userId =>
            bool_decide
              (is_Some (DailyAnswerController.findAttempt st userId
                          (DailyMainsQuestion.id question)
                        ≫= MainsAttempt.submittedAt))
        | None => false
        end in
      ok (JObj [("status", JStr "success");
                ("data",
                 JObj [("id", JStr (DailyMainsQuestion.id question));
                       ("title", JStr (DailyMainsQuestion.title question));
                       ("paper", JStr (DailyMainsQuestion.paper question));
                       ("subject", JStr (DailyMainsQuestion.subject question));
                       ("marks", JInt (DailyMainsQuestion.marks question));
                       ("wordLimit", JInt (DailyMainsQuestion.wordLimit question));
                       ("timeLimit", JInt (DailyMainsQuestion.timeLimit question));
                       ("attempted", JBool attempted);
                       ("attemptCount",
                        JInt (attemptCount st (DailyMainsQuestion.id question)))])])
  end.

(** The [data] of [getTodayResults]. *)
Record results : Type := mkResults {
  score : Q;
  maxScore : Z;
  strengths : list string;
  improvements : list string;
  suggestions : list string;
  detailedFeedback : option string;
  wordCount : option Z;
  submittedAt : option Date
}.

Definition getTodayResults (st : State) (now : Date) (userId : string)
  : reply results :=
  let today := getToday now in
  match DailyAnswerController.findQuestion st today with
  | None => Refused 404 "No mains question for today"
  | Some question =>
      match DailyAnswerController.findAttempt st userId
              (DailyMainsQuestion.id question) with
      | None => Refused 404 "No evaluation results found"
      | Some attempt =>
          match DailyAnswerController.evaluationOf st (MainsAttempt.id attempt)
          with
          | None => Refused 404 "No evaluation results found"
          | Some evaluation =>
              Data (mkResults (MainsEvaluation.score evaluation)
                      (MainsEvaluation.maxScore evaluation)
                      (MainsEvaluation.strengths evaluation)
                      (MainsEvaluation.improvements evaluation)
                      (MainsEvaluation.suggestions evaluation)
                      (MainsEvaluation.detailedFeedback evaluation)
                      (MainsAttempt.wordCount attempt)
                      (MainsAttempt.submittedAt attempt))
          end
      end
  end.

End DailyAnswerQueries.

(** ** Vocabulary of the further properties *)

Module Props.

(** [o[k]] on an object used as a dictionary. *)
Definition assoc {V : Type} (k : string) (o : list (string * V)) : option V :=
  snd <$> find (fun kv => String.eqb (fst kv) k) o.

(** A question of a mock test with its answer and its explanation blanked
    out. *)
Definition redactTestQuestion (q : MockTestQuestion.t) : MockTestQuestion.t :=
  MockTestQuestion.mk (MockTestQuestion.id q) (MockTestQuestion.mockTestId q)
    (MockTestQuestion.questionNum q) (MockTestQuestion.questionText q)
    (MockTestQuestion.subject q) (MockTestQuestion.category q)
    (MockTestQuestion.difficulty q) (MockTestQuestion.options q) "" "".

(** Two stores that differ at most in the [correctOption] and [explanation]
    of the questions of the mock tests. *)
Definition sameUpToTestAnswers (st1 st2 : State) : Prop :=
  mockTests st1 = mockTests st2
  ∧ redactTestQuestion <$> mockTestQuestions st1
    = redactTestQuestion <$> mockTestQuestions st2.

(** The questions of a subject. *)
Definition ofSubject (s : string) (qs : list MockTestQuestion.t)
  : list MockTestQuestion.t :=
  filter (fun q => MockTestQuestion.subject q = s) qs.

(** What the specification of a tally is: the numbers of questions of the
    subject answered correctly, answered wrongly, and in all. *)
Definition tallyOf (answers : option (gmap string string))
    (qs : list MockTestQuestion.t) : tally :=
  mkTally (Spec.numCorrect answers qs) (Spec.numWrong answers qs)
    (Z.of_nat (length qs)).

(** The number of [true] entries of a week. *)
Definition activeDays (week : list bool) : nat :=
  length (filter (fun b => b = true) week).

(** A [Date] the clock can give: the milliseconds of a day. *)
Definition wellFormed (d : Date) : Prop := 0 <= msec d < 86400000.

(** The array of answers that [submitMCQ] grades: none when the body has
    no [answers]. *)
Definition answerList (body : DailyMcqController.SubmitBody)
  : list DailyMcqController.Answer :=
  match DailyMcqController.answers body with
  | DailyMcqController.AnswerList l => l
  | _ => []
  end.

(** [body.data[k]] of a response. *)
Definition dataField (k : string) (o : outcome) : option json :=
  match o with
  | Respond _ body => field "data" body ≫= field k
  | Next _ => None
  end.

(** The index of a day in a week that starts on Monday. *)
Definition mondayIndex (d : Date) : nat := Z.to_nat ((getDay d + 6) mod 7).

(** The sum of the counts of a [groupBy]. *)
Definition sumCounts (counts : list (string * Z)) : Z :=
  foldl (fun sum q => sum + snd q) 0 counts.

(** The option a user selected for a question of the daily MCQ: none when
    the array has no answer for the question, or one with no option. *)
Definition selectedFor (l : list DailyMcqController.Answer) (q : MCQQuestion.t)
  : option string :=
  match DailyMcqController.findAnswer l (MCQQuestion.id q) with
  | Some a =>
      match DailyMcqController.selectedOption a with
      | Some s => if String.eqb s "" then None else Some s
      | None => None
      end
  | None => None
  end.

(** The questions answered with their correct option, answered with
    another option, and left without an option. *)
Definition answeredRight (l : list DailyMcqController.Answer)
    (qs : list MCQQuestion.t) : list MCQQuestion.t :=
  filter (fun q => selectedFor l q = Some (MCQQuestion.correctOption q)) qs.

Definition answeredWrong (l : list DailyMcqController.Answer)
    (qs : list MCQQuestion.t) : list MCQQuestion.t :=
  filter (fun q => is_Some (selectedFor l q)
                   ∧ selectedFor l q ≠ Some (MCQQuestion.correctOption q)) qs.

Definition leftOut (l : list DailyMcqController.Answer)
    (qs : list MCQQuestion.t) : list MCQQuestion.t :=
  filter (fun q => selectedFor l q = None) qs.

(** The questions of a category. *)
Definition ofCategory (t : string) (qs : list MCQQuestion.t)
  : list MCQQuestion.t :=
  filter (fun q => MCQQuestion.category q = t) qs.

(** The rows of an attempt hold the response [d]: there is a row for the
    question of [d], and every such row has the option and the verdict of
    [d]. *)
Definition saved (attemptId : string) (d : DailyMcqController.responseDatum)
    (rows : list MCQResponse.t) : Prop :=
  (∃ r, In r rows
        ∧ DailyMcqController.hasResponseKey attemptId
            (DailyMcqController.r_questionId d) r = true)
  ∧ ∀ r, In r rows →
         DailyMcqController.hasResponseKey attemptId
           (DailyMcqController.r_questionId d) r = true →
         MCQResponse.selectedOption r = DailyMcqController.r_selectedOption d
         ∧ MCQResponse.isCorrect r = DailyMcqController.r_isCorrect d.

(** What the review of a question shows to a user who submitted the
    answers [l]. *)
Definition reviewOf (l : list DailyMcqController.Answer) (q : MCQQuestion.t)
  : json :=
  JObj [("id", JStr (MCQQuestion.id q));
        ("questionNum", JInt (MCQQuestion.questionNum q));
        ("questionText", JStr (MCQQuestion.questionText q));
        ("category", JStr (MCQQuestion.category q));
        ("difficulty", JStr (MCQQuestion.difficulty q));
        ("options", DailyMcqController.optionsJson (MCQQuestion.options q));
        ("correctOption", JStr (MCQQuestion.correctOption q));
        ("explanation", JStr (MCQQuestion.explanation q));
        ("selectedOption",
         match selectedFor l q with
         | Some s => JStr s
         | None => JNull
         end);
        ("isCorrect",
         JBool (bool_decide
                  (selectedFor l q = Some (MCQQuestion.correctOption q))))].

End Props.

(** ** Further sample data *)

Module More.

(** The store [Sample.oneQuestionTest] with other answers and explanations. *)
Definition otherKey : State :=
  mkState
    [MockTest.mk "t1" "Mixed - Prelims Practice" "mixed" "prelims" None None
       "mixed" 1 2 2 true;
     MockTest.mk "t2" "Mixed - Prelims Practice" "mixed" "prelims" None None
       "mixed" 2 3 4 true]
    [MockTestQuestion.mk "tq1" "t1" 1 "Which?" "History" "History" "Easy"
       Sample.abcd "D" "Why.";
     MockTestQuestion.mk "tq2" "t2" 1 "Who?" "Economy" "Economy" "Easy"
       Sample.abcd "B" "Why.";
     MockTestQuestion.mk "tq3" "t2" 2 "When?" "History" "History" "Hard"
       Sample.abcd "D" "Why."]
    [] [] [] [] [] [] [] [] [] [] [] [] 5.

(** A mock test whose question has a subject named as a member of every
    object is. *)
Definition inheritedSubject : State :=
  mkState
    [MockTest.mk "t1" "constructor - Prelims Practice" "constructor" "prelims"
       None None "mixed" 1 2 2 true]
    [MockTestQuestion.mk "tq1" "t1" 1 "Which?" "constructor" "constructor"
       "Easy" Sample.abcd "B" "So."]
    [] [] [] [] [] [] [] [] [] [] [] [] 5.

(** A user who was active yesterday, a Thursday, and on the Monday and
    the Tuesday before. *)
Definition activeWeek : State :=
  mkState [] [] [] [] [] [] [] []
    [UserStreak.mk "u1" 2 7 (Some (mkDate 19999 0))
       [true; true; false; true; false; false; false]]
    [] [] [] [] [] 0.

End More.

(** ** The study planner: tasks and weekly goals

    The tables [studyPlanTask] and [weeklyGoal], with the columns that
    [createTask], [deleteTask] and [getWeeklyGoals] read or write (the
    other columns get the defaults of the schema). *)

Module StudyPlanTask.
Record t : Type := mk {
  id : string;
  userId : string;
  title : string;
  description : option string;
  subject : option string;
  type : string;
  date : Date;
  startTime : option string;
  endTime : option string;
  duration : option Z
}.
End StudyPlanTask.

Module WeeklyGoal.
Record t : Type := mk {
  id : string;
  userId : string;
  title : string;
  targetCount : Z;
  weekStart : Date;
  createdAt : Date
}.
End WeeklyGoal.

(** The store together with the tables of the planner. *)
Record Planner : Type := mkPlanner {
  store : State;
  studyPlanTasks : list StudyPlanTask.t;
  weeklyGoals : list WeeklyGoal.t
}.

(** What a handler of the planner does with a request: it sends
    [res.status(code).json({ status: "success", data })], or
    [res.status(code).json({ status: "error", message })], or it hands the
    error that the ORM threw to [next]. *)
Inductive answer (A : Type) : Type :=
| Sent (code : Z) (data : A)
| Failed (code : Z) (message : string)
| Thrown.

Arguments Sent {A} code data.
Arguments Failed {A} code message.
Arguments Thrown {A}.

Module StudyPlannerTasks.

(** The [date] property of a body: absent or falsy, a value for which
    [new Date(date)] is the date [d], or a value for which it is an
    Invalid Date (a text that is no date). *)
Inductive dateField : Type :=
| DateMissing
| DateValid (d : Date)
| DateInvalid.

(** The body of POST /api/study-plan/tasks. *)
Record TaskBody : Type := mkTaskBody {
  title : option string;
  description : option string;
  subject : option string;
  type : option string;
  date : dateField;
  startTime : option string;
  endTime : option string;
  duration : option Z
}.

Definition createTask (p : Planner) (now : Date) (userId : string)
    (body : TaskBody) : Planner * answer StudyPlanTask.t :=
  match or_null (title body) with
  | None => (p, Failed 400 "Title is required")
  | Some title =>
      let created (taskDate : Date) :=
        let task :=
          StudyPlanTask.mk (genId (store p)) userId title (description body)
            (subject body) (or_str (type body) "study") taskDate
            (startTime body) (endTime body) (duration body) in
        (mkPlanner (bumpId (store p)) (studyPlanTasks p ++ [task])
           (weeklyGoals p),
         Sent 201 task) in
      match date body with
      | DateMissing => created (setHours0 (getToday now))
      | DateValid d => created (setHours0 d)
      | DateInvalid =>
          (* [setHours] leaves an Invalid Date as it is, and
             [prisma.studyPlanTask.create] throws on it *)
          (p, Thrown)
      end
  end.

(** [prisma.studyPlanTask.findFirst({ where: { id, userId } })]. *)
Definition findTask (p : Planner) (id userId : string)
  : option StudyPlanTask.t :=
  find (fun t => String.eqb (StudyPlanTask.id t) id
                 && String.eqb (StudyPlanTask.userId t) userId)
    (studyPlanTasks p).

Definition deleteTask (p : Planner) (userId id : string) : Planner * outcome :=
  match findTask p id userId with
  | None => (p, Respond 404 (errorBody "Task not found"))
  | Some _ =>
      (mkPlanner (store p)
         (List.filter (fun t => negb (String.eqb (StudyPlanTask.id t) id))
            (studyPlanTasks p))
         (weeklyGoals p),
       ok (JObj [("status", JStr "success"); ("message", JStr "Task deleted")]))
  end.

(** [getWeekStart]: [setDate] moves the day by as many days as its argument
    differs from [getDate]. *)
Definition getWeekStart (now : Date) : Date :=
  let day := getDay now in
  let diff := (if day =? 0 then -6 else 1) - day in
  setHours0 (mkDate (Js.day now + diff) (msec now)).

(** [d.getTime()], for a date of the clock. *)
Definition timeOf (d : Date) : Z := day d * 86400000 + msec d.

(** [prisma.weeklyGoal.findMany({ where: { userId, weekStart }, orderBy:
    { createdAt: "asc" } })]. *)
Definition goalsOf (p : Planner) (userId : string) (weekStart : Date)
  : list WeeklyGoal.t :=
  orderBy (fun g => timeOf (WeeklyGoal.createdAt g))
    (List.filter
       (fun g => String.eqb (WeeklyGoal.userId g) userId
                 && sameTime (WeeklyGoal.weekStart g) weekStart)
       (weeklyGoals p)).

Definition defaultGoals : list (string * Z) :=
  [("Complete Daily MCQs", 7);
   ("Practice Answer Writing", 5);
   ("Read Editorials", 7);
   ("Study Hours", 35)].

(** [prisma.weeklyGoal.create] for one of the defaults. *)
Definition createGoal (userId : string) (weekStart now : Date) (p : Planner)
    (g : string * Z) : Planner :=
  mkPlanner (bumpId (store p)) (studyPlanTasks p)
    (weeklyGoals p
       ++ [WeeklyGoal.mk (genId (store p)) userId (fst g) (snd g) weekStart
             now]).

Definition getWeeklyGoals (p : Planner) (now : Date) (userId : string)
  : Planner * list WeeklyGoal.t :=
  let weekStart := getWeekStart now in
  let goals := goalsOf p userId weekStart in
  if (length goals =? 0)%nat then
    let p' := foldl (createGoal userId weekStart now) p defaultGoals in
    (p', goalsOf p' userId weekStart)
  else (p, goals).

End StudyPlannerTasks.

(** A planner with one task of the user u2, and a body for a task. *)
Module PlannerSample.

Definition oneTask : Planner :=
  mkPlanner Sample.emptyState
    [StudyPlanTask.mk "t9" "u2" "Read the Hindu" None None "study"
       (mkDate 20000 0) None None None]
    [].

Definition polity : StudyPlannerTasks.TaskBody :=
  StudyPlannerTasks.mkTaskBody (Some "Revise Polity") None (Some "Polity") None
    StudyPlannerTasks.DateMissing (Some "09:00") None (Some 60).

End PlannerSample.

(** * Proofs *)

(** ** The helpers on concrete values *)

Example round_halves_up :
  round (5 # 2) = 3 ∧ round (- (5 # 2)) = -2 ∧ round (-0.66 * 10) = -7.
Proof. repeat split. Qed.

Example round1_of_raw_score : round1 1.34 == 1.3 ∧ round1 (-0.66) == -0.7.
Proof. split; reflexivity. Qed.

Example trim_example :
  DailyAnswerController.trim (units "  a  b c  ") = units "a  b c".
Proof. reflexivity. Qed.

(** An ideographic space, a no-break space and a line separator are
    trimmed like the space of the keyboard. *)
Example trim_unicode_example :
  DailyAnswerController.trim ([12288; 160] ++ units "a b" ++ [8232; 32])%N
  = units "a b".
Proof. reflexivity. Qed.

Example splitSpaces_example :
  DailyAnswerController.splitSpaces (units "a  b c")
  = [units "a"; units "b"; units "c"]
  ∧ DailyAnswerController.splitSpaces (units " a ") = [[]; units "a"; []]
  ∧ DailyAnswerController.splitSpaces ([97; 8195; 98])%N
    = [units "a"; units "b"].
Proof. repeat split; reflexivity. Qed.

(** Day 20000 is a Friday, the fifth day of a week that starts on Monday. *)
Example getWeekActivity_friday :
  DailyMcqController.getWeekActivity (mkDate 20000 0)
  = [false; false; false; false; true; false; false].
Proof. reflexivity. Qed.

Example orderBy_stable :
  orderBy fst [(2, "a"); (1, "b"); (2, "c"); (1, "d")]
  = [(1, "b"); (1, "d"); (2, "a"); (2, "c")].
Proof. reflexivity. Qed.

(** ** The centralized error handler *)

Lemma or_int_spec (x : option Z) (d : Z) :
  or_int x d = match x with
               | Some c => if decide (c = 0) then d else c
               | None => d
               end.
Proof.
  destruct x as [c|]; simpl; [|reflexivity].
  unfold truthy_int. destruct (Z.eqb_spec c 0); destruct (decide (c = 0));
    simpl; congruence.
Qed.


Lemma or_null_spec (x : option string) :
  or_null x = match x with
              | Some s => if decide (s = "") then None else Some s
              | None => None
              end.
Proof.
  destruct x as [s|]; simpl; [|reflexivity].
  unfold truthy_str. destruct (String.eqb_spec s ""); destruct (decide (s = ""));
    simpl; congruence.
Qed.



(** A [statusCode] that is no HTTP status code: zero counts as absent and
    is answered with 500; any other is refused by the runtime, and no
    response is sent. *)
Lemma errorHandler_refused (nodeEnv : option string) (err : AppError) (c : Z) :
  statusCode err = Some c → ¬ Spec.httpStatus c →
  (c = 0 ∧ ∃ body, errorHandler nodeEnv err = Sends 500 body)
  ∨ (c ≠ 0 ∧ errorHandler nodeEnv err = Refuses c).
Proof.
  intros Hc Hnot. unfold errorHandler, send. rewrite Hc, or_int_spec.
  destruct (decide (c = 0)) as [->|Hne].
  - left. split; [reflexivity|]. simpl. eauto.
  - right. split; [exact Hne|]. unfold Spec.httpStatus in Hnot.
    destruct (Z.leb_spec 100 c); destruct (Z.leb_spec c 999); simpl;
      first [reflexivity|lia].
Qed.

(** ** Validation of a typed answer *)

Section Trim.

Import DailyAnswerController.

(** The code units [trim] and [\s] take for white space are those of the
    language's list. *)
Lemma isSpace_whiteSpace (c : N) :
  isSpace c = bool_decide (c ∈ Spec.whiteSpace).
Proof.
  unfold isSpace.
  destruct (decide (c ≤ 65279)%N) as [Hle|Hgt].
  - case_bool_decide as Hin.
    + unfold Spec.whiteSpace in Hin.
      repeat (apply elem_of_cons in Hin as [->|Hin]; [reflexivity|]).
      by apply elem_of_nil in Hin.
    + repeat (apply orb_false_intro);
        try (apply N.eqb_neq; intros ->; apply Hin; unfold Spec.whiteSpace;
             set_solver).
      * destruct (N.leb_spec 9 c), (N.leb_spec c 13); try reflexivity.
        exfalso. apply Hin.
        assert (Hc : (c = 9 ∨ c = 10 ∨ c = 11 ∨ c = 12 ∨ c = 13)%N) by lia.
        unfold Spec.whiteSpace.
        destruct Hc as [->|[->|[->|[->| ->]]]]; set_solver.
      * destruct (N.leb_spec 8192 c), (N.leb_spec c 8202); try reflexivity.
        exfalso. apply Hin.
        assert (Hc : (c = 8192 ∨ c = 8193 ∨ c = 8194 ∨ c = 8195 ∨ c = 8196
                      ∨ c = 8197 ∨ c = 8198 ∨ c = 8199 ∨ c = 8200 ∨ c = 8201
                      ∨ c = 8202)%N) by lia.
        unfold Spec.whiteSpace.
        destruct Hc as [->|[->|[->|[->|[->|[->|[->|[->|[->|[->| ->]]]]]]]]]];
          set_solver.
  - rewrite bool_decide_eq_false_2.
    + repeat (apply orb_false_intro); try (apply N.eqb_neq; lia);
        apply andb_false_iff; right; apply N.leb_gt; lia.
    + unfold Spec.whiteSpace. intros Hin.
      repeat (apply elem_of_cons in Hin as [->|Hin]; [lia|]).
      by apply elem_of_nil in Hin.
Qed.

Lemma whitespaceOnly_cons (c : N) (r : text) :
  Spec.whitespaceOnly (c :: r) = isSpace c && Spec.whitespaceOnly r.
Proof. unfold Spec.whitespaceOnly. simpl. by rewrite isSpace_whiteSpace. Qed.

Lemma trimStart_whitespaceOnly (s : text) :
  Spec.whitespaceOnly s = true → trimStart s = [].
Proof.
  induction s as [|c r IH]; [reflexivity|].
  rewrite whitespaceOnly_cons. simpl.
  intros [Hc Hr]%andb_prop. rewrite Hc. auto.
Qed.

Lemma trimEnd_empty (s : text) :
  trimEnd s = [] → Spec.whitespaceOnly s = true.
Proof.
  induction s as [|c r IH]; [reflexivity|].
  rewrite whitespaceOnly_cons. simpl.
  destruct (trimEnd r) eqn:Hr; [|discriminate].
  destruct (isSpace c); [|discriminate]. intros _. simpl. auto.
Qed.

Lemma trimStart_suffix_blank (s : text) :
  Spec.whitespaceOnly (trimStart s) = true → Spec.whitespaceOnly s = true.
Proof.
  induction s as [|c r IH]; [reflexivity|].
  rewrite whitespaceOnly_cons. simpl.
  destruct (isSpace c) eqn:Hc; [simpl; auto|].
  rewrite whitespaceOnly_cons, Hc. simpl. discriminate.
Qed.

(** [trim] leaves nothing exactly of the texts made of white space. *)
Lemma trim_empty_iff (s : text) :
  trim s = [] ↔ Spec.whitespaceOnly s = true.
Proof.
  unfold trim. split.
  - intros H. apply trimStart_suffix_blank, trimEnd_empty, H.
  - intros H. rewrite (trimStart_whitespaceOnly _ H). reflexivity.
Qed.

End Trim.

(** C7: a missing, empty or white-space-only [answerText] is answered with
    400 and the error envelope, and the store and the armed timers are
    those of before.  White space is all of what [trim] strips, the spaces
    beyond Latin-1 included, and a falsy value that is no string counts as
    missing. *)
Theorem submitTextAnswer_blank_rejected (st : State) (now : Date)
    (userId : string) (answerText : DailyAnswerController.textField) :
  Spec.blank answerText →
  DailyAnswerController.submitTextAnswer st now userId answerText
  = (st, Respond 400 (errorBody "Answer text is required")).
Proof.
  destruct answerText as [|s|b]; simpl; [reflexivity| |by intros ->].
  intros Hs. apply trim_empty_iff in Hs.
  unfold DailyAnswerController.submitTextAnswer. rewrite Hs. simpl.
  rewrite orb_true_r. reflexivity.
Qed.

Lemma submitTextAnswer_blank_witness :
  Spec.blank (DailyAnswerController.TextStr [32; 12288; 160; 8195; 10]%N)
  ∧ DailyAnswerController.submitTextAnswer Sample.seeded Sample.noon "u1"
      (DailyAnswerController.TextStr [32; 12288; 160; 8195; 10]%N)
    = (Sample.seeded, Respond 400 (errorBody "Answer text is required")).
Proof.
  split; [reflexivity|].
  apply (submitTextAnswer_blank_rejected Sample.seeded Sample.noon "u1"
           (DailyAnswerController.TextStr [32; 12288; 160; 8195; 10]%N)).
  reflexivity.
Defined.

(** [null], [0] and [false] in the place of the text are refused like a
    missing text. *)
Example submitTextAnswer_falsy_value :
  DailyAnswerController.submitTextAnswer Sample.seeded Sample.noon "u1"
    (DailyAnswerController.TextOther false)
  = (Sample.seeded, Respond 400 (errorBody "Answer text is required")).
Proof. reflexivity. Qed.

(** A text with a visible character passes the validation. *)
Lemma submitTextAnswer_accepts (st : State) (now : Date) (userId : string)
    (s : text) :
  Spec.whitespaceOnly s = false →
  ∀ question,
    DailyAnswerController.findQuestion st (getToday now) = Some question →
    ∃ body,
      snd (DailyAnswerController.submitTextAnswer st now userId
             (DailyAnswerController.TextStr s))
      = Respond 200 body.
Proof.
  intros Hs question Hq.
  unfold DailyAnswerController.submitTextAnswer.
  assert (Htrim : DailyAnswerController.trim s ≠ []).
  { intros H%trim_empty_iff. congruence. }
  assert (Hne : truthy_text s = true).
  { destruct s; [discriminate|reflexivity]. }
  rewrite Hne. simpl.
  destruct (DailyAnswerController.trim s) eqn:Ht; [congruence|].
  simpl. rewrite Hq.
  destruct (DailyAnswerController.upsertAttempt _ _ _ _ _); simpl; eauto.
Qed.

(** ** Scoring a mock test *)

Section MockTestScore.

Import MockTestController.

Variable answers : option (gmap string string).

Lemma selectedOf_selection (q : MockTestQuestion.t) :
  selectedOf answers (MockTestQuestion.id q) = Spec.selection answers q.
Proof.
  unfold selectedOf, Spec.selection. rewrite or_null_spec.
  destruct answers as [m|]; reflexivity.
Qed.

(** A question is answered correctly, answered wrongly or skipped, and
    only one of the three. *)
Lemma classify (q : MockTestQuestion.t) :
  match Spec.selection answers q with
  | None =>
      Spec.skipped answers q
      ∧ ¬ Spec.answeredCorrectly answers q ∧ ¬ Spec.answeredWrongly answers q
  | Some s =>
      if decide (s = MockTestQuestion.correctOption q) then
        Spec.answeredCorrectly answers q
        ∧ ¬ Spec.answeredWrongly answers q ∧ ¬ Spec.skipped answers q
      else
        Spec.answeredWrongly answers q
        ∧ ¬ Spec.answeredCorrectly answers q ∧ ¬ Spec.skipped answers q
  end.
Proof.
  unfold Spec.answeredCorrectly, Spec.answeredWrongly, Spec.skipped.
  destruct (Spec.selection answers q) as [s|].
  - destruct (decide (s = MockTestQuestion.correctOption q)) as [->|Hne].
    + repeat split; [intros [_ H]; congruence|discriminate].
    + repeat split; [eauto|congruence|congruence|discriminate].
  - repeat split; [discriminate|intros [[? H] _]; discriminate].
Qed.

(** What one turn of the loop does to the three counters. *)
Lemma grade_counts (acc : counters) (q : MockTestQuestion.t) :
  match Spec.selection answers q with
  | None =>
      correctCount (grade answers acc q) = correctCount acc
      ∧ wrongCount (grade answers acc q) = wrongCount acc
      ∧ skippedCount (grade answers acc q) = skippedCount acc + 1
  | Some s =>
      if decide (s = MockTestQuestion.correctOption q) then
        correctCount (grade answers acc q) = correctCount acc + 1
        ∧ wrongCount (grade answers acc q) = wrongCount acc
        ∧ skippedCount (grade answers acc q) = skippedCount acc
      else
        correctCount (grade answers acc q) = correctCount acc
        ∧ wrongCount (grade answers acc q) = wrongCount acc + 1
        ∧ skippedCount (grade answers acc q) = skippedCount acc
  end.
Proof.
  unfold grade. rewrite selectedOf_selection.
  destruct (Spec.selection answers q) as [s|]; [|auto].
  destruct (String.eqb_spec s (MockTestQuestion.correctOption q));
    destruct (decide (s = MockTestQuestion.correctOption q));
    simpl; auto; congruence.
Qed.

(** The loop counts what the specification names: the questions answered
    correctly, those answered wrongly and those skipped. *)
Lemma foldl_grade_counts (qs : list MockTestQuestion.t) (acc : counters) :
  correctCount (foldl (grade answers) acc qs)
  = correctCount acc + Spec.numCorrect answers qs
  ∧ wrongCount (foldl (grade answers) acc qs)
    = wrongCount acc + Spec.numWrong answers qs
  ∧ skippedCount (foldl (grade answers) acc qs)
    = skippedCount acc + Spec.numSkipped answers qs.
Proof.
  revert acc. induction qs as [|q qs IH]; intros acc; simpl.
  { unfold Spec.numCorrect, Spec.numWrong, Spec.numSkipped; simpl. lia. }
  destruct (IH (grade answers acc q)) as (Hc & Hw & Hs).
  rewrite Hc, Hw, Hs. clear IH Hc Hw Hs.
  pose proof (grade_counts acc q) as Hg.
  pose proof (classify q) as Hq.
  unfold Spec.numCorrect, Spec.numWrong, Spec.numSkipped.
  rewrite !filter_cons.
  destruct (Spec.selection answers q) as [s|];
    [destruct (decide (s = MockTestQuestion.correctOption q))|];
    destruct Hg as (-> & -> & ->); destruct Hq as (H1 & H2 & H3);
    repeat case_decide; try contradiction; simpl length; lia.
Qed.

Lemma gradeAll_counts (qs : list MockTestQuestion.t) :
  correctCount (gradeAll answers qs) = Spec.numCorrect answers qs
  ∧ wrongCount (gradeAll answers qs) = Spec.numWrong answers qs
  ∧ skippedCount (gradeAll answers qs) = Spec.numSkipped answers qs.
Proof.
  unfold gradeAll.
  destruct (foldl_grade_counts qs (mkCounters 0 0 0 [])) as (-> & -> & ->).
  simpl. auto.
Qed.

(** Every question is counted once. *)
Lemma counts_partition (qs : list MockTestQuestion.t) :
  Spec.numCorrect answers qs + Spec.numWrong answers qs
  + Spec.numSkipped answers qs = Z.of_nat (length qs).
Proof.
  unfold Spec.numCorrect, Spec.numWrong, Spec.numSkipped.
  induction qs as [|q qs IH]; simpl; [reflexivity|].
  rewrite !filter_cons. pose proof (classify q) as Hq.
  destruct (Spec.selection answers q) as [s|];
    [destruct (decide (s = MockTestQuestion.correctOption q))|];
    destruct Hq as (H1 & H2 & H3);
    repeat case_decide; try contradiction; simpl length; lia.
Qed.

End MockTestScore.

(** C1, as stated: with one wrong answer and nothing else the formula gives
    -0.66 and the stored score is 0; with one right and one wrong answer
    the formula gives 1.34 and the stored score is 1.3. *)
Lemma submitTest_score_not_raw_formula :
  (∃ attempt,
     mockTestAttempts
       (fst (MockTestController.submitTest Sample.oneQuestionTest Sample.noon
               "u1" "t1" Sample.wrongAnswer)) = [attempt]
     ∧ Spec.numCorrect (MockTestController.answers Sample.wrongAnswer)
         (MockTestController.questionsOf Sample.oneQuestionTest "t1") = 0
     ∧ Spec.numWrong (MockTestController.answers Sample.wrongAnswer)
         (MockTestController.questionsOf Sample.oneQuestionTest "t1") = 1
     ∧ MockTestAttempt.score attempt == 0
     ∧ ¬ MockTestAttempt.score attempt == Spec.penaltyScore 0 1)
  ∧ (∃ attempt,
       mockTestAttempts
         (fst (MockTestController.submitTest Sample.oneQuestionTest Sample.noon
                 "u1" "t2" Sample.rightAndWrong)) = [attempt]
       ∧ Spec.numCorrect (MockTestController.answers Sample.rightAndWrong)
           (MockTestController.questionsOf Sample.oneQuestionTest "t2") = 1
       ∧ Spec.numWrong (MockTestController.answers Sample.rightAndWrong)
           (MockTestController.questionsOf Sample.oneQuestionTest "t2") = 1
       ∧ MockTestAttempt.score attempt == 1.3
       ∧ ¬ MockTestAttempt.score attempt == Spec.penaltyScore 1 1).
Proof.
  split; eexists; (split; [vm_compute; reflexivity|]);
    repeat split; vm_compute; congruence.
Qed.

(** C1, amended: the stored score of a submission is the correct-minus-
    penalty formula (twice the number of questions answered correctly
    minus 0.66 times the number answered wrongly, a question without a
    selected answer being skipped and counting for nothing), rounded to one
    decimal and raised to 0 when negative. *)
Theorem submitTest_score_formula (st : State) (now : Date)
    (userId testId : string) (body : MockTestController.SubmitBody)
    (test : MockTest.t) :
  MockTestController.findTest st testId = Some test →
  let qs := MockTestController.questionsOf st testId in
  let answers := MockTestController.answers body in
  ∃ attempt,
    mockTestAttempts
      (fst (MockTestController.submitTest st now userId testId body))
    = mockTestAttempts st ++ [attempt]
    ∧ MockTestAttempt.correctCount attempt = Spec.numCorrect answers qs
    ∧ MockTestAttempt.wrongCount attempt = Spec.numWrong answers qs
    ∧ MockTestAttempt.skippedCount attempt = Spec.numSkipped answers qs
    ∧ MockTestAttempt.score attempt
      = Js.max 0
          (round1 (Spec.penaltyScore (Spec.numCorrect answers qs)
                     (Spec.numWrong answers qs))).
Proof.
  intros Hfind qs answers.
  unfold MockTestController.submitTest. rewrite Hfind. simpl.
  eexists. split; [reflexivity|]. simpl.
  destruct (gradeAll_counts answers qs) as (Hc & Hw & Hs).
  fold qs answers. rewrite Hc, Hw, Hs. repeat split.
  unfold MockTestController.storedScore, MockTestController.rawScore,
    Spec.penaltyScore.
  fold qs answers. rewrite Hc, Hw. reflexivity.
Qed.

Lemma submitTest_score_formula_witness :
  MockTestController.findTest Sample.oneQuestionTest "t2"
  = Some (MockTest.mk "t2" "Mixed - Prelims Practice" "mixed" "prelims" None
            None "mixed" 2 3 4 true)
  ∧ ∃ attempt,
      mockTestAttempts
        (fst (MockTestController.submitTest Sample.oneQuestionTest Sample.noon
                "u1" "t2" Sample.rightAndWrong))
      = mockTestAttempts Sample.oneQuestionTest ++ [attempt]
      ∧ MockTestAttempt.score attempt == 1.3.
Proof.
  split; [reflexivity|].
  destruct (submitTest_score_formula Sample.oneQuestionTest Sample.noon "u1"
              "t2" Sample.rightAndWrong _ eq_refl)
    as (attempt & Hrows & _ & _ & _ & Hscore).
  exists attempt. split; [exact Hrows|].
  rewrite Hscore. vm_compute. reflexivity.
Defined.

(** ** Bounds of the stored score *)

Lemma round_le_int (x : Q) (n : Z) : (x <= inject_Z n)%Q → round x <= n.
Proof.
  intros Hx. unfold round.
  pose proof (Qfloor_le (x + (1 # 2))) as Hfl.
  assert (Hlt : (inject_Z (Qfloor (x + (1 # 2))) < inject_Z (n + 1))%Q).
  { rewrite inject_Z_plus. change (inject_Z 1) with 1%Q. lra. }
  rewrite <- Zlt_Qlt in Hlt. lia.
Qed.

Lemma round1_le_int (x : Q) (n : Z) :
  (x <= inject_Z n)%Q → (round1 x <= inject_Z n)%Q.
Proof.
  intros Hx. unfold round1.
  assert (H : round (x * 10) <= n * 10).
  { apply round_le_int. rewrite inject_Z_mult.
    change (inject_Z 10) with 10%Q. lra. }
  rewrite Zle_Qle, inject_Z_mult in H. change (inject_Z 10) with 10%Q in H.
  apply Qle_shift_div_r; [reflexivity|]. lra.
Qed.

Lemma max_zero_nonneg (x : Q) : (0 <= Js.max 0 x)%Q.
Proof.
  unfold Js.max. destruct (Qle_bool 0 x) eqn:H; [|apply Qle_refl].
  apply Qle_bool_iff, H.
Qed.

Lemma max_zero_le (x b : Q) : (0 <= b)%Q → (x <= b)%Q → (Js.max 0 x <= b)%Q.
Proof. intros H0 Hx. unfold Js.max. destruct (Qle_bool 0 x); assumption. Qed.

(** The stored score lies between 0 and twice the number of questions
    graded. *)
Lemma storedScore_bounds (answers : option (gmap string string))
    (qs : list MockTestQuestion.t) :
  (0 <= MockTestController.storedScore (MockTestController.gradeAll answers qs))%Q
  ∧ (MockTestController.storedScore (MockTestController.gradeAll answers qs)
     <= inject_Z (2 * Z.of_nat (length qs)))%Q.
Proof.
  unfold MockTestController.storedScore. split; [apply max_zero_nonneg|].
  destruct (gradeAll_counts answers qs) as (Hc & Hw & _).
  pose proof (counts_partition answers qs) as Hsum.
  assert (Hc0 : 0 <= Spec.numCorrect answers qs) by (unfold Spec.numCorrect; lia).
  assert (Hw0 : 0 <= Spec.numWrong answers qs) by (unfold Spec.numWrong; lia).
  assert (Hs0 : 0 <= Spec.numSkipped answers qs) by (unfold Spec.numSkipped; lia).
  assert (Hle : Spec.numCorrect answers qs <= Z.of_nat (length qs)) by lia.
  apply max_zero_le.
  { rewrite <- (Zle_Qle 0). lia. }
  apply round1_le_int. unfold MockTestController.rawScore. rewrite Hc, Hw.
  rewrite inject_Z_mult. change (inject_Z 2) with 2%Q.
  rewrite Zle_Qle in Hle, Hw0. change (inject_Z 0) with 0%Q in Hw0. lra.
Qed.

Section GenerateTest.

Import MockTestController.

Lemma filter_all {A : Type} (P : A → Prop) `{∀ x, Decision (P x)} (l : list A) :
  Forall P l → filter P l = l.
Proof.
  induction 1 as [|x l Hx _ IH]; [reflexivity|].
  rewrite filter_cons, decide_True by exact Hx. by rewrite IH.
Qed.

Lemma filter_none {A : Type} (P : A → Prop) `{∀ x, Decision (P x)} (l : list A) :
  Forall (fun x => ¬ P x) l → filter P l = [].
Proof.
  induction 1 as [|x l Hx _ IH]; [reflexivity|].
  rewrite filter_cons, decide_False by exact Hx. exact IH.
Qed.

Lemma find_snoc_fresh {A : Type} (p : A → bool) (l : list A) (x : A) :
  Forall (fun y => p y = false) l → p x = true → find p (l ++ [x]) = Some x.
Proof.
  induction 1 as [|y l Hy _ IH]; simpl; intros Hx.
  - by rewrite Hx.
  - rewrite Hy. auto.
Qed.

(** The loop of [generateTest] adds one question of the new test per turn
    and touches no other table. *)
Lemma createQuestions_spec (draw : nat → nat) (testId : string)
    (sl dl : list string) (turns : list Z) (st : State) :
  mockTests (foldl (createQuestion draw testId sl dl) st turns) = mockTests st
  ∧ mockTestAttempts (foldl (createQuestion draw testId sl dl) st turns)
    = mockTestAttempts st
  ∧ ∃ news,
      mockTestQuestions (foldl (createQuestion draw testId sl dl) st turns)
      = mockTestQuestions st ++ news
      ∧ length news = length turns
      ∧ Forall (fun q => MockTestQuestion.mockTestId q = testId) news.
Proof.
  revert st. induction turns as [|i turns IH]; intros st; simpl.
  { repeat split. exists []. by rewrite app_nil_r. }
  destruct (IH (createQuestion draw testId sl dl st i))
    as (Ht & Ha & news & Hq & Hlen & Hall).
  rewrite Ht, Ha, Hq. repeat split. simpl.
  eexists (_ :: news). rewrite <- app_assoc. simpl.
  split; [reflexivity|]. split; [by rewrite Hlen|].
  constructor; [reflexivity|exact Hall].
Qed.

(** A test generated for a count that is not negative has as many
    questions as half its total marks, and the stored score of any
    submission to it lies between 0 and its total marks. *)
Lemma generated_test_score_bounded (draw : nat → nat) (st : State)
    (userId : string) (gbody : GenerateBody) (now : Date) (submitter : string)
    (sbody : SubmitBody) :
  Spec.freshTestId st →
  0 <= or_int (questionCount gbody) 10 →
  let st1 := fst (generateTest draw st userId gbody) in
  ∃ attempt,
    mockTestAttempts (fst (submitTest st1 now submitter (genId st) sbody))
    = mockTestAttempts st1 ++ [attempt]
    ∧ MockTestAttempt.totalMarks attempt
      = 2 * Z.of_nat (length (questionsOf st1 (genId st)))
    ∧ (0 <= MockTestAttempt.score attempt)%Q
    ∧ (MockTestAttempt.score attempt
       <= inject_Z (MockTestAttempt.totalMarks attempt))%Q.
Proof.
  intros [Hft Hfq] Hcount st1.
  assert (Hc0 : 0 <= countOf gbody) by (unfold countOf; lia).
  unfold generateTest in st1. simpl in st1.
  destruct (createQuestions_spec draw (genId st) (subjectListOf gbody)
              (difficultyListOf gbody) (seqZ 1 (countOf gbody))
              (bumpId (set_mockTests (mockTests st ++ [newTest st gbody]) st)))
    as (Ht & Ha & news & Hq & Hlen & Hall).
  simpl in Ht, Ha, Hq.
  assert (Hqs : questionsOf st1 (genId st) = news).
  { unfold questionsOf, st1. simpl. rewrite Hq, filter_app.
    rewrite filter_none by exact Hfq. rewrite filter_all by exact Hall.
    reflexivity. }
  assert (Hlen' : Z.of_nat (length news) = countOf gbody).
  { rewrite Hlen, length_seqZ. lia. }
  assert (Hfind : findTest st1 (genId st) = Some (newTest st gbody)).
  { unfold findTest, st1. simpl. rewrite Ht. apply find_snoc_fresh.
    - eapply Forall_impl; [exact Hft|]. intros t Hne. simpl in Hne.
      destruct (String.eqb_spec (MockTest.id t) (genId st)); congruence.
    - simpl. apply String.eqb_refl. }
  unfold submitTest. rewrite Hfind. simpl.
  eexists. split; [reflexivity|]. simpl. rewrite Hqs.
  destruct (storedScore_bounds (answers sbody) news) as [H0 Hub].
  split; [lia|]. split; [exact H0|].
  replace (countOf gbody * 2) with (2 * Z.of_nat (length news)) by lia.
  exact Hub.
Qed.

End GenerateTest.

(** C10: after POST /api/mock-tests/generate with a [questionCount] of -5
    the test has no question and total marks of -10, and a submission to it
    stores the score 0, which is above the total marks. *)
Theorem submitTest_score_above_negative_totalMarks :
  let st1 :=
    fst (MockTestController.generateTest Sample.noDraw Sample.emptyState "u1"
           Sample.minusFive) in
  ∃ test attempt,
    MockTestController.findTest st1 "0" = Some test
    ∧ MockTest.questionCount test = -5
    ∧ MockTest.totalMarks test = -10
    ∧ MockTestController.questionsOf st1 "0" = []
    ∧ mockTestAttempts
        (fst (MockTestController.submitTest st1 Sample.noon "u1" "0"
                Sample.noAnswers)) = [attempt]
    ∧ MockTestAttempt.totalMarks attempt = -10
    ∧ MockTestAttempt.score attempt == 0
    ∧ ¬ (MockTestAttempt.score attempt
         <= inject_Z (MockTestAttempt.totalMarks attempt))%Q.
Proof.
  simpl. eexists. eexists.
  split; [vm_compute; reflexivity|].
  split; [reflexivity|]. split; [reflexivity|]. split; [reflexivity|].
  split; [vm_compute; reflexivity|].
  split; [reflexivity|]. split; [reflexivity|].
  intros H. vm_compute in H. apply H. reflexivity.
Qed.

(** The bound holds for three requested questions, whatever is answered. *)
Example generated_three_questions_bounded (sbody : MockTestController.SubmitBody) :
  ∃ attempt,
    mockTestAttempts
      (fst (MockTestController.submitTest
              (fst (MockTestController.generateTest Sample.noDraw
                      Sample.emptyState "u1" Sample.threeQuestions))
              Sample.noon "u2" "0" sbody)) = [attempt]
    ∧ MockTestAttempt.totalMarks attempt = 6
    ∧ (0 <= MockTestAttempt.score attempt)%Q
    ∧ (MockTestAttempt.score attempt <= 6)%Q.
Proof.
  destruct (generated_test_score_bounded Sample.noDraw Sample.emptyState "u1"
              Sample.threeQuestions Sample.noon "u2" sbody)
    as (attempt & Hrows & Htm & H0 & Hub).
  { split; constructor. }
  { vm_compute. discriminate. }
  exists attempt. split; [exact Hrows|].
  assert (Htm' : MockTestAttempt.totalMarks attempt = 6) by exact Htm.
  rewrite Htm' in Hub. auto.
Qed.

(** ** Streaks *)

Lemma find_updateWhere {A : Type} (p : A → bool) (f : A → A) (l : list A) :
  (∀ r, p (f r) = p r) → find p (updateWhere p f l) = f <$> find p l.
Proof.
  intros Hp. unfold updateWhere.
  induction l as [|x l IH]; simpl; [reflexivity|].
  destruct (p x) eqn:Hx.
  - by rewrite Hp, Hx.
  - by rewrite Hx.
Qed.

Lemma sameTime_midnights (a b : Date) :
  sameTime (setHours0 a) (setHours0 b) = (day a =? day b).
Proof. unfold sameTime. simpl. apply andb_true_r. Qed.

Lemma sameTime_yesterday (a b : Date) :
  sameTime (setHours0 a) (prevDay (setHours0 b)) = (day a =? day b - 1).
Proof. unfold sameTime. simpl. apply andb_true_r. Qed.

(** C2: for a user who has a streak record, [updateStreak] and
    [updateStudyStreak] leave the store as it is when the day last recorded
    is today, raise [currentStreak] by one when it is yesterday, and set
    [currentStreak] to 1 in every other case. *)
Theorem streak_update_rule (st : State) (now : Date) (userId : string) :
  (∀ s, DailyMcqController.findStreak st userId = Some s →
        Spec.streakRule (day <$> UserStreak.lastActiveDate s) (day now)
          (UserStreak.currentStreak s)
          (DailyMcqController.updateStreak st now userId = st)
          (UserStreak.currentStreak
             <$> DailyMcqController.findStreak
                   (DailyMcqController.updateStreak st now userId) userId))
  ∧ (∀ s, StudyPlannerController.findStreak st userId = Some s →
          Spec.streakRule (day <$> StudyStreak.lastStudyDate s) (day now)
            (StudyStreak.currentStreak s)
            (StudyPlannerController.updateStudyStreak st now userId = st)
            (StudyStreak.currentStreak
               <$> StudyPlannerController.findStreak
                     (StudyPlannerController.updateStudyStreak st now userId)
                     userId)).
Proof.
  split; intros s Hs; unfold Spec.streakRule.
  - unfold DailyMcqController.updateStreak. rewrite Hs.
    destruct (UserStreak.lastActiveDate s) as [d|]; simpl.
    + rewrite sameTime_midnights, sameTime_yesterday.
      destruct (Z.eqb_spec (day d) (day now)) as [Heq|Hne].
      * repeat split; [|congruence]. intros [=]. lia.
      * unfold DailyMcqController.findStreak in *. simpl.
        rewrite find_updateWhere by reflexivity. rewrite Hs. simpl.
        destruct (Z.eqb_spec (day d) (day now - 1)) as [Heq'|Hne'].
        -- repeat split; congruence.
        -- repeat split; congruence.
    + unfold DailyMcqController.findStreak in *. simpl.
      rewrite find_updateWhere by reflexivity. rewrite Hs. simpl.
      repeat split; congruence.
  - unfold StudyPlannerController.updateStudyStreak. rewrite Hs.
    destruct (StudyStreak.lastStudyDate s) as [d|]; simpl.
    + unfold getToday. rewrite sameTime_midnights, sameTime_yesterday.
      destruct (Z.eqb_spec (day d) (day now)) as [Heq|Hne].
      * repeat split; [|congruence]. intros [=]. lia.
      * unfold StudyPlannerController.findStreak in *. simpl.
        rewrite find_updateWhere by reflexivity. rewrite Hs. simpl.
        destruct (Z.eqb_spec (day d) (day now - 1)) as [Heq'|Hne'].
        -- repeat split; congruence.
        -- repeat split; congruence.
    + unfold StudyPlannerController.findStreak in *. simpl.
      rewrite find_updateWhere by reflexivity. rewrite Hs. simpl.
      repeat split; congruence.
Qed.

(** On the sample store the MCQ streak was last recorded yesterday and
    goes from 3 to 4; the study streak was last recorded two days ago and
    goes back to 1. *)
Lemma streak_update_rule_witness :
  (DailyMcqController.findStreak Sample.streaks "u1"
   = Some (UserStreak.mk "u1" 3 5 (Some (mkDate 19999 0)) (replicate 7 false))
   ∧ UserStreak.currentStreak
       <$> DailyMcqController.findStreak
             (DailyMcqController.updateStreak Sample.streaks Sample.noon "u1")
             "u1" = Some 4)
  ∧ (StudyPlannerController.findStreak Sample.streaks "u1"
     = Some (StudyStreak.mk "u1" 2 2 9 (Some (mkDate 19998 0)))
     ∧ StudyStreak.currentStreak
         <$> StudyPlannerController.findStreak
               (StudyPlannerController.updateStudyStreak Sample.streaks
                  Sample.noon "u1") "u1" = Some 1).
Proof.
  destruct (streak_update_rule Sample.streaks Sample.noon "u1") as [Hm Hs].
  split; (split; [reflexivity|]).
  - destruct (Hm _ eq_refl) as (_ & Hinc & _). exact (Hinc eq_refl).
  - destruct (Hs _ eq_refl) as (_ & _ & Hreset).
    apply Hreset; simpl; intros [=].
Defined.

Lemma Forall_updateWhere {A : Type} (P : A → Prop) (p : A → bool) (f : A → A)
    (l : list A) :
  Forall P l → (∀ r, p r = true → P (f r)) → Forall P (updateWhere p f l).
Proof.
  intros Hl Hf. unfold updateWhere. apply Forall_fmap.
  eapply Forall_impl; [exact Hl|]. intros r Hr. simpl.
  destruct (p r) eqn:Hp; auto.
Qed.

(** C9: every write to a streak record keeps [currentStreak] at or below
    [longestStreak]: the creations and updates of [updateStreak] and
    [updateStudyStreak], and the creations at zero of [getStreak] and
    [getStudyStreak]. *)
Theorem streak_writes_bounded (st : State) (now : Date) (userId : string) :
  Spec.streaksBounded st →
  Spec.streaksBounded (DailyMcqController.updateStreak st now userId)
  ∧ Spec.streaksBounded (StudyPlannerController.updateStudyStreak st now userId)
  ∧ Spec.streaksBounded (fst (DashboardController.getStreak st userId))
  ∧ Spec.streaksBounded (fst (StudyPlannerController.getStudyStreak st userId)).
Proof.
  intros [Hu Hs]. unfold Spec.streaksBounded. repeat split.
  - unfold DailyMcqController.updateStreak.
    destruct (DailyMcqController.findStreak st userId) as [s|]; simpl.
    + destruct (match setHours0 <$> UserStreak.lastActiveDate s with
                | Some d => sameTime d (setHours0 now)
                | None => false
                end); [exact Hu|]. simpl.
      apply Forall_updateWhere; [exact Hu|]. intros r _. simpl. lia.
    + apply Forall_app. split; [exact Hu|]. repeat constructor. simpl. lia.
  - unfold DailyMcqController.updateStreak.
    destruct (DailyMcqController.findStreak st userId) as [s|]; simpl;
      [|exact Hs].
    destruct (match setHours0 <$> UserStreak.lastActiveDate s with
              | Some d => sameTime d (setHours0 now)
              | None => false
              end); exact Hs.
  - unfold StudyPlannerController.updateStudyStreak.
    destruct (StudyPlannerController.findStreak st userId) as [s|]; simpl;
      [|exact Hu].
    destruct (match setHours0 <$> StudyStreak.lastStudyDate s with
              | Some d => sameTime d (getToday now)
              | None => false
              end); exact Hu.
  - unfold StudyPlannerController.updateStudyStreak.
    destruct (StudyPlannerController.findStreak st userId) as [s|]; simpl.
    + destruct (match setHours0 <$> StudyStreak.lastStudyDate s with
                | Some d => sameTime d (getToday now)
                | None => false
                end); [exact Hs|]. simpl.
      apply Forall_updateWhere; [exact Hs|]. intros r _. simpl. lia.
    + apply Forall_app. split; [exact Hs|]. repeat constructor. simpl. lia.
  - unfold DashboardController.getStreak.
    destruct (DailyMcqController.findStreak st userId); simpl; [exact Hu|].
    apply Forall_app. split; [exact Hu|]. repeat constructor. simpl. lia.
  - unfold DashboardController.getStreak.
    destruct (DailyMcqController.findStreak st userId); exact Hs.
  - unfold StudyPlannerController.getStudyStreak.
    destruct (StudyPlannerController.findStreak st userId); exact Hu.
  - unfold StudyPlannerController.getStudyStreak.
    destruct (StudyPlannerController.findStreak st userId); simpl; [exact Hs|].
    apply Forall_app. split; [exact Hs|]. repeat constructor. simpl. lia.
Qed.

Lemma streak_writes_bounded_witness :
  Spec.streaksBounded Sample.streaks
  ∧ Spec.streaksBounded
      (DailyMcqController.updateStreak Sample.streaks Sample.noon "u1")
  ∧ UserStreak.longestStreak
      <$> userStreaks
            (DailyMcqController.updateStreak Sample.streaks Sample.noon "u1")
    = [5].
Proof.
  assert (H : Spec.streaksBounded Sample.streaks).
  { split; repeat constructor; simpl; lia. }
  split; [exact H|]. split; [|reflexivity].
  exact (proj1 (streak_writes_bounded Sample.streaks Sample.noon "u1" H)).
Defined.

(** ** Submitting the daily MCQ *)

Section SubmitMCQ.

Import DailyMcqController.

Lemma set_userStreaks_id (st : State) : set_userStreaks (userStreaks st) st = st.
Proof. by destruct st. Qed.

Lemma set_mcqResponses_id (st : State) :
  set_mcqResponses (mcqResponses st) st = st.
Proof. by destruct st. Qed.

(** [updateStreak] writes the streak table only. *)
Lemma updateStreak_shape (st : State) (now : Date) (userId : string) :
  ∃ v, updateStreak st now userId = set_userStreaks v st.
Proof.
  unfold updateStreak. destruct (findStreak st userId) as [s|]; [|eauto].
  destruct (match setHours0 <$> UserStreak.lastActiveDate s with
            | Some d => sameTime d (setHours0 now)
            | None => false
            end); [|eauto].
  exists (userStreaks st). by rewrite set_userStreaks_id.
Qed.

(** Saving the responses writes the response table only. *)
Lemma upsertResponses_shape (attemptId : string) (rs : list responseDatum)
    (st : State) :
  ∃ v, foldl (upsertResponse attemptId) st rs = set_mcqResponses v st.
Proof.
  revert st. induction rs as [|r rs IH]; intros st; simpl.
  { exists (mcqResponses st). by rewrite set_mcqResponses_id. }
  destruct (IH (upsertResponse attemptId st r)) as [v ->].
  unfold upsertResponse.
  destruct (find _ (mcqResponses st)); eauto.
Qed.

Lemma find_none_Forall {A : Type} (p : A → bool) (l : list A) :
  find p l = None → Forall (fun x => p x = false) l.
Proof.
  induction l as [|x l IH]; simpl; [constructor|].
  destruct (p x) eqn:Hx; [discriminate|]. intros H. constructor; auto.
Qed.

(** What [submitMCQ] does to the store: nothing when it answers with an
    error; otherwise the attempt of the user for today's MCQ is written,
    in place when it exists and as a new row when it does not, and marked
    completed. *)
Lemma submitMCQ_effect (st : State) (now : Date) (userId : string)
    (body : SubmitBody) :
  (Spec.accepted (snd (submitMCQ st now userId body)) = false
   ∧ fst (submitMCQ st now userId body) = st)
  ∨ (Spec.accepted (snd (submitMCQ st now userId body)) = true
     ∧ ∃ mcq,
         findMcq st (getToday now) = Some mcq
         ∧ dailyMCQs (fst (submitMCQ st now userId body)) = dailyMCQs st
         ∧ mainsAttempts (fst (submitMCQ st now userId body)) = mainsAttempts st
         ∧ mainsEvaluations (fst (submitMCQ st now userId body))
           = mainsEvaluations st
         ∧ timers (fst (submitMCQ st now userId body)) = timers st
         ∧ ((∃ upd,
               is_Some (findAttempt st userId (DailyMCQ.id mcq))
               ∧ mcqAttempts (fst (submitMCQ st now userId body))
                 = updateWhere (hasKey userId (DailyMCQ.id mcq)) upd
                     (mcqAttempts st)
               ∧ ∀ a, MCQAttempt.id (upd a) = MCQAttempt.id a
                      ∧ MCQAttempt.userId (upd a) = MCQAttempt.userId a
                      ∧ MCQAttempt.dailyMcqId (upd a) = MCQAttempt.dailyMcqId a
                      ∧ MCQAttempt.completedAt (upd a) = Some now)
            ∨ (∃ a,
                 findAttempt st userId (DailyMCQ.id mcq) = None
                 ∧ mcqAttempts (fst (submitMCQ st now userId body))
                   = mcqAttempts st ++ [a]
                 ∧ hasKey userId (DailyMCQ.id mcq) a = true
                 ∧ MCQAttempt.completedAt a = Some now))).
Proof.
  unfold submitMCQ.
  destruct (findMcq st (getToday now)) as [mcq|] eqn:Hmcq; [|by left].
  destruct (bool_decide _); [by left|].
  assert (Hmain :
    ∀ l,
      let c := gradeAll l (questionsOf st (DailyMCQ.id mcq)) in
      ∀ R,
        R = (let '(attempt, st1) :=
               match findAttempt st userId (DailyMCQ.id mcq) with
               | Some old =>
                   let upd (a : MCQAttempt.t) :=
                     MCQAttempt.mk (MCQAttempt.id a) (MCQAttempt.userId a)
                       (MCQAttempt.dailyMcqId a) (scoreOf (correctCount c) mcq)
                       (MCQAttempt.totalMarks a) (correctCount c)
                       (wrongCount c) (skippedCount c)
                       (roundTenth (accuracyOf (correctCount c) (wrongCount c)))
                       (or_int (bodyTimeTaken body) 0)
                       (strongTopicsOf (topicResults c))
                       (weakTopicsOf (topicResults c)) (Some now) in
                   (upd old,
                    set_mcqAttempts
                      (updateWhere (hasKey userId (DailyMCQ.id mcq)) upd
                         (mcqAttempts st)) st)
               | None =>
                   let a :=
                     MCQAttempt.mk (genId st) userId (DailyMCQ.id mcq)
                       (scoreOf (correctCount c) mcq) (DailyMCQ.totalMarks mcq)
                       (correctCount c) (wrongCount c) (skippedCount c)
                       (roundTenth (accuracyOf (correctCount c) (wrongCount c)))
                       (or_int (bodyTimeTaken body) 0)
                       (strongTopicsOf (topicResults c))
                       (weakTopicsOf (topicResults c)) (Some now) in
                   (a, bumpId (set_mcqAttempts (mcqAttempts st ++ [a]) st))
               end in
             updateStreak
               (logActivity userId "mcq" "Completed Daily MCQ"
                  ("Scored " +:+ pretty (correctCount c) +:+ "/"
                   +:+ pretty (DailyMCQ.questionCount mcq) +:+ " ("
                   +:+ pretty (round (accuracyOf (correctCount c) (wrongCount c)))
                   +:+ "%)")
                  (foldl (upsertResponse (MCQAttempt.id attempt)) st1
                     (responseData c)))
               now userId) →
        dailyMCQs R = dailyMCQs st
        ∧ mainsAttempts R = mainsAttempts st
        ∧ mainsEvaluations R = mainsEvaluations st
        ∧ timers R = timers st
        ∧ ((∃ upd,
              is_Some (findAttempt st userId (DailyMCQ.id mcq))
              ∧ mcqAttempts R
                = updateWhere (hasKey userId (DailyMCQ.id mcq)) upd
                    (mcqAttempts st)
              ∧ ∀ a, MCQAttempt.id (upd a) = MCQAttempt.id a
                     ∧ MCQAttempt.userId (upd a) = MCQAttempt.userId a
                     ∧ MCQAttempt.dailyMcqId (upd a) = MCQAttempt.dailyMcqId a
                     ∧ MCQAttempt.completedAt (upd a) = Some now)
           ∨ (∃ a,
                findAttempt st userId (DailyMCQ.id mcq) = None
                ∧ mcqAttempts R = mcqAttempts st ++ [a]
                ∧ hasKey userId (DailyMCQ.id mcq) a = true
                ∧ MCQAttempt.completedAt a = Some now))).
  { intros l c R ->.
    destruct (findAttempt st userId (DailyMCQ.id mcq)) as [old|] eqn:Hold;
      cbv beta iota zeta.
    - match goal with
      | |- context [foldl (upsertResponse ?i) ?s ?rs] =>
          destruct (upsertResponses_shape i rs s) as [w ->]
      end.
      match goal with
      | |- context [updateStreak ?s now userId] =>
          destruct (updateStreak_shape s now userId) as [v ->]
      end.
      simpl. repeat split. left. eexists. split; [eauto|].
      split; [reflexivity|]. intros a. simpl. auto.
    - match goal with
      | |- context [foldl (upsertResponse ?i) ?s ?rs] =>
          destruct (upsertResponses_shape i rs s) as [w ->]
      end.
      match goal with
      | |- context [updateStreak ?s now userId] =>
          destruct (updateStreak_shape s now userId) as [v ->]
      end.
      simpl. repeat split. right. eexists. split; [reflexivity|].
      split; [reflexivity|]. split; [|reflexivity].
      unfold hasKey. simpl. by rewrite !String.eqb_refl. }
  destruct (answers body) as [|l|] eqn:Hans.
  - right. split.
    { destruct (findAttempt st userId (DailyMCQ.id mcq)); reflexivity. }
    exists mcq. split; [reflexivity|].
    apply (Hmain []).
    destruct (findAttempt st userId (DailyMCQ.id mcq)); reflexivity.
  - right. split.
    { destruct (findAttempt st userId (DailyMCQ.id mcq)); reflexivity. }
    exists mcq. split; [reflexivity|].
    apply (Hmain l).
    destruct (findAttempt st userId (DailyMCQ.id mcq)); reflexivity.
  - destruct (questionsOf st (DailyMCQ.id mcq)) as [|q qs] eqn:Hqs;
      [|by left].
    right. split.
    { destruct (findAttempt st userId (DailyMCQ.id mcq)); reflexivity. }
    exists mcq. split; [reflexivity|].
    apply (Hmain []).
    destruct (findAttempt st userId (DailyMCQ.id mcq)); reflexivity.
Qed.

(** A completed attempt for today's MCQ closes the door. *)
Lemma submitMCQ_completed (st : State) (now : Date) (userId : string)
    (body : SubmitBody) (mcq : DailyMCQ.t) (a : MCQAttempt.t) :
  findMcq st (getToday now) = Some mcq →
  findAttempt st userId (DailyMCQ.id mcq) = Some a →
  is_Some (MCQAttempt.completedAt a) →
  submitMCQ st now userId body
  = (st, Respond 400 (errorBody "You have already submitted today's MCQ")).
Proof.
  intros Hmcq Ha Hdone. unfold submitMCQ. rewrite Hmcq, Ha. simpl.
  by rewrite bool_decide_eq_true_2.
Qed.

End SubmitMCQ.

(** C3: once a submission to today's MCQ has been accepted, a further
    submission by the same user on that day is answered with 400 and the
    error envelope, and the store (the attempt of the first submission
    included) is left as it was. *)
Theorem submitMCQ_twice_rejected (st : State) (now1 now2 : Date)
    (userId : string) (body1 body2 : DailyMcqController.SubmitBody) :
  Spec.accepted (snd (DailyMcqController.submitMCQ st now1 userId body1)) = true →
  day now2 = day now1 →
  DailyMcqController.submitMCQ
    (fst (DailyMcqController.submitMCQ st now1 userId body1)) now2 userId body2
  = (fst (DailyMcqController.submitMCQ st now1 userId body1),
     Respond 400 (errorBody "You have already submitted today's MCQ")).
Proof.
  intros Hacc Hday.
  destruct (submitMCQ_effect st now1 userId body1)
    as [[Hrej _]|(_ & mcq & Hmcq & Hd & _ & _ & _ & Hrows)]; [congruence|].
  assert (Htoday : getToday now2 = getToday now1).
  { unfold getToday, setHours0. by rewrite Hday. }
  assert (Hmcq' :
    DailyMcqController.findMcq
      (fst (DailyMcqController.submitMCQ st now1 userId body1)) (getToday now2)
    = Some mcq).
  { unfold DailyMcqController.findMcq in *. by rewrite Hd, Htoday. }
  destruct Hrows as [(upd & [old Hold] & Hrows & Hupd)|(a & Hnone & Hrows & Hkey & Hdone)].
  - eapply submitMCQ_completed with (a := upd old); [exact Hmcq'| |].
    + unfold DailyMcqController.findAttempt in *. rewrite Hrows.
      rewrite find_updateWhere, Hold; [reflexivity|].
      intros r. unfold DailyMcqController.hasKey.
      destruct (Hupd r) as (_ & -> & -> & _). reflexivity.
    + destruct (Hupd old) as (_ & _ & _ & ->). eauto.
  - eapply submitMCQ_completed with (a := a); [exact Hmcq'| |].
    + unfold DailyMcqController.findAttempt in *. rewrite Hrows.
      apply find_snoc_fresh; [|exact Hkey].
      by apply find_none_Forall.
    + rewrite Hdone. eauto.
Qed.

Lemma submitMCQ_twice_rejected_witness :
  Spec.accepted
    (snd (DailyMcqController.submitMCQ Sample.seeded Sample.noon "u1"
            Sample.mcqBody)) = true
  ∧ snd (DailyMcqController.submitMCQ
           (fst (DailyMcqController.submitMCQ Sample.seeded Sample.noon "u1"
                   Sample.mcqBody))
           (mkDate 20000 50000000) "u1" Sample.mcqBody)
    = Respond 400 (errorBody "You have already submitted today's MCQ").
Proof.
  split; [vm_compute; reflexivity|].
  rewrite (submitMCQ_twice_rejected Sample.seeded Sample.noon
             (mkDate 20000 50000000) "u1" Sample.mcqBody Sample.mcqBody);
    [reflexivity|vm_compute; reflexivity|reflexivity].
Defined.

(** ** One attempt per user and daily item *)

Section OnePerKey.

Context {A : Type} (hasKey : string → string → A → bool).

Hypothesis hasKey_inj :
  ∀ u i u' i' a, hasKey u i a = true → hasKey u' i' a = true → u' = u ∧ i' = i.

Lemma rowsFor_updateWhere (p : A → bool) (f : A → A) (u i : string)
    (l : list A) :
  (∀ a u i, hasKey u i (f a) = hasKey u i a) →
  length (rowsFor hasKey u i (updateWhere p f l)) = length (rowsFor hasKey u i l).
Proof.
  intros Hf. unfold rowsFor, updateWhere.
  induction l as [|x l IH]; [reflexivity|].
  rewrite fmap_cons, !filter_cons.
  assert (Hx : hasKey u i (if p x then f x else x) = hasKey u i x).
  { destruct (p x); [apply Hf|reflexivity]. }
  rewrite Hx. destruct (decide (hasKey u i x = true)); simpl; by rewrite IH.
Qed.

Lemma rowsFor_none (u i : string) (l : list A) :
  find (hasKey u i) l = None → rowsFor hasKey u i l = [].
Proof.
  intros H. unfold rowsFor. apply filter_none.
  eapply Forall_impl; [apply find_none_Forall, H|].
  intros x Hx. simpl in Hx. congruence.
Qed.

Lemma rowsFor_snoc (u i : string) (l : list A) (a : A) :
  rowsFor hasKey u i (l ++ [a])
  = rowsFor hasKey u i l ++ (if decide (hasKey u i a = true) then [a] else []).
Proof.
  unfold rowsFor. rewrite filter_app, filter_cons, filter_nil. reflexivity.
Qed.

(** An upsert leaves the number of rows of every key as it was, except
    that a key without a row may get one. *)
Lemma upsertStep_count (l l' : list A) (u i : string) :
  upsertStep hasKey l l' →
  length (rowsFor hasKey u i l') = length (rowsFor hasKey u i l)
  ∨ (length (rowsFor hasKey u i l) = 0%nat ∧ length (rowsFor hasKey u i l') = 1%nat).
Proof.
  intros [|p f Hf|a u0 i0 Hnone Hkey].
  - by left.
  - left. by apply rowsFor_updateWhere.
  - rewrite rowsFor_snoc, length_app.
    destruct (decide (hasKey u i a = true)) as [Ha|Ha]; simpl.
    + destruct (hasKey_inj _ _ _ _ _ Hkey Ha) as [-> ->].
      right. rewrite (rowsFor_none _ _ _ Hnone). auto.
    + left. lia.
Qed.

End OnePerKey.

Lemma mcq_hasKey_inj (u i u' i' : string) (a : MCQAttempt.t) :
  DailyMcqController.hasKey u i a = true →
  DailyMcqController.hasKey u' i' a = true → u' = u ∧ i' = i.
Proof.
  unfold DailyMcqController.hasKey.
  intros [H1 H2]%andb_prop [H3 H4]%andb_prop.
  apply String.eqb_eq in H1, H2, H3, H4. split; congruence.
Qed.

Lemma mains_hasKey_inj (u i u' i' : string) (a : MainsAttempt.t) :
  DailyAnswerController.hasKey u i a = true →
  DailyAnswerController.hasKey u' i' a = true → u' = u ∧ i' = i.
Proof.
  unfold DailyAnswerController.hasKey.
  intros [H1 H2]%andb_prop [H3 H4]%andb_prop.
  apply String.eqb_eq in H1, H2, H3, H4. split; congruence.
Qed.

Section Frames.

Lemma createQuestions_frame (draw : nat → nat) (testId : string)
    (sl dl : list string) (turns : list Z) (st : State) :
  dailyTables (foldl (MockTestController.createQuestion draw testId sl dl) st
                 turns) = dailyTables st.
Proof.
  revert st. induction turns as [|i turns IH]; intros st; simpl; [reflexivity|].
  by rewrite IH.
Qed.

Lemma logActivity_frame (userId type title description : string) (st : State) :
  dailyTables (logActivity userId type title description st) = dailyTables st.
Proof. reflexivity. Qed.

Lemma generateTest_frame (draw : nat → nat) (st : State) (userId : string)
    (body : MockTestController.GenerateBody) :
  dailyTables (fst (MockTestController.generateTest draw st userId body))
  = dailyTables st.
Proof.
  unfold MockTestController.generateTest. cbn [fst].
  by rewrite logActivity_frame, createQuestions_frame.
Qed.

Lemma submitTest_frame (st : State) (now : Date) (userId testId : string)
    (body : MockTestController.SubmitBody) :
  dailyTables (fst (MockTestController.submitTest st now userId testId body))
  = dailyTables st.
Proof.
  unfold MockTestController.submitTest.
  by destruct (MockTestController.findTest st testId).
Qed.

Lemma getStreak_frame (st : State) (userId : string) :
  dailyTables (fst (DashboardController.getStreak st userId)) = dailyTables st.
Proof.
  unfold DashboardController.getStreak.
  by destruct (DailyMcqController.findStreak st userId).
Qed.

Lemma getStudyStreak_frame (st : State) (userId : string) :
  dailyTables (fst (StudyPlannerController.getStudyStreak st userId))
  = dailyTables st.
Proof.
  unfold StudyPlannerController.getStudyStreak.
  by destruct (StudyPlannerController.findStreak st userId).
Qed.

Lemma updateStudyStreak_frame (st : State) (now : Date) (userId : string) :
  dailyTables (StudyPlannerController.updateStudyStreak st now userId)
  = dailyTables st.
Proof.
  unfold StudyPlannerController.updateStudyStreak.
  destruct (StudyPlannerController.findStreak st userId) as [s|]; [|reflexivity].
  by destruct (match setHours0 <$> StudyStreak.lastStudyDate s with
               | Some d => sameTime d (getToday now)
               | None => false
               end).
Qed.

End Frames.

Lemma dailyTables_eq (a b : State) :
  dailyTables a = dailyTables b →
  mcqAttempts a = mcqAttempts b ∧ mainsAttempts a = mainsAttempts b
  ∧ mainsEvaluations a = mainsEvaluations b ∧ timers a = timers b.
Proof. unfold dailyTables, quizTables. intros [= ? ? ? ? ? ? ?]. auto. Qed.

Section DailyAnswer.

Import DailyAnswerController.

Lemma upsertAttempt_effect (st : State) (u q : string)
    (create : string → MainsAttempt.t) (update : MainsAttempt.t → MainsAttempt.t)
    (attempt : MainsAttempt.t) (st1 : State) :
  (∀ id, hasKey u q (create id) = true) →
  (∀ a v i, hasKey v i (update a) = hasKey v i a) →
  upsertAttempt st u q create update = (attempt, st1) →
  quizTables st1 = quizTables st
  ∧ mainsEvaluations st1 = mainsEvaluations st
  ∧ timers st1 = timers st
  ∧ upsertStep hasKey (mainsAttempts st) (mainsAttempts st1)
  ∧ findAttempt st1 u q = Some attempt.
Proof.
  intros Hc Hu. unfold upsertAttempt.
  destruct (findAttempt st u q) as [old|] eqn:Hold; intros [= <- <-];
    (split; [reflexivity|]); (split; [reflexivity|]); (split; [reflexivity|]);
    simpl.
  - split; [apply upsert_update; exact Hu|].
    unfold findAttempt in *. simpl.
    rewrite find_updateWhere, Hold; [reflexivity|]. intros r. apply Hu.
  - split; [eapply upsert_create; [exact Hold|apply Hc]|].
    unfold findAttempt in *. simpl.
    apply find_snoc_fresh; [by apply find_none_Forall|apply Hc].
Qed.

Lemma startEvaluation_effect (st : State) (attemptId : string)
    (txt : option text) (question : DailyMainsQuestion.t) :
  quizTables (startEvaluation st attemptId txt question) = quizTables st
  ∧ mainsAttempts (startEvaluation st attemptId txt question) = mainsAttempts st
  ∧ ∃ e,
      evaluationOf (startEvaluation st attemptId txt question) attemptId = Some e
      ∧ MainsEvaluation.status e = "evaluating"
      ∧ timers (startEvaluation st attemptId txt question)
        = timers st
          ++ [Timer.mk (MainsEvaluation.id e) txt
                (DailyMainsQuestion.marks question)]
      ∧ (mainsEvaluations (startEvaluation st attemptId txt question)
         = updateWhere
             (fun x => String.eqb (MainsEvaluation.attemptId x) attemptId)
             markEvaluating (mainsEvaluations st)
         ∨ mainsEvaluations (startEvaluation st attemptId txt question)
           = mainsEvaluations st ++ [e]).
Proof.
  unfold startEvaluation.
  destruct (evaluationOf st attemptId) as [old|] eqn:Hold;
    (split; [reflexivity|]); (split; [reflexivity|]); simpl.
  - exists (markEvaluating old). unfold evaluationOf in *. simpl.
    rewrite find_updateWhere, Hold by reflexivity. auto.
  - exists (MainsEvaluation.mk (genId st) attemptId 0
              (DailyMainsQuestion.marks question) "evaluating" [] [] [] None
              None).
    unfold evaluationOf in *. simpl.
    split; [|split; [reflexivity|split; [reflexivity|right; reflexivity]]].
    apply find_snoc_fresh; [by apply find_none_Forall|].
    simpl. apply String.eqb_refl.
Qed.

(** The common part of [submitTextAnswer] and [uploadAnswer]: the upsert
    of the attempt, [startEvaluation] and the activity log. *)
Lemma submission_effect (st : State) (u : string)
    (question : DailyMainsQuestion.t) (create : string → MainsAttempt.t)
    (update : MainsAttempt.t → MainsAttempt.t) (txt : option text)
    (attempt : MainsAttempt.t) (st1 : State) (type title description : string) :
  (∀ id, hasKey u (DailyMainsQuestion.id question) (create id) = true) →
  (∀ a v i, hasKey v i (update a) = hasKey v i a) →
  upsertAttempt st u (DailyMainsQuestion.id question) create update
  = (attempt, st1) →
  submissionEffect st
    (logActivity u type title description
       (startEvaluation st1 (MainsAttempt.id attempt) txt question))
    u question txt.
Proof.
  intros Hc Hu Hup.
  destruct (upsertAttempt_effect _ _ _ _ _ _ _ Hc Hu Hup)
    as (Hq & Hev & Htm & Hstep & Hfind).
  destruct (startEvaluation_effect st1 (MainsAttempt.id attempt) txt question)
    as (Hq' & Hat & e & He & Hst & Htm' & Hevs).
  unfold submissionEffect.
  split; [change (quizTables (logActivity ?a ?b ?c ?d ?s)) with (quizTables s);
          congruence|].
  split; [simpl; by rewrite Hat|].
  exists attempt, e. repeat split.
  - unfold findAttempt in *. simpl. by rewrite Hat.
  - exact He.
  - exact Hst.
  - simpl. by rewrite Htm', Htm.
  - simpl. rewrite <- Hev. exact Hevs.
Qed.

Lemma submitTextAnswer_effect (st : State) (now : Date) (u : string)
    (f : textField) :
  (Spec.accepted (snd (submitTextAnswer st now u f)) = false
   ∧ fst (submitTextAnswer st now u f) = st)
  ∨ (Spec.accepted (snd (submitTextAnswer st now u f)) = true
     ∧ ∃ question text,
         f = TextStr text
         ∧ findQuestion st (getToday now) = Some question
         ∧ submissionEffect st (fst (submitTextAnswer st now u f)) u question
             (Some text)).
Proof.
  unfold submitTextAnswer.
  destruct f as [|text|[|]]; try (by left).
  destruct (negb (truthy_text text) || _); [by left|].
  destruct (findQuestion st (getToday now)) as [question|] eqn:Hq; [|by left].
  right.
  destruct (upsertAttempt _ _ _ _ _) as [attempt st1] eqn:Hup.
  split; [reflexivity|]. exists question, text.
  split; [reflexivity|]. split; [reflexivity|]. cbn [fst].
  eapply submission_effect; [| |exact Hup].
  - intros id. unfold hasKey. simpl. by rewrite !String.eqb_refl.
  - reflexivity.
Qed.

Lemma uploadAnswer_effect (st : State) (now : Date) (u : string)
    (fileUrl : option string) :
  (Spec.accepted (snd (uploadAnswer st now u fileUrl)) = false
   ∧ fst (uploadAnswer st now u fileUrl) = st)
  ∨ (Spec.accepted (snd (uploadAnswer st now u fileUrl)) = true
     ∧ ∃ question,
         findQuestion st (getToday now) = Some question
         ∧ submissionEffect st (fst (uploadAnswer st now u fileUrl)) u question
             None).
Proof.
  unfold uploadAnswer.
  destruct (findQuestion st (getToday now)) as [question|] eqn:Hq; [|by left].
  right.
  destruct (upsertAttempt _ _ _ _ _) as [attempt st1] eqn:Hup.
  split; [reflexivity|]. exists question.
  split; [reflexivity|]. cbn [fst].
  eapply submission_effect; [| |exact Hup].
  - intros id. unfold hasKey. simpl. by rewrite !String.eqb_refl.
  - reflexivity.
Qed.

(** An expiring timer leaves the armed timers and completes the
    evaluation it was armed for; a timer that is not armed does nothing. *)
Lemma fireTimer_effect (st : State) (k : nat) (now : Date) (r : Q) :
  quizTables (fireTimer st k now r) = quizTables st
  ∧ mainsAttempts (fireTimer st k now r) = mainsAttempts st
  ∧ match timers st !! k with
    | None => fireTimer st k now r = st
    | Some t =>
        timers (fireTimer st k now r) = delete k (timers st)
        ∧ mainsEvaluations (fireTimer st k now r)
          = updateWhere
              (fun e => String.eqb (MainsEvaluation.id e) (Timer.evaluationId t))
              (markCompleted
                 (simulatedScore (Timer.answerText t) (Timer.marks t) r) now)
              (mainsEvaluations st)
    end.
Proof.
  unfold fireTimer. destruct (timers st !! k) as [t|]; repeat split.
Qed.

End DailyAnswer.

(** What an event does to the two tables of attempts. *)
Lemma step_attempts (st : State) (ev : event) :
  upsertStep DailyMcqController.hasKey (mcqAttempts st) (mcqAttempts (step st ev))
  ∧ upsertStep DailyAnswerController.hasKey (mainsAttempts st)
      (mainsAttempts (step st ev)).
Proof.
  assert (Hframe : ∀ st', dailyTables st' = dailyTables st →
            upsertStep DailyMcqController.hasKey (mcqAttempts st) (mcqAttempts st')
            ∧ upsertStep DailyAnswerController.hasKey (mainsAttempts st)
                (mainsAttempts st')).
  { intros st' (-> & -> & _)%dailyTables_eq. split; constructor. }
  assert (Hquiz : ∀ st', quizTables st' = quizTables st →
            mcqAttempts st' = mcqAttempts st).
  { unfold quizTables. by intros st' [= _ _ -> _]. }
  destruct ev as [draw u body|now u t body|now u body|now u txt|now u url
                 |k now r|u|u|now u]; cbn [step].
  - apply Hframe, generateTest_frame.
  - apply Hframe, submitTest_frame.
  - destruct (submitMCQ_effect st now u body)
      as [[_ ->]|(_ & mcq & _ & _ & -> & _ & _ & Hrows)]; [split; constructor|].
    split; [|constructor].
    destruct Hrows as [(upd & _ & -> & Hupd)|(a & Hnone & -> & Hkey & _)].
    + apply upsert_update. intros a v i. unfold DailyMcqController.hasKey.
      destruct (Hupd a) as (_ & -> & -> & _). reflexivity.
    + eapply upsert_create; eauto.
  - destruct (submitTextAnswer_effect st now u txt)
      as [[_ ->]|(_ & q & text & _ & _ & Hq & Hstep & _)]; [split; constructor|].
    rewrite (Hquiz _ Hq). split; [constructor|exact Hstep].
  - destruct (uploadAnswer_effect st now u url)
      as [[_ ->]|(_ & q & _ & Hq & Hstep & _)]; [split; constructor|].
    rewrite (Hquiz _ Hq). split; [constructor|exact Hstep].
  - destruct (fireTimer_effect st k now r) as (Hq & -> & _).
    rewrite (Hquiz _ Hq). split; constructor.
  - apply Hframe, getStreak_frame.
  - apply Hframe, getStudyStreak_frame.
  - apply Hframe, updateStudyStreak_frame.
Qed.

(** A submission to the mains question by a user who has an attempt for
    it rewrites that attempt in place. *)
Lemma mains_resubmission_in_place (st : State) (now : Date) (u : string)
    (question : DailyMainsQuestion.t) (old : MainsAttempt.t) :
  DailyAnswerController.findQuestion st (getToday now) = Some question →
  DailyAnswerController.findAttempt st u (DailyMainsQuestion.id question)
  = Some old →
  (∀ text,
     Spec.accepted
       (snd (DailyAnswerController.submitTextAnswer st now u
               (DailyAnswerController.TextStr text))) = true →
     mainsAttempts
       (fst (DailyAnswerController.submitTextAnswer st now u
               (DailyAnswerController.TextStr text)))
     = updateWhere
         (DailyAnswerController.hasKey u (DailyMainsQuestion.id question))
         (DailyAnswerController.withText text now) (mainsAttempts st))
  ∧ (∀ url,
       mainsAttempts (fst (DailyAnswerController.uploadAnswer st now u url))
       = updateWhere
           (DailyAnswerController.hasKey u (DailyMainsQuestion.id question))
           (DailyAnswerController.withFile url now) (mainsAttempts st)).
Proof.
  intros Hq Hold. split.
  - intros text. unfold DailyAnswerController.submitTextAnswer.
    destruct (negb (truthy_text text) || _); [discriminate|].
    rewrite Hq. unfold DailyAnswerController.upsertAttempt. rewrite Hold.
    intros _. cbn [fst].
    change (mainsAttempts (logActivity ?a ?b ?c ?d ?x)) with (mainsAttempts x).
    by rewrite (proj1 (proj2 (startEvaluation_effect _ _ _ _))).
  - intros url. unfold DailyAnswerController.uploadAnswer.
    rewrite Hq. unfold DailyAnswerController.upsertAttempt. rewrite Hold.
    cbn [fst].
    change (mainsAttempts (logActivity ?a ?b ?c ?d ?x)) with (mainsAttempts x).
    by rewrite (proj1 (proj2 (startEvaluation_effect _ _ _ _))).
Qed.

(** C4, as stated: a second submission to the MCQ of the day, with other
    answers, is rejected and leaves the attempt of the first submission as
    it was, with one right answer; it is not updated to the two right
    answers of the second. *)
Lemma mcq_resubmission_not_updated :
  MCQAttempt.correctCount
    <$> mcqAttempts (step Sample.seeded (SubmitMCQ Sample.noon "u1" Sample.mcqBody))
  = [1]
  ∧ DailyMcqController.correctCount
      (DailyMcqController.gradeAll
         [DailyMcqController.mkAnswer "q1" (Some "A") (Some 20);
          DailyMcqController.mkAnswer "q2" (Some "C") (Some 25)]
         (DailyMcqController.questionsOf Sample.seeded "mcq1")) = 2
  ∧ snd (DailyMcqController.submitMCQ
           (step Sample.seeded (SubmitMCQ Sample.noon "u1" Sample.mcqBody))
           Sample.noon "u1" Sample.allRight)
    = Respond 400 (errorBody "You have already submitted today's MCQ")
  ∧ mcqAttempts
      (step (step Sample.seeded (SubmitMCQ Sample.noon "u1" Sample.mcqBody))
         (SubmitMCQ Sample.noon "u1" Sample.allRight))
    = mcqAttempts (step Sample.seeded (SubmitMCQ Sample.noon "u1" Sample.mcqBody)).
Proof.
  split; [vm_compute; reflexivity|]. split; [vm_compute; reflexivity|].
  split; vm_compute; reflexivity.
Qed.

(** C4, amended: no event adds a row for a user and a daily item (today's
    MCQ or today's mains question) that already have one; a resubmission
    to the mains question rewrites the existing attempt in place (upsert
    on the key of user and question); a resubmission to the MCQ is
    rejected when the existing attempt is completed and rewrites it in
    place otherwise; hence a store with at most one attempt per user and
    daily item stays so after any sequence of events. *)
Theorem one_attempt_per_daily_item :
  (∀ st ev u i,
     (Spec.mcqAttemptsOf st u i ≠ [] →
      length (Spec.mcqAttemptsOf (step st ev) u i)
      = length (Spec.mcqAttemptsOf st u i))
     ∧ (Spec.mainsAttemptsOf st u i ≠ [] →
        length (Spec.mainsAttemptsOf (step st ev) u i)
        = length (Spec.mainsAttemptsOf st u i)))
  ∧ (∀ st now u question old,
       DailyAnswerController.findQuestion st (getToday now) = Some question →
       DailyAnswerController.findAttempt st u (DailyMainsQuestion.id question)
       = Some old →
       (∀ text,
          Spec.accepted
            (snd (DailyAnswerController.submitTextAnswer st now u
                    (DailyAnswerController.TextStr text))) = true →
          mainsAttempts
            (fst (DailyAnswerController.submitTextAnswer st now u
                    (DailyAnswerController.TextStr text)))
          = updateWhere
              (DailyAnswerController.hasKey u (DailyMainsQuestion.id question))
              (DailyAnswerController.withText text now) (mainsAttempts st))
       ∧ (∀ url,
            mainsAttempts (fst (DailyAnswerController.uploadAnswer st now u url))
            = updateWhere
                (DailyAnswerController.hasKey u (DailyMainsQuestion.id question))
                (DailyAnswerController.withFile url now) (mainsAttempts st)))
  ∧ (∀ st now u body mcq old,
       DailyMcqController.findMcq st (getToday now) = Some mcq →
       DailyMcqController.findAttempt st u (DailyMCQ.id mcq) = Some old →
       (is_Some (MCQAttempt.completedAt old) →
        DailyMcqController.submitMCQ st now u body
        = (st, Respond 400 (errorBody "You have already submitted today's MCQ")))
       ∧ (Spec.accepted (snd (DailyMcqController.submitMCQ st now u body)) = true →
          ∃ upd,
            mcqAttempts (fst (DailyMcqController.submitMCQ st now u body))
            = updateWhere (DailyMcqController.hasKey u (DailyMCQ.id mcq)) upd
                (mcqAttempts st)
            ∧ ∀ a, MCQAttempt.id (upd a) = MCQAttempt.id a
                   ∧ MCQAttempt.userId (upd a) = MCQAttempt.userId a
                   ∧ MCQAttempt.dailyMcqId (upd a) = MCQAttempt.dailyMcqId a))
  ∧ (∀ st evs, Spec.oneAttemptPerItem st → Spec.oneAttemptPerItem (run st evs)).
Proof.
  assert (Hstep : ∀ st ev u i,
    (length (Spec.mcqAttemptsOf (step st ev) u i)
     = length (Spec.mcqAttemptsOf st u i)
     ∨ (length (Spec.mcqAttemptsOf st u i) = 0
        ∧ length (Spec.mcqAttemptsOf (step st ev) u i) = 1))%nat
    ∧ (length (Spec.mainsAttemptsOf (step st ev) u i)
       = length (Spec.mainsAttemptsOf st u i)
       ∨ (length (Spec.mainsAttemptsOf st u i) = 0
          ∧ length (Spec.mainsAttemptsOf (step st ev) u i) = 1))%nat).
  { intros st ev u i. destruct (step_attempts st ev) as [Hm Ha]. split.
    - exact (upsertStep_count _ mcq_hasKey_inj _ _ u i Hm).
    - exact (upsertStep_count _ mains_hasKey_inj _ _ u i Ha). }
  repeat apply conj.
  - intros st ev u i. destruct (Hstep st ev u i) as [Hm Ha].
    split; intros Hne.
    + destruct Hm as [Hm|[Hm _]]; [exact Hm|].
      destruct (Spec.mcqAttemptsOf st u i); [congruence|discriminate].
    + destruct Ha as [Ha|[Ha _]]; [exact Ha|].
      destruct (Spec.mainsAttemptsOf st u i); [congruence|discriminate].
  - exact mains_resubmission_in_place.
  - intros st now u body mcq old Hmcq Hold. split.
    + intros Hdone. by eapply submitMCQ_completed.
    + intros Hacc.
      destruct (submitMCQ_effect st now u body)
        as [[Hrej _]|(_ & mcq' & Hmcq' & _ & _ & _ & _ & Hrows)]; [congruence|].
      assert (mcq' = mcq) as -> by congruence.
      destruct Hrows as [(upd & _ & Hrows & Hupd)|(a & Hnone & _)];
        [|congruence].
      exists upd. split; [exact Hrows|]. intros a.
      destruct (Hupd a) as (? & ? & ? & _). auto.
  - intros st evs. revert st. unfold run.
    induction evs as [|ev evs IH]; intros st Hst; [exact Hst|].
    simpl. apply IH. destruct Hst as [Hm Ha].
    split; intros u i; destruct (Hstep st ev u i) as [Hm' Ha'];
      specialize (Hm u i); specialize (Ha u i); lia.
Qed.

(** Two submissions of the same user to the MCQ (the second one rejected)
    and three to the mains question leave one attempt each. *)
Lemma one_attempt_per_daily_item_witness :
  Spec.oneAttemptPerItem Sample.seeded
  ∧ Spec.oneAttemptPerItem (run Sample.seeded Sample.busyDay)
  ∧ length (mcqAttempts (run Sample.seeded Sample.busyDay)) = 1%nat
  ∧ length (mainsAttempts (run Sample.seeded Sample.busyDay)) = 1%nat.
Proof.
  assert (H : Spec.oneAttemptPerItem Sample.seeded).
  { split; intros u i; simpl; lia. }
  split; [exact H|]. split; [|split; vm_compute; reflexivity].
  exact (proj2 (proj2 (proj2 one_attempt_per_daily_item)) Sample.seeded
           Sample.busyDay H).
Defined.

(** ** The status of an evaluation *)

Lemma rank_le_completed (s : string) : Spec.rank s <= Spec.rank "completed".
Proof.
  change (Spec.rank "completed") with 2. unfold Spec.rank.
  repeat case_decide; lia.
Qed.

Lemma statusNotLowered_refl (l : list MainsEvaluation.t) : statusNotLowered l l.
Proof. unfold statusNotLowered. apply Forall2_same_length_lookup_2; [done|].
  intros i x y Hx Hy. assert (x = y) as -> by congruence. split; [done|lia].
Qed.

Lemma statusNotLowered_updateWhere (p : MainsEvaluation.t → bool)
    (f : MainsEvaluation.t → MainsEvaluation.t) (l : list MainsEvaluation.t) :
  (∀ e, MainsEvaluation.id (f e) = MainsEvaluation.id e
        ∧ Spec.rank (MainsEvaluation.status e)
          <= Spec.rank (MainsEvaluation.status (f e))) →
  statusNotLowered l (updateWhere p f l).
Proof.
  intros Hf. unfold statusNotLowered, updateWhere.
  induction l as [|x l IH]; simpl; constructor; [|exact IH].
  destruct (p x); [apply Hf|split; [done|lia]].
Qed.

(** What an event other than a submission does to the evaluations: no
    status goes down. *)
Lemma step_status (st : State) (ev : event) :
  isSubmission ev = false →
  statusNotLowered (mainsEvaluations st) (mainsEvaluations (step st ev)).
Proof.
  assert (Hframe : ∀ st', dailyTables st' = dailyTables st →
            statusNotLowered (mainsEvaluations st) (mainsEvaluations st')).
  { intros st' (_ & _ & -> & _)%dailyTables_eq. apply statusNotLowered_refl. }
  destruct ev as [draw u body|now u t body|now u body|now u txt|now u url
                 |k now r|u|u|now u]; cbn [step isSubmission];
    try discriminate; intros _.
  - apply Hframe, generateTest_frame.
  - apply Hframe, submitTest_frame.
  - destruct (submitMCQ_effect st now u body)
      as [[_ ->]|(_ & mcq & _ & _ & _ & -> & _)]; apply statusNotLowered_refl.
  - destruct (fireTimer_effect st k now r) as (_ & _ & Hk).
    destruct (timers st !! k) as [t|]; [|rewrite Hk; apply statusNotLowered_refl].
    destruct Hk as [_ ->]. apply statusNotLowered_updateWhere.
    intros e. split; [reflexivity|]. apply rank_le_completed.
  - apply Hframe, getStreak_frame.
  - apply Hframe, getStudyStreak_frame.
  - apply Hframe, updateStudyStreak_frame.
Qed.

(** C5, as stated: after an answer has been evaluated, a new submission
    takes the status of the evaluation from completed back to evaluating. *)
Lemma resubmission_lowers_status :
  MainsEvaluation.status
    <$> mainsEvaluations (run Sample.seeded Sample.evaluated) = ["completed"]
  ∧ MainsEvaluation.status
      <$> mainsEvaluations
            (step (run Sample.seeded Sample.evaluated) Sample.resubmit)
    = ["evaluating"]
  ∧ Spec.rank "evaluating" < Spec.rank "completed"
  ∧ ¬ statusNotLowered
        (mainsEvaluations (run Sample.seeded Sample.evaluated))
        (mainsEvaluations
           (step (run Sample.seeded Sample.evaluated) Sample.resubmit)).
Proof.
  split; [vm_compute; reflexivity|]. split; [vm_compute; reflexivity|].
  split; [reflexivity|]. intros H. vm_compute in H.
  inversion H as [|e e' l l' [_ Hr] _]. apply Hr. reflexivity.
Qed.

(** C5, amended: an accepted submission (typed or uploaded) creates the
    evaluation of the attempt in the status evaluating or puts it back
    there, whatever its status was, and arms one timer; an expiring timer
    leaves the armed timers, arms none, and sets the status of its
    evaluation to completed; no event other than a submission lowers a
    status in the order pending, evaluating, completed; and
    [getEvaluationStatus] reports [isComplete] exactly when the status is
    completed, and the status pending when the attempt has no evaluation. *)
Theorem evaluation_status_lifecycle :
  (∀ st now u f,
     Spec.accepted (snd (DailyAnswerController.submitTextAnswer st now u f))
     = true →
     ∃ question text,
       f = DailyAnswerController.TextStr text
       ∧ DailyAnswerController.findQuestion st (getToday now) = Some question
       ∧ submissionEffect st
           (fst (DailyAnswerController.submitTextAnswer st now u f)) u question
           (Some text))
  ∧ (∀ st now u url,
       Spec.accepted (snd (DailyAnswerController.uploadAnswer st now u url))
       = true →
       ∃ question,
         DailyAnswerController.findQuestion st (getToday now) = Some question
         ∧ submissionEffect st
             (fst (DailyAnswerController.uploadAnswer st now u url)) u question
             None)
  ∧ (∀ st k now r t,
       timers st !! k = Some t →
       timers (DailyAnswerController.fireTimer st k now r) = delete k (timers st)
       ∧ Forall
           (fun e =>
              MainsEvaluation.id e = Timer.evaluationId t →
              MainsEvaluation.status e = "completed")
           (mainsEvaluations (DailyAnswerController.fireTimer st k now r)))
  ∧ (∀ st ev,
       isSubmission ev = false →
       statusNotLowered (mainsEvaluations st) (mainsEvaluations (step st ev)))
  ∧ (∀ st now u question attempt,
       DailyAnswerController.findQuestion st (getToday now) = Some question →
       DailyAnswerController.findAttempt st u (DailyMainsQuestion.id question)
       = Some attempt →
       let evaluation :=
         DailyAnswerController.evaluationOf st (MainsAttempt.id attempt) in
       DailyAnswerController.getEvaluationStatus st now u
       = ok (JObj
               [("status", JStr "success");
                ("data",
                 JObj [("attemptId", JStr (MainsAttempt.id attempt));
                       ("evaluationStatus",
                        JStr (DailyAnswerController.reportedStatus evaluation));
                       ("isComplete",
                        JBool
                          (DailyAnswerController.reportedComplete evaluation))])])
       ∧ (DailyAnswerController.reportedComplete evaluation = true
          ↔ MainsEvaluation.status <$> evaluation = Some "completed")
       ∧ (evaluation = None
          → DailyAnswerController.reportedStatus evaluation = "pending")).
Proof.
  repeat apply conj.
  - intros st now u f Hacc.
    destruct (submitTextAnswer_effect st now u f) as [[Hrej _]|[_ H]];
      [congruence|exact H].
  - intros st now u url Hacc.
    destruct (uploadAnswer_effect st now u url) as [[Hrej _]|[_ H]];
      [congruence|exact H].
  - intros st k now r t Ht.
    destruct (fireTimer_effect st k now r) as (_ & _ & Hk).
    rewrite Ht in Hk. destruct Hk as [-> ->]. split; [reflexivity|].
    unfold updateWhere. apply Forall_fmap, Forall_forall. intros e _. simpl.
    destruct (String.eqb_spec (MainsEvaluation.id e) (Timer.evaluationId t));
      [reflexivity|congruence].
  - exact step_status.
  - intros st now u question attempt Hq Ha evaluation.
    unfold DailyAnswerController.getEvaluationStatus. rewrite Hq, Ha.
    split; [reflexivity|]. split.
    + unfold DailyAnswerController.reportedComplete.
      destruct evaluation as [e|]; simpl; [|split; discriminate].
      destruct (String.eqb_spec (MainsEvaluation.status e) "completed");
        split; congruence.
    + intros ->. reflexivity.
Qed.

Lemma evaluation_status_lifecycle_witness :
  Spec.accepted
    (snd (DailyAnswerController.submitTextAnswer Sample.seeded Sample.noon "u1"
            (DailyAnswerController.TextStr (units "A first answer")))) = true
  ∧ (∃ question,
       DailyAnswerController.findQuestion Sample.seeded (getToday Sample.noon)
       = Some question
       ∧ submissionEffect Sample.seeded
           (fst (DailyAnswerController.submitTextAnswer Sample.seeded
                   Sample.noon "u1"
                   (DailyAnswerController.TextStr (units "A first answer"))))
           "u1" question (Some (units "A first answer")))
  ∧ MainsEvaluation.status
      <$> mainsEvaluations
            (fst (DailyAnswerController.submitTextAnswer Sample.seeded
                    Sample.noon "u1"
                    (DailyAnswerController.TextStr (units "A first answer"))))
    = ["evaluating"].
Proof.
  split; [reflexivity|]. split; [|vm_compute; reflexivity].
  destruct (proj1 evaluation_status_lifecycle Sample.seeded Sample.noon "u1"
              (DailyAnswerController.TextStr (units "A first answer")) eq_refl)
    as (question & text & Htext & Hq & Heff).
  exists question. split; [exact Hq|].
  injection Htext as <-. exact Heff.
Defined.

(** ** What the questions of the day reveal *)

Section TodayQuestions.

Import DailyMcqController.

Lemma selectQuestion_redact (q : MCQQuestion.t) :
  selectQuestion (Spec.redact q) = selectQuestion q.
Proof. reflexivity. Qed.

Lemma insertBy_fmap {A : Type} (key : A → Z) (f : A → A) (x : A) (l : list A) :
  (∀ y, key (f y) = key y) →
  insertBy key (f x) (f <$> l) = f <$> insertBy key x l.
Proof.
  intros Hk. induction l as [|y l IH]; simpl; [reflexivity|].
  rewrite !Hk. destruct (key x <=? key y); simpl; [reflexivity|].
  f_equal. exact IH.
Qed.

Lemma orderBy_fmap {A : Type} (key : A → Z) (f : A → A) (l : list A) :
  (∀ y, key (f y) = key y) → orderBy key (f <$> l) = f <$> orderBy key l.
Proof.
  intros Hk. induction l as [|x l IH]; simpl; [reflexivity|].
  rewrite <- insertBy_fmap by exact Hk. f_equal. exact IH.
Qed.

Lemma questionsOf_redact (mcqId : string) (l : list MCQQuestion.t) :
  filter (fun q => MCQQuestion.dailyMcqId q = mcqId) (Spec.redact <$> l)
  = Spec.redact <$> filter (fun q => MCQQuestion.dailyMcqId q = mcqId) l.
Proof.
  induction l as [|q l IH]; [reflexivity|].
  rewrite fmap_cons, !filter_cons. simpl (MCQQuestion.dailyMcqId _).
  destruct (decide (MCQQuestion.dailyMcqId q = mcqId)); by rewrite IH.
Qed.

(** The questions sent depend on the stored questions only through their
    redacted form. *)
Lemma selected_questions_redact (mcqId : string) (l : list MCQQuestion.t) :
  selectQuestion
    <$> orderBy MCQQuestion.questionNum
          (filter (fun q => MCQQuestion.dailyMcqId q = mcqId) l)
  = selectQuestion
      <$> orderBy MCQQuestion.questionNum
            (filter (fun q => MCQQuestion.dailyMcqId q = mcqId)
               (Spec.redact <$> l)).
Proof.
  rewrite questionsOf_redact, orderBy_fmap by reflexivity.
  rewrite <- list_fmap_compose. apply list_fmap_ext. intros i q _.
  reflexivity.
Qed.

End TodayQuestions.

(** C8: every question of the response of [getTodayQuestions] has the
    properties id, questionNum, questionText, category, difficulty and
    options and no other, so neither correctOption nor explanation; and two
    stores that differ only in the correctOption and the explanation of
    their questions get the same response. *)
Theorem getTodayQuestions_hides_answers :
  (∀ st now body,
     DailyMcqController.getTodayQuestions st now = Respond 200 body →
     ∃ data questions,
       field "data" body = Some data
       ∧ field "questions" data = Some (JArr questions)
       ∧ Forall
           (fun q =>
              keys q = ["id"; "questionNum"; "questionText"; "category";
                        "difficulty"; "options"]
              ∧ ("correctOption" ∉ keys q) ∧ ("explanation" ∉ keys q))
           questions)
  ∧ (∀ st1 st2 now,
       Spec.sameUpToAnswers st1 st2 →
       DailyMcqController.getTodayQuestions st1 now
       = DailyMcqController.getTodayQuestions st2 now).
Proof.
  split.
  - intros st now body. unfold DailyMcqController.getTodayQuestions.
    destruct (DailyMcqController.findMcq st (getToday now)) as [mcq|];
      [|discriminate].
    intros [= <-]. eexists. eexists.
    split; [reflexivity|]. split; [reflexivity|].
    apply Forall_fmap, Forall_forall. intros q _. simpl.
    split; [reflexivity|]. split; intros Hin;
      repeat (apply elem_of_cons in Hin as [Hin|Hin]; [discriminate|]);
      by apply elem_of_nil in Hin.
  - intros st1 st2 now [Hmcq Hqs].
    unfold DailyMcqController.getTodayQuestions, DailyMcqController.findMcq,
      DailyMcqController.questionsOf.
    rewrite Hmcq.
    destruct (find _ (dailyMCQs st2)) as [mcq|]; [|reflexivity].
    rewrite (selected_questions_redact _ (mcqQuestions st1)).
    rewrite (selected_questions_redact _ (mcqQuestions st2)).
    by rewrite Hqs.
Qed.

(** Two stores with different answers and explanations for the questions
    of the day. *)
Lemma getTodayQuestions_hides_answers_witness :
  Spec.sameUpToAnswers Sample.seeded Sample.seeded'
  ∧ MCQQuestion.correctOption <$> mcqQuestions Sample.seeded
    ≠ MCQQuestion.correctOption <$> mcqQuestions Sample.seeded'
  ∧ DailyMcqController.getTodayQuestions Sample.seeded Sample.noon
    = DailyMcqController.getTodayQuestions Sample.seeded' Sample.noon.
Proof.
  assert (H : Spec.sameUpToAnswers Sample.seeded Sample.seeded').
  { split; reflexivity. }
  split; [exact H|]. split; [discriminate|].
  exact (proj2 getTodayQuestions_hides_answers Sample.seeded Sample.seeded'
           Sample.noon H).
Defined.

(** * Further properties *)

(** ** Mock tests *)

Section MockTestQuestions.

Import MockTestQueries.

Lemma testQuestionsOf_redact (testId : string) (l : list MockTestQuestion.t) :
  filter (fun q => MockTestQuestion.mockTestId q = testId)
    (Props.redactTestQuestion <$> l)
  = Props.redactTestQuestion
      <$> filter (fun q => MockTestQuestion.mockTestId q = testId) l.
Proof.
  induction l as [|q l IH]; [reflexivity|].
  rewrite fmap_cons, !filter_cons. simpl (MockTestQuestion.mockTestId _).
  destruct (decide (MockTestQuestion.mockTestId q = testId)); by rewrite IH.
Qed.

Lemma selected_test_questions_redact (testId : string)
    (l : list MockTestQuestion.t) :
  selectQuestion
    <$> orderBy MockTestQuestion.questionNum
          (filter (fun q => MockTestQuestion.mockTestId q = testId) l)
  = selectQuestion
      <$> orderBy MockTestQuestion.questionNum
            (filter (fun q => MockTestQuestion.mockTestId q = testId)
               (Props.redactTestQuestion <$> l)).
Proof.
  rewrite testQuestionsOf_redact, orderBy_fmap by reflexivity.
  rewrite <- list_fmap_compose. apply list_fmap_ext. intros i q _.
  reflexivity.
Qed.

End MockTestQuestions.

(** X1: the questions that [getTestQuestions] sends for a mock test carry
    the properties id, questionNum, questionText, subject, category,
    difficulty and options and no other, and two stores that differ only
    in the correctOption and the explanation of their questions get the
    same response. *)
Theorem getTestQuestions_hides_answers :
  (∀ st testId body,
     MockTestQueries.getTestQuestions st testId = Respond 200 body →
     ∃ data questions,
       field "data" body = Some data
       ∧ field "questions" data = Some (JArr questions)
       ∧ Forall
           (fun q =>
              keys q = ["id"; "questionNum"; "questionText"; "subject";
                        "category"; "difficulty"; "options"])
           questions)
  ∧ (∀ st1 st2 testId,
       Props.sameUpToTestAnswers st1 st2 →
       MockTestQueries.getTestQuestions st1 testId
       = MockTestQueries.getTestQuestions st2 testId).
Proof.
  split.
  - intros st testId body. unfold MockTestQueries.getTestQuestions.
    destruct (MockTestController.findTest st testId) as [test|]; [|discriminate].
    intros [= <-]. eexists. eexists.
    split; [reflexivity|]. split; [reflexivity|].
    apply Forall_fmap, Forall_forall. intros q _. reflexivity.
  - intros st1 st2 testId [Ht Hq].
    unfold MockTestQueries.getTestQuestions, MockTestController.findTest,
      MockTestController.questionsOf.
    rewrite Ht.
    destruct (find _ (mockTests st2)) as [test|]; [|reflexivity].
    rewrite (selected_test_questions_redact _ (mockTestQuestions st1)).
    rewrite (selected_test_questions_redact _ (mockTestQuestions st2)).
    by rewrite Hq.
Qed.

Lemma getTestQuestions_hides_answers_witness :
  Props.sameUpToTestAnswers Sample.oneQuestionTest More.otherKey
  ∧ MockTestQuestion.correctOption <$> mockTestQuestions Sample.oneQuestionTest
    ≠ MockTestQuestion.correctOption <$> mockTestQuestions More.otherKey
  ∧ MockTestQueries.getTestQuestions Sample.oneQuestionTest "t2"
    = MockTestQueries.getTestQuestions More.otherKey "t2".
Proof.
  assert (H : Props.sameUpToTestAnswers Sample.oneQuestionTest More.otherKey).
  { split; reflexivity. }
  split; [exact H|]. split; [discriminate|].
  exact (proj2 getTestQuestions_hides_answers Sample.oneQuestionTest
           More.otherKey "t2" H).
Defined.

(** ** Sorting *)

(** [orderBy] sorts: its result lists the rows it was given, each once,
    with keys that never decrease. *)
Lemma insertBy_Permutation {A : Type} (key : A → Z) (x : A) (l : list A) :
  insertBy key x l ≡ₚ x :: l.
Proof.
  induction l as [|y l IH]; simpl; [reflexivity|].
  destruct (key x <=? key y); [reflexivity|].
  rewrite IH. apply Permutation_swap.
Qed.

Lemma orderBy_Permutation {A : Type} (key : A → Z) (l : list A) :
  orderBy key l ≡ₚ l.
Proof.
  induction l as [|x l IH]; simpl; [reflexivity|].
  rewrite insertBy_Permutation. by rewrite IH.
Qed.

Lemma insertBy_sorted {A : Type} (key : A → Z) (x : A) (l : list A) :
  StronglySorted Z.le (key <$> l) →
  StronglySorted Z.le (key <$> insertBy key x l).
Proof.
  induction l as [|y l IH]; simpl; intros Hl.
  { repeat constructor. }
  apply StronglySorted_inv in Hl as [Hl Hy].
  destruct (Z.leb_spec (key x) (key y)) as [Hxy|Hxy].
  - rewrite !fmap_cons. constructor; [by constructor|].
    constructor; [exact Hxy|].
    eapply Forall_impl; [exact Hy|]. intros k Hk. simpl in Hk. lia.
  - rewrite fmap_cons. constructor; [by apply IH|].
    rewrite (insertBy_Permutation key x l), fmap_cons.
    constructor; [lia|exact Hy].
Qed.

Lemma orderBy_sorted {A : Type} (key : A → Z) (l : list A) :
  StronglySorted Z.le (key <$> orderBy key l).
Proof.
  induction l as [|x l IH]; simpl; [constructor|].
  by apply insertBy_sorted.
Qed.

(** ** The tallies of a submission *)

Section Tallies.

Import MockTestController.

Variable answers : option (gmap string string).

Lemma assoc_bump_eq {V : Type} (zero : V) (k : string) (f : V → V)
    (o : list (string * V)) :
  Props.assoc k (bump zero k f o) = Some (f (default zero (Props.assoc k o))).
Proof.
  unfold Props.assoc. induction o as [|[k' v] o IH]; simpl.
  - by rewrite String.eqb_refl.
  - destruct (String.eqb k' k) eqn:Hk; simpl; rewrite Hk; [reflexivity|].
    exact IH.
Qed.

Lemma assoc_bump_ne {V : Type} (zero : V) (k k' : string) (f : V → V)
    (o : list (string * V)) :
  k ≠ k' → Props.assoc k' (bump zero k f o) = Props.assoc k' o.
Proof.
  intros Hne. unfold Props.assoc. induction o as [|[k0 v] o IH]; simpl.
  - destruct (String.eqb_spec k k'); [congruence|reflexivity].
  - destruct (String.eqb_spec k0 k) as [->|Hk0]; simpl.
    + destruct (String.eqb_spec k k'); [congruence|reflexivity].
    + destruct (String.eqb k0 k'); [reflexivity|exact IH].
Qed.

Lemma bump_keys {V : Type} (zero : V) (k : string) (f : V → V)
    (o : list (string * V)) :
  fst <$> bump zero k f o
  = if bool_decide (k ∈ fst <$> o) then fst <$> o else (fst <$> o) ++ [k].
Proof.
  induction o as [|[k' v] o IH].
  { case_bool_decide as Hin; [by apply elem_of_nil in Hin|reflexivity]. }
  simpl bump. destruct (String.eqb_spec k' k) as [->|Hne].
  - rewrite bool_decide_eq_true_2; [reflexivity|].
    rewrite fmap_cons. apply elem_of_cons. by left.
  - rewrite !fmap_cons, IH. simpl fst.
    case_bool_decide as Hin.
    + rewrite bool_decide_eq_true_2; [reflexivity|].
      apply elem_of_cons. by right.
    + rewrite bool_decide_eq_false_2; [reflexivity|].
      intros [?|?]%elem_of_cons; congruence.
Qed.

Lemma bump_NoDup {V : Type} (zero : V) (k : string) (f : V → V)
    (o : list (string * V)) :
  NoDup (fst <$> o) → NoDup (fst <$> bump zero k f o).
Proof.
  intros Hnd. rewrite bump_keys.
  destruct (bool_decide (k ∈ fst <$> o)) eqn:Hin; [exact Hnd|].
  apply bool_decide_eq_false_1 in Hin.
  apply NoDup_app. split; [exact Hnd|]. split.
  - intros x Hx [->|[]%elem_of_nil]%elem_of_cons. contradiction.
  - apply NoDup_singleton.
Qed.

Lemma assoc_bumpObject {V : Type} (zero : V) (k k' : string) (f : V → V)
    (o : list (string * V)) :
  Props.assoc k' (bumpObject zero k f o)
  = if inherited k then Props.assoc k' o
    else if decide (k = k') then Some (f (default zero (Props.assoc k' o)))
    else Props.assoc k' o.
Proof.
  unfold bumpObject. destruct (inherited k); [reflexivity|].
  destruct (decide (k = k')) as [<-|Hne].
  - apply assoc_bump_eq.
  - by apply assoc_bump_ne.
Qed.

Lemma bumpObject_NoDup {V : Type} (zero : V) (k : string) (f : V → V)
    (o : list (string * V)) :
  NoDup (fst <$> o) → NoDup (fst <$> bumpObject zero k f o).
Proof.
  unfold bumpObject. destruct (inherited k); [done|]. apply bump_NoDup.
Qed.

(** An inherited name never gets an entry. *)
Lemma bumpObject_keys {V : Type} (zero : V) (k k' : string) (f : V → V)
    (o : list (string * V)) :
  inherited k' = true → k' ∉ fst <$> o → k' ∉ fst <$> bumpObject zero k f o.
Proof.
  intros Hk' Hnot. unfold bumpObject.
  destruct (inherited k) eqn:Hk; [exact Hnot|].
  rewrite bump_keys. case_bool_decide; [exact Hnot|].
  intros [Hin|Hin%list_elem_of_singleton]%elem_of_app; [done|].
  congruence.
Qed.

(** [Object.entries] lists every entry once. *)
Lemma entries_Permutation {V : Type} (o : list (string * V)) : entries o ≡ₚ o.
Proof.
  unfold entries. rewrite orderBy_Permutation.
  induction o as [|kv o IH]; [reflexivity|]. simpl.
  destruct (isArrayIndex (fst kv)); simpl.
  - by rewrite IH.
  - rewrite <- Permutation_middle. by rewrite IH.
Qed.

(** The entry that one turn of the loop writes for the subject of its
    question. *)
Lemma grade_subjectWise (acc : counters) (q : MockTestQuestion.t) :
  ∃ f,
    subjectWise (grade answers acc q)
    = bumpObject (mkTally 0 0 0) (MockTestQuestion.subject q) f
        (subjectWise acc)
    ∧ ∀ v, f v = mkTally (correct v + Spec.numCorrect answers [q])
                   (wrong v + Spec.numWrong answers [q]) (total v + 1).
Proof.
  pose proof (classify answers q) as Hq.
  unfold grade. rewrite selectedOf_selection.
  unfold Spec.numCorrect, Spec.numWrong. rewrite !filter_cons, !filter_nil.
  destruct (Spec.selection answers q) as [s|].
  - destruct (decide (s = MockTestQuestion.correctOption q)) as [->|Hne];
      destruct Hq as (H1 & H2 & H3).
    + rewrite String.eqb_refl. eexists. split; [reflexivity|].
      intros v. repeat case_decide; try contradiction. simpl. f_equal; lia.
    + destruct (String.eqb_spec s (MockTestQuestion.correctOption q));
        [contradiction|].
      eexists. split; [reflexivity|].
      intros v. repeat case_decide; try contradiction. simpl. f_equal; lia.
  - destruct Hq as (H1 & H2 & H3). eexists. split; [reflexivity|].
    intros v. repeat case_decide; try contradiction. simpl. f_equal; lia.
Qed.

Lemma numCorrect_cons (q : MockTestQuestion.t) (l : list MockTestQuestion.t) :
  Spec.numCorrect answers (q :: l)
  = Spec.numCorrect answers [q] + Spec.numCorrect answers l.
Proof.
  unfold Spec.numCorrect. rewrite !filter_cons, filter_nil.
  case_decide; simpl length; lia.
Qed.

Lemma numWrong_cons (q : MockTestQuestion.t) (l : list MockTestQuestion.t) :
  Spec.numWrong answers (q :: l)
  = Spec.numWrong answers [q] + Spec.numWrong answers l.
Proof.
  unfold Spec.numWrong. rewrite !filter_cons, filter_nil.
  case_decide; simpl length; lia.
Qed.

(** The loop keeps, for every subject whose name is not an inherited one,
    the tally of the questions of that subject it has seen; it keeps
    nothing for an inherited name. *)
Lemma foldl_grade_subjectWise (s : string) (qs : list MockTestQuestion.t)
    (acc : counters) :
  Props.assoc s (subjectWise (foldl (grade answers) acc qs))
  = if inherited s then Props.assoc s (subjectWise acc)
    else
      match Props.ofSubject s qs with
      | [] => Props.assoc s (subjectWise acc)
      | l =>
          let v := default (mkTally 0 0 0) (Props.assoc s (subjectWise acc)) in
          Some (mkTally (correct v + Spec.numCorrect answers l)
                  (wrong v + Spec.numWrong answers l)
                  (total v + Z.of_nat (length l)))
      end.
Proof.
  revert acc. induction qs as [|q qs IH]; intros acc.
  { simpl. by destruct (inherited s). }
  simpl foldl. rewrite IH. clear IH.
  destruct (grade_subjectWise acc q) as (f & -> & Hf).
  rewrite assoc_bumpObject.
  unfold Props.ofSubject. rewrite filter_cons.
  destruct (inherited s) eqn:Hs.
  { destruct (inherited (MockTestQuestion.subject q)) eqn:Hq; [reflexivity|].
    destruct (decide (MockTestQuestion.subject q = s)); [congruence|].
    reflexivity. }
  destruct (decide (MockTestQuestion.subject q = s)) as [<-|Hne].
  - rewrite Hs, Hf. simpl default.
    destruct (filter _ qs) as [|q' l] eqn:Hl.
    + reflexivity.
    + cbv zeta. f_equal.
      rewrite (numCorrect_cons q (q' :: l)), (numWrong_cons q (q' :: l)).
      simpl default. simpl length. f_equal; simpl; lia.
  - by destruct (inherited (MockTestQuestion.subject q)).
Qed.

Lemma foldl_grade_NoDup (qs : list MockTestQuestion.t) (acc : counters) :
  NoDup (fst <$> subjectWise acc) →
  NoDup (fst <$> subjectWise (foldl (grade answers) acc qs)).
Proof.
  revert acc. induction qs as [|q qs IH]; intros acc Hnd; [exact Hnd|].
  simpl. apply IH. destruct (grade_subjectWise acc q) as (f & -> & _).
  by apply bumpObject_NoDup.
Qed.

End Tallies.

(** X2: the three counters that [submitTest] stores count every question
    of the test once: their sum is the number of questions of the test,
    and none is negative. *)
Theorem submitTest_counters_partition (st : State) (now : Date)
    (userId testId : string) (body : MockTestController.SubmitBody)
    (test : MockTest.t) :
  MockTestController.findTest st testId = Some test →
  ∃ attempt,
    mockTestAttempts
      (fst (MockTestController.submitTest st now userId testId body))
    = mockTestAttempts st ++ [attempt]
    ∧ MockTestAttempt.correctCount attempt + MockTestAttempt.wrongCount attempt
      + MockTestAttempt.skippedCount attempt
      = Z.of_nat (length (MockTestController.questionsOf st testId))
    ∧ 0 <= MockTestAttempt.correctCount attempt
    ∧ 0 <= MockTestAttempt.wrongCount attempt
    ∧ 0 <= MockTestAttempt.skippedCount attempt.
Proof.
  intros Hfind. unfold MockTestController.submitTest. rewrite Hfind. simpl.
  eexists. split; [reflexivity|]. simpl.
  destruct (gradeAll_counts (MockTestController.answers body)
              (MockTestController.questionsOf st testId)) as (-> & -> & ->).
  split; [apply counts_partition|].
  unfold Spec.numCorrect, Spec.numWrong, Spec.numSkipped. lia.
Qed.

Lemma submitTest_counters_partition_witness :
  MockTestController.findTest Sample.oneQuestionTest "t2"
  = Some (MockTest.mk "t2" "Mixed - Prelims Practice" "mixed" "prelims" None
            None "mixed" 2 3 4 true)
  ∧ ∃ attempt,
      mockTestAttempts
        (fst (MockTestController.submitTest Sample.oneQuestionTest Sample.noon
                "u1" "t2" Sample.rightAndWrong))
      = mockTestAttempts Sample.oneQuestionTest ++ [attempt]
      ∧ MockTestAttempt.correctCount attempt + MockTestAttempt.wrongCount attempt
        + MockTestAttempt.skippedCount attempt = 2.
Proof.
  split; [reflexivity|].
  destruct (submitTest_counters_partition Sample.oneQuestionTest Sample.noon
              "u1" "t2" Sample.rightAndWrong _ eq_refl)
    as (attempt & Hrows & Hsum & _).
  exists attempt. split; [exact Hrows|]. exact Hsum.
Defined.

(** X3: the [subjectWise] object that [submitTest] stores has no entry
    for a subject whose name every object inherits (constructor, toString,
    __proto__ and the like), and one entry for each other subject that has
    a question in the test; the entry of a subject holds the numbers of
    its questions answered correctly, answered wrongly, and in all. *)
Theorem submitTest_subjectWise (st : State) (now : Date)
    (userId testId : string) (body : MockTestController.SubmitBody)
    (test : MockTest.t) :
  MockTestController.findTest st testId = Some test →
  ∃ attempt,
    mockTestAttempts
      (fst (MockTestController.submitTest st now userId testId body))
    = mockTestAttempts st ++ [attempt]
    ∧ NoDup (fst <$> MockTestAttempt.subjectWise attempt)
    ∧ ∀ s,
        Props.assoc s (MockTestAttempt.subjectWise attempt)
        = if bool_decide (s ∈ objectPrototype) then None
          else
            match Props.ofSubject s (MockTestController.questionsOf st testId)
            with
            | [] => None
            | l => Some (Props.tallyOf (MockTestController.answers body) l)
            end.
Proof.
  intros Hfind. unfold MockTestController.submitTest. rewrite Hfind. simpl.
  eexists. split; [reflexivity|]. simpl. split.
  - apply foldl_grade_NoDup. simpl. constructor.
  - intros s. unfold MockTestController.gradeAll.
    rewrite foldl_grade_subjectWise. unfold inherited. simpl.
    destruct (bool_decide (s ∈ objectPrototype)); [reflexivity|].
    destruct (Props.ofSubject s _); reflexivity.
Qed.

Lemma submitTest_subjectWise_witness :
  MockTestController.findTest Sample.oneQuestionTest "t2"
  = Some (MockTest.mk "t2" "Mixed - Prelims Practice" "mixed" "prelims" None
            None "mixed" 2 3 4 true)
  ∧ ∃ attempt,
      mockTestAttempts
        (fst (MockTestController.submitTest Sample.oneQuestionTest Sample.noon
                "u1" "t2" Sample.rightAndWrong))
      = mockTestAttempts Sample.oneQuestionTest ++ [attempt]
      ∧ Props.assoc "History" (MockTestAttempt.subjectWise attempt)
        = Some (mkTally 0 1 1)
      ∧ Props.assoc "Geography" (MockTestAttempt.subjectWise attempt) = None.
Proof.
  split; [reflexivity|].
  destruct (submitTest_subjectWise Sample.oneQuestionTest Sample.noon "u1"
              "t2" Sample.rightAndWrong _ eq_refl)
    as (attempt & Hrows & _ & Hs).
  exists attempt. split; [exact Hrows|].
  split; [rewrite (Hs "History")|rewrite (Hs "Geography")];
    vm_compute; reflexivity.
Defined.

(** A test whose only question has the subject constructor, answered
    right: the counters count the question, the object of the subjects
    stays empty. *)
Example submitTest_inherited_subject :
  ∃ attempt,
    mockTestAttempts
      (fst (MockTestController.submitTest More.inheritedSubject Sample.noon
              "u1" "t1" Sample.rightAnswer))
    = [attempt]
    ∧ MockTestAttempt.correctCount attempt = 1
    ∧ MockTestAttempt.subjectWise attempt = [].
Proof. eexists. split; [vm_compute; reflexivity|]. by split. Qed.

(** ** Generating a mock test *)

Section Generation.

Import MockTestController.

Lemma pick_elem (k : nat) (l : list string) : l ≠ [] → pick k l ∈ l.
Proof.
  intros Hl. unfold pick. apply list_elem_of_In, nth_In.
  apply Nat.mod_upper_bound. destruct l; [congruence|discriminate].
Qed.

Lemma subjectListOf_nonempty (body : GenerateBody) : subjectListOf body ≠ [].
Proof.
  unfold subjectListOf. destruct (or_null (subject body)) as [s|];
    [destruct (String.eqb s "All Subjects")|]; discriminate.
Qed.

(** The questions that the loop of [generateTest] adds: one per turn, in
    the order of the turns, numbered by the turn. *)
Lemma createQuestions_numbered (draw : nat → nat) (testId : string)
    (sl dl : list string) (turns : list Z) (st : State) :
  sl ≠ [] →
  ∃ news,
    mockTestQuestions (foldl (createQuestion draw testId sl dl) st turns)
    = mockTestQuestions st ++ news
    ∧ MockTestQuestion.questionNum <$> news = turns
    ∧ Forall
        (fun q =>
           MockTestQuestion.mockTestId q = testId
           ∧ MockTestQuestion.correctOption q ∈ optionIds
           ∧ MockTestQuestion.subject q ∈ sl
           ∧ MockTestQuestion.options q = sampleOptions)
        news.
Proof.
  intros Hsl. revert st. induction turns as [|i turns IH]; intros st; simpl.
  { exists []. by rewrite app_nil_r. }
  destruct (IH (createQuestion draw testId sl dl st i))
    as (news & Hq & Hnum & Hall).
  rewrite Hq. simpl. eexists (_ :: news). rewrite <- app_assoc. simpl.
  split; [reflexivity|]. split; [cbn; f_equal; exact Hnum|].
  constructor; [|exact Hall]. simpl.
  split; [reflexivity|]. split; [by apply pick_elem|].
  split; [by apply pick_elem|reflexivity].
Qed.

End Generation.

(** X4: [generateTest] never makes more than 100 questions: it adds one
    question per number from 1 to the count, the count being the requested
    number (10 when absent or zero) capped at 100; every question belongs
    to the new test, has the four options A to D and a correct option among
    them, and a subject of the list the request selects. *)
Theorem generateTest_questions (draw : nat → nat) (st : State)
    (userId : string) (body : MockTestController.GenerateBody) :
  MockTestController.countOf body <= 100
  ∧ ∃ news,
      mockTestQuestions
        (fst (MockTestController.generateTest draw st userId body))
      = mockTestQuestions st ++ news
      ∧ MockTestQuestion.questionNum <$> news
        = seqZ 1 (MockTestController.countOf body)
      ∧ (length news ≤ 100)%nat
      ∧ Forall
          (fun q =>
             MockTestQuestion.mockTestId q = genId st
             ∧ MockTestQuestion.correctOption q ∈ ["A"; "B"; "C"; "D"]
             ∧ MockTestQuestion.subject q
               ∈ MockTestController.subjectListOf body
             ∧ fst <$> MockTestQuestion.options q = ["A"; "B"; "C"; "D"])
          news.
Proof.
  assert (Hc : MockTestController.countOf body <= 100).
  { unfold MockTestController.countOf. lia. }
  split; [exact Hc|].
  unfold MockTestController.generateTest. cbn [fst].
  destruct (createQuestions_numbered draw (genId st)
              (MockTestController.subjectListOf body)
              (MockTestController.difficultyListOf body)
              (seqZ 1 (MockTestController.countOf body))
              (bumpId
                 (set_mockTests
                    (mockTests st ++ [MockTestController.newTest st body]) st))
              (subjectListOf_nonempty body))
    as (news & Hq & Hnum & Hall).
  exists news. split; [exact Hq|]. split; [exact Hnum|]. split.
  - rewrite <- (length_fmap MockTestQuestion.questionNum), Hnum, length_seqZ.
    lia.
  - eapply Forall_impl; [exact Hall|]. intros q (H1 & H2 & H3 & H4).
    rewrite H4. auto.
Qed.

(** X5: when the requested count is not negative and the id of the new
    test is not yet in use, the test that [generateTest] makes has half as
    many questions as total marks, and the score that [submitTest] stores
    for any submission to it lies between 0 and the total marks. *)
Theorem generated_test_score_in_range (draw : nat → nat) (st : State)
    (userId : string) (gbody : MockTestController.GenerateBody) (now : Date)
    (submitter : string) (sbody : MockTestController.SubmitBody) :
  Spec.freshTestId st →
  0 <= or_int (MockTestController.questionCount gbody) 10 →
  ∃ attempt,
    mockTestAttempts
      (fst (MockTestController.submitTest
              (fst (MockTestController.generateTest draw st userId gbody)) now
              submitter (genId st) sbody))
    = mockTestAttempts
        (fst (MockTestController.generateTest draw st userId gbody))
      ++ [attempt]
    ∧ MockTestAttempt.totalMarks attempt
      = 2 * Z.of_nat
              (length
                 (MockTestController.questionsOf
                    (fst (MockTestController.generateTest draw st userId gbody))
                    (genId st)))
    ∧ (0 <= MockTestAttempt.score attempt)%Q
    ∧ (MockTestAttempt.score attempt
       <= inject_Z (MockTestAttempt.totalMarks attempt))%Q.
Proof.
  intros Hfresh Hcount.
  exact (generated_test_score_bounded draw st userId gbody now submitter sbody
           Hfresh Hcount).
Qed.

Lemma generated_test_score_in_range_witness :
  Spec.freshTestId Sample.emptyState
  ∧ ∃ attempt,
      mockTestAttempts
        (fst (MockTestController.submitTest
                (fst (MockTestController.generateTest Sample.noDraw
                        Sample.emptyState "u1" Sample.threeQuestions))
                Sample.noon "u2" "0" Sample.noAnswers))
      = [attempt]
      ∧ MockTestAttempt.totalMarks attempt = 6
      ∧ (MockTestAttempt.score attempt <= 6)%Q.
Proof.
  assert (Hfresh : Spec.freshTestId Sample.emptyState) by (split; constructor).
  split; [exact Hfresh|].
  destruct (generated_test_score_in_range Sample.noDraw Sample.emptyState "u1"
              Sample.threeQuestions Sample.noon "u2" Sample.noAnswers Hfresh)
    as (attempt & Hrows & Htm & _ & Hub).
  { vm_compute. discriminate. }
  exists attempt. split; [exact Hrows|].
  assert (Htm' : MockTestAttempt.totalMarks attempt = 6) by exact Htm.
  rewrite Htm' in Hub. auto.
Defined.

(** ** Doubles *)

Lemma two_pos (k : Z) : (0 < 2 ^ k)%Q.
Proof. by apply Qpower_0_lt. Qed.

Lemma two_succ (k : Z) : (2 ^ (k + 1) == 2 * 2 ^ k)%Q.
Proof. rewrite Qpower_plus by done. change (2 ^ 1)%Q with 2%Q. ring. Qed.

Lemma two_Z (k : Z) : 0 <= k → (inject_Z (2 ^ k) == 2 ^ k)%Q.
Proof. intros Hk. by rewrite Zpower_Qpower. Qed.

(** [ilog2] is the integer part of the binary logarithm. *)
Lemma ilog2_spec (x : Q) :
  (0 < x)%Q → (2 ^ ilog2 x <= x)%Q ∧ (x < 2 ^ (ilog2 x + 1))%Q.
Proof.
  intros Hx. unfold ilog2.
  destruct x as [n d]. cbn [Qnum Qden].
  assert (Hn : 0 < n) by (unfold Qlt in Hx; simpl in Hx; lia).
  set (a := Z.log2 n). set (b := Z.log2 (Z.pos d)).
  destruct (Z.log2_spec n Hn) as [Ha1 Ha2].
  destruct (Z.log2_spec (Z.pos d) eq_refl) as [Hb1 Hb2].
  fold a in Ha1, Ha2. fold b in Hb1, Hb2.
  assert (Ha0 : 0 <= a) by apply Z.log2_nonneg.
  assert (Hb0 : 0 <= b) by apply Z.log2_nonneg.
  rewrite Zle_Qle, two_Z in Ha1, Hb1 by lia.
  rewrite Zlt_Qlt, two_Z in Ha2, Hb2 by lia.
  replace (Z.succ a) with (a + 1) in Ha2 by lia.
  replace (Z.succ b) with (b + 1) in Hb2 by lia.
  rewrite two_succ in Ha2, Hb2.
  pose proof (two_pos a) as Hpa. pose proof (two_pos b) as Hpb.
  assert (Hx' : (n # d == inject_Z n / inject_Z (Z.pos d))%Q)
    by apply Qmake_Qdiv.
  set (N := inject_Z n) in *. set (D := inject_Z (Z.pos d)) in *.
  assert (He : (2 ^ (a - b) == 2 ^ a / 2 ^ b)%Q) by (by apply Qpower_minus).
  assert (HD : (0 < D)%Q) by lra.
  destruct (Qle_bool (2 ^ (a - b)) (n # d)) eqn:Hc.
  - apply Qle_bool_iff in Hc. split; [exact Hc|].
    rewrite two_succ, He, Hx'.
    apply Qlt_shift_div_r; [exact HD|].
    setoid_replace (2 * (2 ^ a / 2 ^ b) * D)%Q
      with ((2 * 2 ^ a) * (D / 2 ^ b))%Q using relation Qeq by (field; lra).
    assert (H1 : (1 <= D / 2 ^ b)%Q) by (apply Qle_shift_div_l; lra).
    nra.
  - assert (Hlt : (n # d < 2 ^ (a - b))%Q).
    { apply Qnot_le_lt. intros H. apply Qle_bool_iff in H. congruence. }
    replace (a - b - 1 + 1) with (a - b) by lia. split; [|exact Hlt].
    assert (He' : (2 ^ (a - b - 1) == 2 ^ a / (2 * 2 ^ b))%Q).
    { replace (a - b - 1) with (a - (b + 1)) by lia.
      rewrite Qpower_minus by done. by rewrite two_succ. }
    rewrite He', Hx'.
    apply Qle_shift_div_l; [exact HD|].
    setoid_replace (2 ^ a / (2 * 2 ^ b) * D)%Q
      with (2 ^ a * (D / (2 * 2 ^ b)))%Q using relation Qeq by (field; lra).
    assert (H1 : (D / (2 * 2 ^ b) <= 1)%Q) by (apply Qle_shift_div_r; lra).
    nra.
Qed.

Lemma Qcompare_cases (a b : Q) :
  match (a ?= b)%Q with
  | Eq => a == b
  | Lt => (a < b)%Q
  | Gt => (b < a)%Q
  end.
Proof.
  destruct (a ?= b)%Q eqn:H;
    [by apply Qeq_alt|by apply Qlt_alt|by apply Qgt_alt].
Qed.

Lemma roundEven_floor (y : Q) :
  Qfloor y <= roundEven y <= Qfloor y + 1.
Proof.
  unfold roundEven. destruct (_ ?= _)%Q; [destruct (Z.even _)| |]; lia.
Qed.

Lemma roundEven_mono (y y' : Q) :
  (y <= y')%Q → roundEven y <= roundEven y'.
Proof.
  intros Hle. pose proof (Qfloor_resp_le _ _ Hle) as Hf.
  destruct (Z.eq_dec (Qfloor y) (Qfloor y')) as [Heq|Hne].
  - unfold roundEven. rewrite <- Heq.
    pose proof (Qcompare_cases (y - inject_Z (Qfloor y)) (1 # 2)) as Hc.
    pose proof (Qcompare_cases (y' - inject_Z (Qfloor y)) (1 # 2)) as Hc'.
    destruct (y - inject_Z (Qfloor y) ?= 1 # 2)%Q;
      destruct (y' - inject_Z (Qfloor y) ?= 1 # 2)%Q;
      try (destruct (Z.even (Qfloor y))); try lia; lra.
  - pose proof (roundEven_floor y). pose proof (roundEven_floor y'). lia.
Qed.

Lemma roundEven_comp (y y' : Q) : y == y' → roundEven y = roundEven y'.
Proof.
  intros H. apply Z.le_antisymm; apply roundEven_mono; rewrite H;
    apply Qle_refl.
Qed.

Lemma roundEven_Z (n : Z) : roundEven (inject_Z n) = n.
Proof.
  unfold roundEven. rewrite Qfloor_Z.
  pose proof (Qcompare_cases (inject_Z n - inject_Z n) (1 # 2)) as Hc.
  destruct (_ ?= _)%Q; [| reflexivity |]; lra.
Qed.

(** [roundEven] is within a half of its argument. *)
Lemma roundEven_near (y : Q) :
  (y - (1 # 2) <= inject_Z (roundEven y))%Q
  ∧ (inject_Z (roundEven y) <= y + (1 # 2))%Q.
Proof.
  pose proof (Qfloor_le y) as Hlo. pose proof (Qlt_floor y) as Hhi.
  rewrite inject_Z_plus in Hhi. change (inject_Z 1) with 1%Q in Hhi.
  unfold roundEven.
  pose proof (Qcompare_cases (y - inject_Z (Qfloor y)) (1 # 2)) as Hc.
  destruct (y - inject_Z (Qfloor y) ?= 1 # 2)%Q;
    [destruct (Z.even _)| |];
    rewrite ?inject_Z_plus; change (inject_Z 1) with 1%Q; split; lra.
Qed.

Lemma ulp_pos (x : Q) : (0 < ulp x)%Q.
Proof. apply two_pos. Qed.

(** The scaled value lies between 2^52 and 2^53. *)
Lemma scaled_range (x : Q) :
  (0 < x)%Q → (2 ^ 52 <= x / ulp x)%Q ∧ (x / ulp x < 2 ^ 53)%Q.
Proof.
  intros Hx. destruct (ilog2_spec x Hx) as [Hlo Hhi].
  pose proof (ulp_pos x) as Hu.
  assert (He : (2 ^ ilog2 x == 2 ^ 52 * ulp x)%Q).
  { unfold ulp. rewrite <- Qpower_plus by done. f_equiv. lia. }
  rewrite two_succ, He in Hhi. rewrite He in Hlo.
  split.
  - apply Qle_shift_div_l; [exact Hu|exact Hlo].
  - apply Qlt_shift_div_r; [exact Hu|].
    change (2 ^ 53)%Q with (2 * 2 ^ 52)%Q. lra.
Qed.

(** A rounding stays between the powers of two around its argument. *)
Lemma rndPos_range (x : Q) :
  (0 < x)%Q → (2 ^ ilog2 x <= rndPos x)%Q ∧ (rndPos x <= 2 ^ (ilog2 x + 1))%Q.
Proof.
  intros Hx. destruct (scaled_range x Hx) as [Hlo Hhi].
  pose proof (ulp_pos x) as Hu.
  assert (He : (2 ^ ilog2 x == 2 ^ 52 * ulp x)%Q).
  { unfold ulp. rewrite <- Qpower_plus by done. f_equiv. lia. }
  rewrite two_succ, He. unfold rndPos.
  assert (H1 : 2 ^ 52 <= roundEven (x / ulp x)).
  { rewrite <- (roundEven_Z (2 ^ 52)). apply roundEven_mono.
    rewrite two_Z by lia. exact Hlo. }
  assert (H2 : roundEven (x / ulp x) <= 2 ^ 53).
  { rewrite <- (roundEven_Z (2 ^ 53)). apply roundEven_mono.
    rewrite two_Z by lia. lra. }
  rewrite Zle_Qle, two_Z in H1, H2 by lia.
  change (2 ^ 53)%Q with (2 * 2 ^ 52)%Q in H2.
  split; nra.
Qed.

Lemma ilog2_mono (x y : Q) : (0 < x)%Q → (x <= y)%Q → ilog2 x <= ilog2 y.
Proof.
  intros Hx Hxy.
  destruct (ilog2_spec x Hx) as [Hlo _].
  destruct (ilog2_spec y) as [_ Hhi]; [lra|].
  destruct (Z_le_gt_dec (ilog2 x) (ilog2 y)) as [H|H]; [exact H|].
  assert (Hp : (2 ^ (ilog2 y + 1) <= 2 ^ ilog2 x)%Q)
    by (apply Qpower_le_compat_l; [lia|lra]).
  lra.
Qed.

Lemma rndPos_mono (x y : Q) :
  (0 < x)%Q → (x <= y)%Q → (rndPos x <= rndPos y)%Q.
Proof.
  intros Hx Hxy. assert (Hy : (0 < y)%Q) by lra.
  pose proof (ilog2_mono x y Hx Hxy) as He.
  destruct (Z.eq_dec (ilog2 x) (ilog2 y)) as [Heq|Hne].
  - unfold rndPos, ulp. rewrite <- Heq.
    pose proof (two_pos (ilog2 x - 52)) as Hu.
    apply Qmult_le_compat_r; [|lra].
    rewrite <- Zle_Qle. apply roundEven_mono.
    apply Qle_shift_div_l; [exact Hu|].
    setoid_replace (x / 2 ^ (ilog2 x - 52) * 2 ^ (ilog2 x - 52))%Q
      with x using relation Qeq by (field; lra).
    exact Hxy.
  - destruct (rndPos_range x Hx) as [_ Hhi].
    destruct (rndPos_range y Hy) as [Hlo _].
    assert (Hp : (2 ^ (ilog2 x + 1) <= 2 ^ ilog2 y)%Q)
      by (apply Qpower_le_compat_l; [lia|lra]).
    lra.
Qed.

Lemma rndPos_pos (x : Q) : (0 < x)%Q → (0 < rndPos x)%Q.
Proof.
  intros Hx. destruct (rndPos_range x Hx) as [Hlo _].
  pose proof (two_pos (ilog2 x)). lra.
Qed.

(** Rounding keeps the order. *)
Lemma rnd_mono (x y : Q) : (x <= y)%Q → (rnd x <= rnd y)%Q.
Proof.
  intros Hxy. unfold rnd.
  pose proof (Qcompare_cases 0 x) as Hx. pose proof (Qcompare_cases 0 y) as Hy.
  destruct (0 ?= x)%Q; destruct (0 ?= y)%Q; try lra.
  - pose proof (rndPos_pos y Hy). lra.
  - by apply rndPos_mono.
  - assert (H : (0 < - x)%Q) by lra. pose proof (rndPos_pos _ H). lra.
  - assert (H : (0 < - x)%Q) by lra. pose proof (rndPos_pos _ H).
    pose proof (rndPos_pos y Hy). lra.
  - assert (H : (0 < - y)%Q) by lra.
    assert (H' : (- y <= - x)%Q) by lra.
    pose proof (rndPos_mono _ _ H H'). lra.
Qed.

Lemma rnd_comp (x y : Q) : x == y → rnd x == rnd y.
Proof.
  intros H. apply Qle_antisym; apply rnd_mono; rewrite H; apply Qle_refl.
Qed.

Lemma rnd_nonneg (x : Q) : (0 <= x)%Q → (0 <= rnd x)%Q.
Proof. intros H. apply (rnd_mono 0 x H). Qed.

(** The relative error of a rounding is at most 2^-53. *)
Lemma rnd_upper (x : Q) :
  (0 <= x)%Q → (rnd x <= x * (1 + 2 ^ (-53)))%Q.
Proof.
  intros H0. unfold rnd.
  pose proof (Qcompare_cases 0 x) as Hx.
  destruct (0 ?= x)%Q; [|clear H0|lra].
  - rewrite <- Hx. done.
  - destruct (ilog2_spec x Hx) as [Hlo _].
    pose proof (ulp_pos x) as Hu.
    destruct (roundEven_near (x / ulp x)) as [_ Hr].
    assert (He : (ulp x == 2 * (2 ^ ilog2 x * 2 ^ (-53)))%Q).
    { unfold ulp. rewrite <- Qpower_plus, <- (two_succ (ilog2 x + -53)) by done.
      f_equiv. lia. }
    assert (Hc : (0 < 2 ^ (-53))%Q) by apply two_pos.
    unfold rndPos.
    assert (Hm : (inject_Z (roundEven (x / ulp x)) * ulp x
                  <= (x / ulp x + (1 # 2)) * ulp x)%Q)
      by (apply Qmult_le_compat_r; lra).
    assert (Hd : ((x / ulp x + (1 # 2)) * ulp x == x + (1 # 2) * ulp x)%Q)
      by (field; lra).
    set (c := (2 ^ (-53))%Q) in *. set (u := ulp x) in *.
    set (p := (2 ^ ilog2 x)%Q) in *. nra.
Qed.

Lemma rnd_lower (x : Q) :
  (0 <= x)%Q → (x * (1 - 2 ^ (-53)) <= rnd x)%Q.
Proof.
  intros H0. unfold rnd.
  pose proof (Qcompare_cases 0 x) as Hx.
  destruct (0 ?= x)%Q; [|clear H0|lra].
  - rewrite <- Hx. done.
  - destruct (ilog2_spec x Hx) as [Hlo _].
    pose proof (ulp_pos x) as Hu.
    destruct (roundEven_near (x / ulp x)) as [Hr _].
    assert (He : (ulp x == 2 * (2 ^ ilog2 x * 2 ^ (-53)))%Q).
    { unfold ulp. rewrite <- Qpower_plus, <- (two_succ (ilog2 x + -53)) by done.
      f_equiv. lia. }
    assert (Hc : (0 < 2 ^ (-53))%Q) by apply two_pos.
    unfold rndPos.
    assert (Hm : ((x / ulp x - (1 # 2)) * ulp x
                  <= inject_Z (roundEven (x / ulp x)) * ulp x)%Q)
      by (apply Qmult_le_compat_r; lra).
    assert (Hd : ((x / ulp x - (1 # 2)) * ulp x == x - (1 # 2) * ulp x)%Q)
      by (field; lra).
    set (c := (2 ^ (-53))%Q) in *. set (u := ulp x) in *.
    set (p := (2 ^ ilog2 x)%Q) in *. nra.
Qed.

(** Every integer up to 2^53 is a double. *)
Lemma rnd_Z (n : Z) : Z.abs n <= 2 ^ 53 → rnd (inject_Z n) == inject_Z n.
Proof.
  assert (Hpos : ∀ m, 0 < m <= 2 ^ 53 → rndPos (inject_Z m) == inject_Z m).
  { intros m [Hm0 Hm].
    assert (Hq : (0 < inject_Z m)%Q) by (by rewrite <- (Zlt_Qlt 0)).
    destruct (ilog2_spec _ Hq) as [Hlo Hhi].
    set (e := ilog2 (inject_Z m)) in *.
    assert (He : e <= 53).
    { destruct (Z_le_gt_dec e 53) as [H|H]; [exact H|].
      assert (Hp : (2 ^ 54 <= 2 ^ e)%Q)
        by (apply Qpower_le_compat_l; [lia|lra]).
      rewrite Zle_Qle, two_Z in Hm by lia.
      change (2 ^ 54)%Q with (2 * 2 ^ 53)%Q in Hp.
      pose proof (two_pos 53). lra. }
    assert (He0 : 0 <= e).
    { destruct (Z_le_gt_dec 0 e) as [H|H]; [exact H|].
      assert (Hp : (2 ^ (e + 1) <= 2 ^ 0)%Q)
        by (apply Qpower_le_compat_l; [lia|lra]).
      change (2 ^ 0)%Q with (inject_Z 1) in Hp.
      assert (Hlt : (inject_Z m < inject_Z 1)%Q) by lra.
      rewrite <- Zlt_Qlt in Hlt. lia. }
    unfold rndPos, ulp. fold e.
    destruct (Z.eq_dec e 53) as [->|Hne].
    - assert (Hm' : m = 2 ^ 53).
      { rewrite <- two_Z, <- Zle_Qle in Hlo by lia. lia. }
      subst m. reflexivity.
    - assert (Hs : (inject_Z m / 2 ^ (e - 52) == inject_Z (m * 2 ^ (52 - e)))%Q).
      { rewrite inject_Z_mult, two_Z by lia.
        replace (e - 52) with (- (52 - e)) by lia. rewrite Qpower_opp.
        field. apply Qpower_not_0. done. }
      rewrite (roundEven_comp _ _ Hs), roundEven_Z, inject_Z_mult, two_Z
        by lia.
      replace (e - 52) with (- (52 - e)) by lia. rewrite Qpower_opp.
      field. apply Qpower_not_0. done. }
  intros Hn. unfold rnd.
  pose proof (Qcompare_cases 0 (inject_Z n)) as Hx.
  destruct (0 ?= inject_Z n)%Q.
  - exact Hx.
  - apply Hpos. rewrite <- (Zlt_Qlt 0) in Hx. lia.
  - change 0%Q with (inject_Z 0) in Hx. rewrite <- Zlt_Qlt in Hx.
    rewrite <- inject_Z_opp, Hpos by lia. rewrite inject_Z_opp. ring.
Qed.

Lemma round_lt_half (x : Q) (n : Z) :
  (x < inject_Z n + (1 # 2))%Q → round x <= n.
Proof.
  intros Hx. unfold round.
  pose proof (Qfloor_le (x + (1 # 2))) as Hfl.
  assert (Hlt : (inject_Z (Qfloor (x + (1 # 2))) < inject_Z (n + 1))%Q).
  { rewrite inject_Z_plus. change (inject_Z 1) with 1%Q. lra. }
  rewrite <- Zlt_Qlt in Hlt. lia.
Qed.

Lemma rnd_le_Z (x : Q) (n : Z) :
  Z.abs n <= 2 ^ 53 → (x <= inject_Z n)%Q → (rnd x <= inject_Z n)%Q.
Proof. intros Hn Hx. rewrite <- (rnd_Z n Hn). by apply rnd_mono. Qed.

Lemma rnd_ge_Z (x : Q) (n : Z) :
  Z.abs n <= 2 ^ 53 → (inject_Z n <= x)%Q → (inject_Z n <= rnd x)%Q.
Proof. intros Hn Hx. rewrite <- (rnd_Z n Hn). by apply rnd_mono. Qed.

(** The comparisons of a quotient of counts with the thresholds give in
    doubles what they give on the exact quotient and the decimals: the
    rounding moves the quotient by less than its distance to a threshold
    it has not reached. *)
Lemma thresholds_in_doubles (c n : Z) :
  0 <= c → 0 < n <= 10 ^ 14 →
  Qle_bool (rnd 0.7) (fdiv (inject_Z c) (inject_Z n))
  = Qle_bool 0.7 (inject_Z c / inject_Z n)
  ∧ qlt (fdiv (inject_Z c) (inject_Z n)) 0.5
    = qlt (inject_Z c / inject_Z n) 0.5.
Proof.
  intros Hc [Hn0 Hn1].
  assert (HC : (0 <= inject_Z c)%Q) by (by rewrite <- (Zle_Qle 0)).
  assert (HN0 : (0 < inject_Z n)%Q) by (by rewrite <- (Zlt_Qlt 0)).
  assert (HN1 : (inject_Z n <= 100000000000000)%Q).
  { change 100000000000000%Q with (inject_Z (10 ^ 14)). by rewrite <- Zle_Qle. }
  assert (Hq0 : (0 <= inject_Z c / inject_Z n)%Q)
    by (apply Qle_shift_div_l; lra).
  assert (Hu : (2 ^ (-53) == 1 # 9007199254740992)%Q) by reflexivity.
  assert (H7 : rnd 0.7 == 3152519739159347 # 4503599627370496) by reflexivity.
  assert (H5 : rnd 0.5 == 0.5) by reflexivity.
  pose proof (rnd_upper _ Hq0) as Hup. rewrite Hu in Hup.
  unfold fdiv, qlt.
  set (C := inject_Z c) in *. set (N := inject_Z n) in *.
  assert (Hdiv : ∀ k : Q, (C * (1 + (1 # 9007199254740992)) < k * N)%Q →
                          (rnd (C / N) < k)%Q).
  { intros k Hk. eapply Qle_lt_trans; [exact Hup|].
    setoid_replace (C / N * (1 + (1 # 9007199254740992)))%Q
      with (C * (1 + (1 # 9007199254740992)) / N)%Q using relation Qeq
      by (field; lra).
    apply Qlt_shift_div_r; assumption. }
  split.
  - destruct (Z_le_gt_dec (7 * n) (10 * c)) as [Hge|Hlt].
    + assert (Hex : (0.7 <= C / N)%Q).
      { apply Qle_shift_div_l; [exact HN0|].
        rewrite Zle_Qle, !inject_Z_mult in Hge. fold C N in Hge.
        change (inject_Z 7) with 7%Q in Hge.
        change (inject_Z 10) with 10%Q in Hge. lra. }
      transitivity true; [|symmetry]; apply Qle_bool_iff; [|exact Hex].
      by apply rnd_mono.
    + assert (Hlt' : 10 * c + 1 <= 7 * n) by lia.
      rewrite Zle_Qle, inject_Z_plus, !inject_Z_mult in Hlt'. fold C N in Hlt'.
      change (inject_Z 7) with 7%Q in Hlt'.
      change (inject_Z 10) with 10%Q in Hlt'.
      change (inject_Z 1) with 1%Q in Hlt'.
      assert (Hex : (C / N < 0.7)%Q) by (apply Qlt_shift_div_r; lra).
      assert (Hdb : (rnd (C / N) < rnd 0.7)%Q).
      { rewrite H7. apply Hdiv. lra. }
      transitivity false; [|symmetry]; apply not_true_is_false;
        rewrite Qle_bool_iff; lra.
  - f_equal.
    destruct (Z_le_gt_dec n (2 * c)) as [Hge|Hlt].
    + assert (Hex : (0.5 <= C / N)%Q).
      { apply Qle_shift_div_l; [exact HN0|].
        rewrite Zle_Qle, !inject_Z_mult in Hge. fold C N in Hge.
        change (inject_Z 2) with 2%Q in Hge. lra. }
      transitivity true; [|symmetry]; apply Qle_bool_iff; [|exact Hex].
      rewrite <- H5 at 1. by apply rnd_mono.
    + assert (Hlt' : 2 * c + 1 <= n) by lia.
      rewrite Zle_Qle, inject_Z_plus, !inject_Z_mult in Hlt'. fold C N in Hlt'.
      change (inject_Z 2) with 2%Q in Hlt'.
      change (inject_Z 1) with 1%Q in Hlt'.
      assert (Hex : (C / N < 0.5)%Q) by (apply Qlt_shift_div_r; lra).
      assert (Hdb : (rnd (C / N) < 0.5)%Q) by (apply Hdiv; lra).
      transitivity false; [|symmetry]; apply not_true_is_false;
        rewrite Qle_bool_iff; lra.
Qed.

(** The double of one tenth, and the ties between two doubles going to
    the even significand. *)
Example rnd_examples :
  rnd 0.1 == 3602879701896397 # 36028797018963968
  ∧ rnd (inject_Z (2 ^ 53 + 1)) == inject_Z (2 ^ 53)
  ∧ rnd (inject_Z (2 ^ 53 + 3)) == inject_Z (2 ^ 53 + 4)
  ∧ rnd (- (1 # 3)) == - (6004799503160661 # 18014398509481984).
Proof. repeat split; reflexivity. Qed.

(** The values the comments of the definitions give. *)
Example accuracyOf_41_39 :
  MockTestController.accuracyOf 41 39 == 7212796278210559 # 140737488355328
  ∧ roundTenth (MockTestController.accuracyOf 41 39) == 51.2
  ∧ round1 (inject_Z 41 / inject_Z 80 * 100) == 51.3.
Proof. repeat split; reflexivity. Qed.

Example scoreOf_3_of_20 :
  DailyMcqController.scoreOf 3
    (DailyMCQ.mk "m" (mkDate 0 0) "Daily MCQ" "Polity" [] 20 600 7)
  = Some 1.0%Q
  ∧ fmul 3 (fdiv 7 20) == 1182194902184755 # 1125899906842624
  ∧ round1 (3 * (7 / 20)) == 1.1.
Proof. repeat split; reflexivity. Qed.

Example simulatedScore_36 :
  DailyAnswerController.simulatedScore (Some (units "An answer")) 36 0.125
  == 13
  ∧ fadd (fmul (fmul 0.125 36) (rnd 0.6)) (fmul 36 (rnd 0.3))
    == 7599824371187711 # 562949953421312
  ∧ round (0.125 * 36 * 0.6 + 36 * 0.3) = 14.
Proof. repeat split; reflexivity. Qed.

(** ** Accuracy *)

Lemma round_ge_int (x : Q) (n : Z) : (inject_Z n <= x)%Q → n <= round x.
Proof.
  intros Hx. unfold round.
  pose proof (Qlt_floor (x + (1 # 2))) as Hfl.
  rewrite inject_Z_plus in Hfl. change (inject_Z 1) with 1%Q in Hfl.
  assert (Hlt : (inject_Z n < inject_Z (Qfloor (x + (1 # 2)) + 1))%Q).
  { rewrite inject_Z_plus. change (inject_Z 1) with 1%Q. lra. }
  rewrite <- Zlt_Qlt in Hlt. lia.
Qed.

(** The accuracy of a submission is a percentage. *)
Lemma accuracy_percentage (c w : Z) :
  0 <= c → 0 <= w →
  (0 <= MockTestController.accuracyOf c w)%Q
  ∧ (MockTestController.accuracyOf c w <= 100)%Q.
Proof.
  intros Hc Hw. unfold MockTestController.accuracyOf.
  destruct (Z.ltb_spec 0 (c + w)) as [Hpos|_]; [|split; [apply Qle_refl|done]].
  assert (Hd : (0 < inject_Z (c + w))%Q) by (rewrite <- (Zlt_Qlt 0); exact Hpos).
  assert (Hn : (0 <= inject_Z c)%Q) by (rewrite <- (Zle_Qle 0); exact Hc).
  assert (Hle : (inject_Z c <= inject_Z (c + w))%Q) by (rewrite <- Zle_Qle; lia).
  assert (H0 : (0 <= inject_Z c / inject_Z (c + w))%Q).
  { apply Qle_shift_div_l; [exact Hd|]. lra. }
  assert (H1 : (inject_Z c / inject_Z (c + w) <= 1)%Q).
  { apply Qle_shift_div_r; [exact Hd|]. lra. }
  unfold fmul, fdiv.
  pose proof (rnd_ge_Z _ 0 ltac:(done) H0) as Hq0.
  pose proof (rnd_le_Z _ 1 ltac:(done) H1) as Hq1.
  change (inject_Z 0) with 0%Q in Hq0. change (inject_Z 1) with 1%Q in Hq1.
  split.
  - apply (rnd_ge_Z _ 0); [done|]. change (inject_Z 0) with 0%Q. lra.
  - apply (rnd_le_Z _ 100); [done|]. change (inject_Z 100) with 100%Q. lra.
Qed.

Lemma roundTenth_ge_int (x : Q) (n : Z) :
  Z.abs (n * 10) <= 2 ^ 53 →
  (inject_Z n <= x)%Q → (inject_Z n <= roundTenth x)%Q.
Proof.
  intros Hn Hx. unfold roundTenth, fmul.
  assert (H : n * 10 <= round (rnd (x * 10))).
  { apply round_ge_int, rnd_ge_Z; [exact Hn|]. rewrite inject_Z_mult.
    change (inject_Z 10) with 10%Q. lra. }
  rewrite Zle_Qle, inject_Z_mult in H. change (inject_Z 10) with 10%Q in H.
  apply Qle_shift_div_l; [reflexivity|]. lra.
Qed.

Lemma roundTenth_le_int (x : Q) (n : Z) :
  Z.abs (n * 10) <= 2 ^ 53 →
  (x <= inject_Z n)%Q → (roundTenth x <= inject_Z n)%Q.
Proof.
  intros Hn Hx. unfold roundTenth, fmul.
  assert (H : round (rnd (x * 10)) <= n * 10).
  { apply round_le_int, rnd_le_Z; [exact Hn|]. rewrite inject_Z_mult.
    change (inject_Z 10) with 10%Q. lra. }
  rewrite Zle_Qle, inject_Z_mult in H. change (inject_Z 10) with 10%Q in H.
  apply Qle_shift_div_r; [reflexivity|]. lra.
Qed.

(** X6: the accuracy that [submitTest] stores, the quotient and the
    products computed in doubles, is a percentage between 0 and 100, and
    it is 0 when no question is answered. *)
Theorem submitTest_accuracy_percentage (st : State) (now : Date)
    (userId testId : string) (body : MockTestController.SubmitBody)
    (test : MockTest.t) :
  MockTestController.findTest st testId = Some test →
  ∃ attempt,
    mockTestAttempts
      (fst (MockTestController.submitTest st now userId testId body))
    = mockTestAttempts st ++ [attempt]
    ∧ (0 <= MockTestAttempt.accuracy attempt)%Q
    ∧ (MockTestAttempt.accuracy attempt <= 100)%Q
    ∧ (MockTestAttempt.correctCount attempt + MockTestAttempt.wrongCount attempt
       = 0 → MockTestAttempt.accuracy attempt == 0).
Proof.
  intros Hfind. unfold MockTestController.submitTest. rewrite Hfind. simpl.
  eexists. split; [reflexivity|]. simpl.
  destruct (gradeAll_counts (MockTestController.answers body)
              (MockTestController.questionsOf st testId)) as (-> & -> & _).
  set (c := Spec.numCorrect _ _). set (w := Spec.numWrong _ _).
  assert (Hc : 0 <= c) by (unfold c, Spec.numCorrect; lia).
  assert (Hw : 0 <= w) by (unfold w, Spec.numWrong; lia).
  destruct (accuracy_percentage c w Hc Hw) as [H0 H100].
  split; [exact (roundTenth_ge_int _ 0 ltac:(done) H0)|].
  split; [exact (roundTenth_le_int _ 100 ltac:(done) H100)|].
  intros Hsum. unfold MockTestController.accuracyOf. rewrite Hsum. reflexivity.
Qed.

Lemma submitTest_accuracy_percentage_witness :
  MockTestController.findTest Sample.oneQuestionTest "t2"
  = Some (MockTest.mk "t2" "Mixed - Prelims Practice" "mixed" "prelims" None
            None "mixed" 2 3 4 true)
  ∧ ∃ attempt,
      mockTestAttempts
        (fst (MockTestController.submitTest Sample.oneQuestionTest Sample.noon
                "u1" "t2" Sample.rightAndWrong))
      = mockTestAttempts Sample.oneQuestionTest ++ [attempt]
      ∧ (MockTestAttempt.accuracy attempt <= 100)%Q.
Proof.
  split; [reflexivity|].
  destruct (submitTest_accuracy_percentage Sample.oneQuestionTest Sample.noon
              "u1" "t2" Sample.rightAndWrong _ eq_refl)
    as (attempt & Hrows & _ & H100 & _).
  exists attempt. split; [exact Hrows|exact H100].
Defined.

(** ** The queries on mock tests *)

Lemma dateLe_iff (a b : Date) :
  dateLe a b = true ↔ day a < day b ∨ (day a = day b ∧ msec a <= msec b).
Proof.
  unfold dateLe.
  destruct (Z.ltb_spec (day a) (day b)); destruct (Z.eqb_spec (day a) (day b));
    destruct (Z.leb_spec (msec a) (msec b)); simpl; split; intros Hx;
    try reflexivity; try discriminate; lia.
Qed.

Lemma dateLe_midnight (today now : Date) :
  Props.wellFormed now → day today = day now →
  dateLe (setHours0 today) now = true.
Proof.
  intros [H0 _] Hday. apply dateLe_iff. simpl. lia.
Qed.

Lemma length_filter_snoc {A : Type} (p : A → bool) (l : list A) (x : A) :
  length (List.filter p (l ++ [x]))
  = (length (List.filter p l) + (if p x then 1 else 0))%nat.
Proof.
  rewrite List.filter_app, length_app. simpl. by destruct (p x).
Qed.

(** X7: a submission to a mock test counts at once in the practice
    statistics of its user: for a query on the day of the submission the
    [todayCount] of [getPracticeStats] is one more than before, the streak
    it reports is unchanged, and the statistics of every other user are
    unchanged. *)
Theorem getPracticeStats_after_submitTest (st : State) (now later : Date)
    (userId testId : string) (body : MockTestController.SubmitBody)
    (test : MockTest.t) :
  MockTestController.findTest st testId = Some test →
  Props.wellFormed now →
  day later = day now →
  MockTestQueries.getPracticeStats
    (fst (MockTestController.submitTest st now userId testId body)) later userId
  = MockTestQueries.mkPracticeStats
      (MockTestQueries.todayCount
         (MockTestQueries.getPracticeStats st later userId) + 1)
      (MockTestQueries.streak (MockTestQueries.getPracticeStats st later userId))
  ∧ ∀ other,
      other ≠ userId →
      MockTestQueries.getPracticeStats
        (fst (MockTestController.submitTest st now userId testId body)) later
        other
      = MockTestQueries.getPracticeStats st later other.
Proof.
  intros Hfind Hnow Hday.
  unfold MockTestController.submitTest. rewrite Hfind. cbn [fst].
  unfold MockTestQueries.getPracticeStats, DailyMcqController.findStreak.
  simpl. split.
  - rewrite length_filter_snoc.
    unfold MockTestQueries.completedSince at 2. simpl.
    rewrite String.eqb_refl, (dateLe_midnight later now Hnow Hday). simpl.
    f_equal. lia.
  - intros other Hne. rewrite length_filter_snoc.
    unfold MockTestQueries.completedSince at 2. simpl.
    destruct (String.eqb_spec userId other); [congruence|]. simpl.
    f_equal. lia.
Qed.

Lemma getPracticeStats_after_submitTest_witness :
  MockTestController.findTest Sample.oneQuestionTest "t1"
  = Some (MockTest.mk "t1" "Mixed - Prelims Practice" "mixed" "prelims" None
            None "mixed" 1 2 2 true)
  ∧ MockTestQueries.getPracticeStats
      (fst (MockTestController.submitTest Sample.oneQuestionTest Sample.noon
              "u1" "t1" Sample.rightAnswer))
      (mkDate 20000 80000000) "u1"
    = MockTestQueries.mkPracticeStats 1 0.
Proof.
  split; [reflexivity|].
  rewrite (proj1 (getPracticeStats_after_submitTest Sample.oneQuestionTest
                    Sample.noon (mkDate 20000 80000000) "u1" "t1"
                    Sample.rightAnswer _ eq_refl
                    ltac:(unfold Props.wellFormed; simpl; lia) eq_refl)).
  reflexivity.
Defined.

Section Latest.

Import MockTestQueries.

(** [latest] picks a row of the list, and no row of the list is later. *)
Lemma latest_spec (rows : list MockTestAttempt.t) :
  Forall (fun a => is_Some (MockTestAttempt.completedAt a)) rows →
  match latest rows with
  | None => rows = []
  | Some a =>
      a ∈ rows
      ∧ ∀ b da db,
          b ∈ rows →
          MockTestAttempt.completedAt a = Some da →
          MockTestAttempt.completedAt b = Some db → dateLe db da = true
  end.
Proof.
  induction 1 as [|a rows [da Hda] Hrows IH]; simpl; [reflexivity|].
  destruct (latest rows) as [b|].
  - destruct IH as [Hb Hmax].
    assert (Hbs : is_Some (MockTestAttempt.completedAt b)).
    { rewrite Forall_forall in Hrows. by apply Hrows. }
    destruct Hbs as [db Hdb]. rewrite Hda, Hdb.
    destruct (dateLe db da) eqn:Hle.
    + split; [apply elem_of_cons; by left|].
      intros c da' dc [->|Hc]%elem_of_cons Ha' Hc'.
      * assert (dc = da') as -> by congruence. apply dateLe_iff. lia.
      * assert (da' = da) as -> by congruence.
        pose proof (Hmax c db dc Hc Hdb Hc') as Hcb.
        apply dateLe_iff in Hcb, Hle. apply dateLe_iff. lia.
    + split; [apply elem_of_cons; by right|].
      intros c db' dc [->|Hc]%elem_of_cons Hb' Hc'.
      * assert (db' = db) as -> by congruence.
        assert (dc = da) as -> by congruence.
        apply dateLe_iff. destruct (dateLe_iff db da) as [_ Hiff].
        destruct (Z.lt_trichotomy (day da) (day db)) as [?|[?|?]]; [lia| |].
        -- destruct (Z.le_gt_cases (msec da) (msec db)); [lia|].
           rewrite Hiff in Hle by lia. discriminate.
        -- rewrite Hiff in Hle by lia. discriminate.
      * eapply Hmax; eauto.
  - subst rows. split; [apply elem_of_cons; by left|].
    intros c da' dc [->|Hc]%elem_of_cons Ha' Hc'.
    + assert (dc = da') as -> by congruence. apply dateLe_iff. lia.
    + by apply elem_of_nil in Hc.
Qed.

Lemma completed_rows (userId testId : string) (rows : list MockTestAttempt.t) :
  Forall (fun a => is_Some (MockTestAttempt.completedAt a))
    (List.filter (isCompletedAttempt userId testId) rows).
Proof.
  apply Forall_forall. intros a Ha%list_elem_of_In%List.filter_In.
  destruct Ha as [_ Ha]. unfold isCompletedAttempt in Ha.
  apply andb_prop in Ha as [_ Ha]. by apply bool_decide_eq_true_1 in Ha.
Qed.

End Latest.

(** X8: [getTestResults] refuses with 404 exactly when the user has no
    completed attempt for the test; otherwise the attempt it sends is an
    attempt of that user for that test, it is completed, and no completed
    attempt of the user for the test was completed later. *)
Theorem getTestResults_latest (st : State) (userId testId : string) :
  match MockTestQueries.getTestResults st userId testId with
  | Refused code message =>
      code = 404 ∧ message = "No completed attempt found"
      ∧ ∀ a, a ∈ mockTestAttempts st →
             MockTestQueries.isCompletedAttempt userId testId a = false
  | Data (attempt, _) =>
      attempt ∈ mockTestAttempts st
      ∧ MockTestAttempt.userId attempt = userId
      ∧ MockTestAttempt.mockTestId attempt = testId
      ∧ ∃ d,
          MockTestAttempt.completedAt attempt = Some d
          ∧ ∀ b db,
              b ∈ mockTestAttempts st →
              MockTestQueries.isCompletedAttempt userId testId b = true →
              MockTestAttempt.completedAt b = Some db → dateLe db d = true
  end.
Proof.
  unfold MockTestQueries.getTestResults.
  pose proof (latest_spec _ (completed_rows userId testId (mockTestAttempts st)))
    as Hl.
  destruct (MockTestQueries.latest _) as [a|].
  - destruct Hl as [Ha Hmax].
    apply list_elem_of_In, List.filter_In in Ha as [Hin Hc].
    split; [by apply list_elem_of_In|].
    unfold MockTestQueries.isCompletedAttempt in Hc.
    apply andb_prop in Hc as [[Hu Ht]%andb_prop Hd].
    apply String.eqb_eq in Hu, Ht. apply bool_decide_eq_true_1 in Hd.
    destruct Hd as [d Hd].
    split; [exact Hu|]. split; [exact Ht|]. exists d. split; [exact Hd|].
    intros b db Hb Hcb Hdb. eapply Hmax; eauto.
    apply list_elem_of_In, List.filter_In. split; [by apply list_elem_of_In|done].
  - split; [reflexivity|]. split; [reflexivity|].
    intros a Ha. destruct (MockTestQueries.isCompletedAttempt userId testId a)
      eqn:Hc; [|reflexivity].
    assert (Hin : In a (List.filter
                          (MockTestQueries.isCompletedAttempt userId testId)
                          (mockTestAttempts st))).
    { apply List.filter_In. split; [by apply list_elem_of_In|exact Hc]. }
    rewrite Hl in Hin. destruct Hin.
Qed.




(** ** The subjects and their counts *)

Section Subjects.

Import MockTestQueries.

Lemma foldl_sum_shift (counts : list (string * Z)) (a : Z) :
  foldl (fun sum q => sum + snd q) a counts = a + Props.sumCounts counts.
Proof.
  unfold Props.sumCounts. revert a. induction counts as [|kv l IH]; intros a; simpl.
  - lia.
  - rewrite (IH (a + snd kv)), (IH (0 + snd kv)). lia.
Qed.

Lemma sumCounts_bump (k : string) (counts : list (string * Z)) :
  Props.sumCounts (bump 0 k (fun n => n + 1) counts) = Props.sumCounts counts + 1.
Proof.
  induction counts as [|[k' v] l IH].
  - reflexivity.
  - simpl bump. destruct (String.eqb k' k).
    + unfold Props.sumCounts. simpl. rewrite !foldl_sum_shift. lia.
    + unfold Props.sumCounts in *. simpl. rewrite !foldl_sum_shift.
      rewrite foldl_sum_shift in IH. unfold Props.sumCounts in *. lia.
Qed.

Lemma groupBy_spec (qs : list MockTestQuestion.t) (acc : list (string * Z)) :
  Props.sumCounts
    (foldl (fun acc q => bump 0 (MockTestQuestion.subject q) (fun n => n + 1) acc)
       acc qs)
  = Props.sumCounts acc + Z.of_nat (length qs)
  ∧ ∀ s,
      Props.assoc s
        (foldl
           (fun acc q => bump 0 (MockTestQuestion.subject q) (fun n => n + 1) acc)
           acc qs)
      = match Props.ofSubject s qs with
        | [] => Props.assoc s acc
        | l => Some (default 0 (Props.assoc s acc) + Z.of_nat (length l))
        end.
Proof.
  revert acc. induction qs as [|q qs IH]; intros acc.
  { split; [simpl; lia|reflexivity]. }
  simpl foldl. destruct (IH (bump 0 (MockTestQuestion.subject q)
                               (fun n => n + 1) acc)) as [Hsum Hassoc].
  split.
  - rewrite Hsum, sumCounts_bump. simpl length. lia.
  - intros s. rewrite Hassoc. unfold Props.ofSubject. rewrite filter_cons.
    destruct (decide (MockTestQuestion.subject q = s)) as [<-|Hne].
    + rewrite assoc_bump_eq. simpl default.
      destruct (filter _ qs) as [|q' l]; simpl length; f_equal; lia.
    + by rewrite assoc_bump_ne.
Qed.

End Subjects.

(** X10: in the list that [getSubjects] sends, the count of All Subjects
    is the number of the mock-test questions of the store, and the count
    of each of the seven named subjects is the number of questions of that
    subject when there is one, and its built-in default when there is
    none. *)
Theorem getSubjects_counts (st : State) :
  fst <$> MockTestQueries.getSubjects st
  = fst <$> MockTestQueries.subjectDefaults
  ∧ Props.assoc "All Subjects" (MockTestQueries.getSubjects st)
    = Some (Z.of_nat (length (mockTestQuestions st)))
  ∧ ∀ name builtin,
      (name, builtin) ∈ MockTestQueries.subjectDefaults →
      name ≠ "All Subjects" →
      Props.assoc name (MockTestQueries.getSubjects st)
      = Some (match Props.ofSubject name (mockTestQuestions st) with
              | [] => builtin
              | l => Z.of_nat (length l)
              end).
Proof.
  unfold MockTestQueries.getSubjects.
  destruct (groupBy_spec (mockTestQuestions st) []) as [Hsum Hassoc].
  fold (MockTestQueries.questionCounts st) in Hsum, Hassoc.
  change (Props.sumCounts []) with 0 in Hsum.
  destruct (Nat.ltb_spec 0 (length (MockTestQueries.questionCounts st)))
    as [Hpos|Hzero].
  - assert (Hcount : ∀ name,
      MockTestQueries.countOfSubject (MockTestQueries.questionCounts st) name
      = match Props.ofSubject name (mockTestQuestions st) with
        | [] => None
        | l => Some (Z.of_nat (length l))
        end).
    { intros name. exact (Hassoc name). }
    split; [|split].
    + simpl. repeat (destruct (MockTestQueries.countOfSubject _ _)); reflexivity.
    + simpl. fold (Props.sumCounts (MockTestQueries.questionCounts st)).
      rewrite Hsum. reflexivity.
    + intros name builtin Hin Hne.
      repeat (apply elem_of_cons in Hin as [[= -> ->]|Hin];
              [try congruence; simpl; rewrite !Hcount;
               repeat (destruct (Props.ofSubject _ _)); reflexivity|]).
      by apply elem_of_nil in Hin.
  - assert (Hnil : MockTestQueries.questionCounts st = []).
    { destruct (MockTestQueries.questionCounts st); [reflexivity|simpl in *; lia]. }
    rewrite Hnil in Hsum, Hassoc. change (Props.sumCounts []) with 0 in Hsum.
    assert (Hqs : mockTestQuestions st = []).
    { destruct (mockTestQuestions st); [reflexivity|simpl in *; lia]. }
    rewrite Hqs. split; [reflexivity|]. split; [reflexivity|].
    intros name builtin Hin Hne.
    repeat (apply elem_of_cons in Hin as [[= -> ->]|Hin];
            [try congruence; reflexivity|]).
    by apply elem_of_nil in Hin.
Qed.

Lemma getSubjects_counts_witness :
  (("History", 348) ∈ MockTestQueries.subjectDefaults)
  ∧ Props.assoc "History" (MockTestQueries.getSubjects Sample.oneQuestionTest)
    = Some 2
  ∧ Props.assoc "Geography" (MockTestQueries.getSubjects Sample.oneQuestionTest)
    = Some 398.
Proof.
  assert (Hh : ("History", 348) ∈ MockTestQueries.subjectDefaults).
  { apply list_elem_of_In. simpl. auto. }
  assert (Hg : ("Geography", 398) ∈ MockTestQueries.subjectDefaults).
  { apply list_elem_of_In. simpl. auto. }
  split; [exact Hh|].
  destruct (getSubjects_counts Sample.oneQuestionTest) as (_ & _ & H).
  split.
  - rewrite (H "History" 348 Hh); [reflexivity|discriminate].
  - rewrite (H "Geography" 398 Hg); [reflexivity|discriminate].
Defined.


(** ** The daily MCQ: what an accepted submission stores *)

Section SubmitMCQStored.

Import DailyMcqController.

Lemma updateStreak_quiz (st : State) (now : Date) (userId : string) :
  quizTables (updateStreak st now userId) = quizTables st.
Proof. destruct (updateStreak_shape st now userId) as [v ->]. reflexivity. Qed.

Lemma upsertResponses_quiz (attemptId : string) (rs : list responseDatum)
    (st : State) :
  quizTables (foldl (upsertResponse attemptId) st rs) = quizTables st
  ∧ userStreaks (foldl (upsertResponse attemptId) st rs) = userStreaks st.
Proof.
  destruct (upsertResponses_shape attemptId rs st) as [v ->]. by split.
Qed.

(** The streak table after [updateStreak] depends on the streak table
    only. *)
Lemma updateStreak_userStreaks (s s' : State) (now : Date) (userId : string) :
  userStreaks s = userStreaks s' →
  userStreaks (updateStreak s now userId)
  = userStreaks (updateStreak s' now userId).
Proof.
  intros H. destruct s, s'. simpl in H. subst.
  unfold updateStreak, findStreak. simpl.
  destruct (find _ _) as [r|]; [|reflexivity].
  destruct (match setHours0 <$> UserStreak.lastActiveDate r with
            | Some d => sameTime d (setHours0 now)
            | None => false
            end); reflexivity.
Qed.

(** The response table after the responses are saved depends on the
    response table only. *)
Lemma upsertResponses_rows (attemptId : string) (rs : list responseDatum)
    (s s' : State) :
  mcqResponses s = mcqResponses s' →
  mcqResponses (foldl (upsertResponse attemptId) s rs)
  = mcqResponses (foldl (upsertResponse attemptId) s' rs).
Proof.
  revert s s'. induction rs as [|r rs IH]; intros s s' H; [exact H|].
  simpl. apply IH. destruct s, s'. simpl in H. subst.
  unfold upsertResponse. simpl. destruct (find _ _); reflexivity.
Qed.

Lemma updateStreak_responses (st : State) (now : Date) (userId : string) :
  mcqResponses (updateStreak st now userId) = mcqResponses st.
Proof. destruct (updateStreak_shape st now userId) as [v ->]. reflexivity. Qed.

Lemma quizTables_eq (a b : State) :
  quizTables a = quizTables b →
  dailyMCQs a = dailyMCQs b ∧ mcqQuestions a = mcqQuestions b
  ∧ mcqAttempts a = mcqAttempts b.
Proof. unfold quizTables. intros [= ? ? ? ?]. auto. Qed.

(** The attempt that an accepted [submitMCQ] leaves for its user and the
    MCQ of the day: the counters of the loop over the questions, the score
    and the lists of topics computed from them, and the time of the
    submission. *)
Lemma submitMCQ_stored (st : State) (now : Date) (userId : string)
    (body : SubmitBody) :
  Spec.accepted (snd (submitMCQ st now userId body)) = true →
  ∃ mcq a,
    findMcq st (getToday now) = Some mcq
    ∧ dailyMCQs (fst (submitMCQ st now userId body)) = dailyMCQs st
    ∧ mcqQuestions (fst (submitMCQ st now userId body)) = mcqQuestions st
    ∧ findAttempt (fst (submitMCQ st now userId body)) userId (DailyMCQ.id mcq)
      = Some a
    ∧ (let c := gradeAll (Props.answerList body) (questionsOf st (DailyMCQ.id mcq)) in
       MCQAttempt.correctCount a = correctCount c
       ∧ MCQAttempt.wrongCount a = wrongCount c
       ∧ MCQAttempt.skippedCount a = skippedCount c
       ∧ MCQAttempt.score a = scoreOf (correctCount c) mcq
       ∧ MCQAttempt.strongTopics a = strongTopicsOf (topicResults c)
       ∧ MCQAttempt.weakTopics a = weakTopicsOf (topicResults c)
       ∧ MCQAttempt.completedAt a = Some now)
    ∧ userStreaks (fst (submitMCQ st now userId body))
      = userStreaks (updateStreak st now userId)
    ∧ mcqResponses (fst (submitMCQ st now userId body))
      = mcqResponses
          (foldl (upsertResponse (MCQAttempt.id a)) st
             (responseData
                (gradeAll (Props.answerList body)
                   (questionsOf st (DailyMCQ.id mcq))))).
Proof.
  unfold submitMCQ, Props.answerList.
  destruct (findMcq st (getToday now)) as [mcq|] eqn:Hmcq; [|discriminate].
  destruct (bool_decide _); [discriminate|].
  assert (Hgo : ∀ l descr,
    let c := gradeAll l (questionsOf st (DailyMCQ.id mcq)) in
    ∀ attempt st1,
      (let upd (a : MCQAttempt.t) :=
         MCQAttempt.mk (MCQAttempt.id a) (MCQAttempt.userId a)
           (MCQAttempt.dailyMcqId a) (scoreOf (correctCount c) mcq)
           (MCQAttempt.totalMarks a) (correctCount c)
           (wrongCount c) (skippedCount c)
           (roundTenth (accuracyOf (correctCount c) (wrongCount c)))
           (or_int (bodyTimeTaken body) 0)
           (strongTopicsOf (topicResults c))
           (weakTopicsOf (topicResults c)) (Some now) in
       match findAttempt st userId (DailyMCQ.id mcq) with
       | Some old =>
           (upd old,
            set_mcqAttempts
              (updateWhere (hasKey userId (DailyMCQ.id mcq)) upd
                 (mcqAttempts st)) st)
       | None =>
           let a :=
             MCQAttempt.mk (genId st) userId (DailyMCQ.id mcq)
               (scoreOf (correctCount c) mcq) (DailyMCQ.totalMarks mcq)
               (correctCount c) (wrongCount c) (skippedCount c)
               (roundTenth (accuracyOf (correctCount c) (wrongCount c)))
               (or_int (bodyTimeTaken body) 0)
               (strongTopicsOf (topicResults c))
               (weakTopicsOf (topicResults c)) (Some now) in
           (a, bumpId (set_mcqAttempts (mcqAttempts st ++ [a]) st))
       end) = (attempt, st1) →
      let R :=
        updateStreak
          (logActivity userId "mcq" "Completed Daily MCQ" descr
             (foldl (upsertResponse (MCQAttempt.id attempt)) st1
                (responseData c)))
          now userId in
      dailyMCQs R = dailyMCQs st
      ∧ mcqQuestions R = mcqQuestions st
      ∧ findAttempt R userId (DailyMCQ.id mcq) = Some attempt
      ∧ (MCQAttempt.correctCount attempt = correctCount c
         ∧ MCQAttempt.wrongCount attempt = wrongCount c
         ∧ MCQAttempt.skippedCount attempt = skippedCount c
         ∧ MCQAttempt.score attempt = scoreOf (correctCount c) mcq
         ∧ MCQAttempt.strongTopics attempt = strongTopicsOf (topicResults c)
         ∧ MCQAttempt.weakTopics attempt = weakTopicsOf (topicResults c)
         ∧ MCQAttempt.completedAt attempt = Some now)
      ∧ userStreaks R = userStreaks (updateStreak st now userId)
      ∧ mcqResponses R
        = mcqResponses
            (foldl (upsertResponse (MCQAttempt.id attempt)) st
               (responseData c))).
  { intros l descr c attempt st1 Hup R.
    assert (Hrows : mcqResponses R
                    = mcqResponses
                        (foldl (upsertResponse (MCQAttempt.id attempt)) st
                           (responseData c))).
    { unfold R. rewrite updateStreak_responses.
      change (mcqResponses (logActivity ?a ?b ?d ?e ?x)) with (mcqResponses x).
      apply upsertResponses_rows.
      destruct (findAttempt st userId (DailyMCQ.id mcq));
        injection Hup as <- <-; reflexivity. }
    assert (Hquiz : quizTables R = quizTables st1).
    { unfold R. rewrite updateStreak_quiz.
      change (quizTables (logActivity ?a ?b ?d ?e ?x)) with (quizTables x).
      apply upsertResponses_quiz. }
    assert (Hstreaks : userStreaks R = userStreaks (updateStreak st1 now userId)).
    { unfold R. apply updateStreak_userStreaks.
      change (userStreaks (logActivity ?a ?b ?d ?e ?x)) with (userStreaks x).
      apply upsertResponses_quiz. }
    apply quizTables_eq in Hquiz as (Hd & Hq & Ha).
    unfold findAttempt. rewrite Hd, Hq, Ha, Hstreaks, Hrows.
    clear Hd Hq Ha Hstreaks Hrows R.
    destruct (findAttempt st userId (DailyMCQ.id mcq)) as [old|] eqn:Hold;
      injection Hup as <- <-; simpl.
    - split; [reflexivity|]. split; [reflexivity|].
      split; [|split; [by repeat split|]; split;
                 [by apply updateStreak_userStreaks|reflexivity]].
      unfold findAttempt in Hold.
      rewrite find_updateWhere, Hold by reflexivity. reflexivity.
    - split; [reflexivity|]. split; [reflexivity|].
      split; [|split; [by repeat split|]; split;
                 [by apply updateStreak_userStreaks|reflexivity]].
      unfold findAttempt in Hold.
      apply find_snoc_fresh; [by apply find_none_Forall|].
      unfold hasKey. simpl. by rewrite !String.eqb_refl. }
  intros Hacc. exists mcq.
  destruct (answers body) as [|l|] eqn:Hans.
  - destruct (_ : MCQAttempt.t * State) as [attempt st1] eqn:Hup in *.
    exists attempt. split; [reflexivity|]. eapply (Hgo []). exact Hup.
  - destruct (_ : MCQAttempt.t * State) as [attempt st1] eqn:Hup in *.
    exists attempt. split; [reflexivity|]. eapply (Hgo l). exact Hup.
  - destruct (questionsOf st (DailyMCQ.id mcq)) as [|q qs] eqn:Hqs;
      [|discriminate].
    destruct (_ : MCQAttempt.t * State) as [attempt st1] eqn:Hup in *.
    exists attempt. split; [reflexivity|]. eapply (Hgo []). exact Hup.
Qed.

End SubmitMCQStored.

Section McqGrading.

Import DailyMcqController.

(** The three cases of the loop of [submitMCQ] on one question. *)
Lemma mcq_classify (l : list Answer) (q : MCQQuestion.t) :
  (Props.selectedFor l q = None
   ∧ ∀ acc, correctCount (grade l acc q) = correctCount acc
            ∧ wrongCount (grade l acc q) = wrongCount acc
            ∧ skippedCount (grade l acc q) = skippedCount acc + 1)
  ∨ (Props.selectedFor l q = Some (MCQQuestion.correctOption q)
     ∧ ∀ acc, correctCount (grade l acc q) = correctCount acc + 1
              ∧ wrongCount (grade l acc q) = wrongCount acc
              ∧ skippedCount (grade l acc q) = skippedCount acc)
  ∨ (is_Some (Props.selectedFor l q)
     ∧ Props.selectedFor l q ≠ Some (MCQQuestion.correctOption q)
     ∧ ∀ acc, correctCount (grade l acc q) = correctCount acc
              ∧ wrongCount (grade l acc q) = wrongCount acc + 1
              ∧ skippedCount (grade l acc q) = skippedCount acc).
Proof.
  unfold Props.selectedFor, grade, or_null, truthy_str.
  destruct (findAnswer l (MCQQuestion.id q)) as [a|]; simpl; [|by left].
  destruct (selectedOption a) as [s|]; simpl; [|by left].
  destruct (String.eqb_spec s "") as [->|Hs]; simpl; [by left|].
  destruct (String.eqb_spec s (MCQQuestion.correctOption q)) as [->|Hne].
  - right; left. by split.
  - right; right. split; [by eexists|]. split; [congruence|]. by intros acc.
Qed.

Lemma mcq_foldl_counts (l : list Answer) (qs : list MCQQuestion.t)
    (acc : counters) :
  correctCount (foldl (grade l) acc qs)
  = correctCount acc + Z.of_nat (length (Props.answeredRight l qs))
  ∧ wrongCount (foldl (grade l) acc qs)
    = wrongCount acc + Z.of_nat (length (Props.answeredWrong l qs))
  ∧ skippedCount (foldl (grade l) acc qs)
    = skippedCount acc + Z.of_nat (length (Props.leftOut l qs)).
Proof.
  revert acc. induction qs as [|q qs IH]; intros acc.
  { simpl. repeat split; lia. }
  simpl foldl. destruct (IH (grade l acc q)) as (Hc & Hw & Hs).
  rewrite Hc, Hw, Hs. clear IH Hc Hw Hs.
  unfold Props.answeredRight, Props.answeredWrong, Props.leftOut.
  rewrite !filter_cons.
  destruct (mcq_classify l q) as [[Hsel H]|[[Hsel H]|(Hsome & Hne & H)]];
    destruct (H acc) as (-> & -> & ->); clear H.
  - rewrite decide_False by (rewrite Hsel; discriminate).
    rewrite decide_False by (rewrite Hsel; intros [[x Hx] _]; discriminate).
    rewrite decide_True by done. simpl length. repeat split; lia.
  - rewrite decide_True by done.
    rewrite decide_False by (intros [_ Hx]; done).
    rewrite decide_False by (rewrite Hsel; discriminate).
    simpl length. repeat split; lia.
  - rewrite decide_False by done.
    rewrite decide_True by done.
    rewrite decide_False by (intros Hx; rewrite Hx in Hsome; by destruct Hsome).
    simpl length. repeat split; lia.
Qed.

(** Every question is in exactly one of the three classes. *)
Lemma mcq_classes_partition (l : list Answer) (qs : list MCQQuestion.t) :
  (length (Props.answeredRight l qs) + length (Props.answeredWrong l qs)
   + length (Props.leftOut l qs))%nat = length qs.
Proof.
  unfold Props.answeredRight, Props.answeredWrong, Props.leftOut.
  induction qs as [|q qs IH]; [reflexivity|].
  rewrite !filter_cons.
  destruct (mcq_classify l q) as [[Hsel _]|[[Hsel _]|(Hsome & Hne & _)]].
  - rewrite decide_False by (rewrite Hsel; discriminate).
    rewrite decide_False by (rewrite Hsel; intros [[x Hx] _]; discriminate).
    rewrite decide_True by done. simpl length. lia.
  - rewrite decide_True by done.
    rewrite decide_False by (intros [_ Hx]; done).
    rewrite decide_False by (rewrite Hsel; discriminate).
    simpl length. lia.
  - rewrite decide_False by done.
    rewrite decide_True by done.
    rewrite decide_False by (intros Hx; rewrite Hx in Hsome; by destruct Hsome).
    simpl length. lia.
Qed.

End McqGrading.

(** X11: the counters that an accepted [submitMCQ] stores in the attempt
    of the user are the numbers of today's questions answered with the
    correct option, answered with another option, and left without an
    option (no answer in the array, or an answer whose option is missing
    or empty); they add up to the number of today's questions. *)
Theorem submitMCQ_counters (st : State) (now : Date) (userId : string)
    (body : DailyMcqController.SubmitBody) :
  Spec.accepted (snd (DailyMcqController.submitMCQ st now userId body)) = true →
  ∃ mcq a,
    DailyMcqController.findMcq st (getToday now) = Some mcq
    ∧ DailyMcqController.findAttempt
        (fst (DailyMcqController.submitMCQ st now userId body)) userId
        (DailyMCQ.id mcq) = Some a
    ∧ (let qs := DailyMcqController.questionsOf st (DailyMCQ.id mcq) in
       let l := Props.answerList body in
       MCQAttempt.correctCount a = Z.of_nat (length (Props.answeredRight l qs))
       ∧ MCQAttempt.wrongCount a = Z.of_nat (length (Props.answeredWrong l qs))
       ∧ MCQAttempt.skippedCount a = Z.of_nat (length (Props.leftOut l qs))
       ∧ MCQAttempt.correctCount a + MCQAttempt.wrongCount a
         + MCQAttempt.skippedCount a = Z.of_nat (length qs)).
Proof.
  intros Hacc.
  destruct (submitMCQ_stored st now userId body Hacc)
    as (mcq & a & Hmcq & _ & _ & Ha & Hvals & _ & _).
  exists mcq, a. split; [exact Hmcq|]. split; [exact Ha|].
  cbv zeta in Hvals. destruct Hvals as (Hc & Hw & Hs & _).
  cbv zeta. rewrite Hc, Hw, Hs. unfold DailyMcqController.gradeAll.
  destruct (mcq_foldl_counts (Props.answerList body)
              (DailyMcqController.questionsOf st (DailyMCQ.id mcq))
              (DailyMcqController.mkCounters 0 0 0 [] [])) as (-> & -> & ->).
  pose proof (mcq_classes_partition (Props.answerList body)
                (DailyMcqController.questionsOf st (DailyMCQ.id mcq))).
  simpl. repeat split; lia.
Qed.

Lemma submitMCQ_counters_witness :
  ∃ mcq a,
    DailyMcqController.findMcq Sample.seeded (getToday Sample.noon) = Some mcq
    ∧ DailyMcqController.findAttempt
        (fst (DailyMcqController.submitMCQ Sample.seeded Sample.noon "u1"
                Sample.mcqBody)) "u1" (DailyMCQ.id mcq) = Some a
    ∧ (let qs := DailyMcqController.questionsOf Sample.seeded (DailyMCQ.id mcq) in
       let l := Props.answerList Sample.mcqBody in
       MCQAttempt.correctCount a = Z.of_nat (length (Props.answeredRight l qs))
       ∧ MCQAttempt.wrongCount a = Z.of_nat (length (Props.answeredWrong l qs))
       ∧ MCQAttempt.skippedCount a = Z.of_nat (length (Props.leftOut l qs))
       ∧ MCQAttempt.correctCount a + MCQAttempt.wrongCount a
         + MCQAttempt.skippedCount a = Z.of_nat (length qs)).
Proof.
  apply (submitMCQ_counters Sample.seeded Sample.noon "u1" Sample.mcqBody).
  vm_compute. reflexivity.
Defined.

Section StreakRows.

Import DailyMcqController.

Lemma find_updateWhere_other {A : Type} (p q : A → bool) (f : A → A)
    (l : list A) :
  (∀ r, p r = true → q r = false) → (∀ r, p r = true → q (f r) = false) →
  find q (updateWhere p f l) = find q l.
Proof.
  intros Hpq Hf. unfold updateWhere.
  induction l as [|x l IH]; simpl; [reflexivity|].
  destruct (p x) eqn:Hx.
  - by rewrite Hf, Hpq.
  - destruct (q x); [reflexivity|exact IH].
Qed.

Lemma find_snoc_other {A : Type} (q : A → bool) (l : list A) (x : A) :
  q x = false → find q (l ++ [x]) = find q l.
Proof.
  intros Hx. induction l as [|y l IH]; simpl; [by rewrite Hx|].
  destruct (q y); [reflexivity|exact IH].
Qed.

(** What [updateStreak] leaves in the row of its user, and in the rows of
    the others. *)
Lemma updateStreak_rows (st : State) (now : Date) (userId : string) :
  (∃ r,
     findStreak (updateStreak st now userId) userId = Some r
     ∧ day <$> UserStreak.lastActiveDate r = Some (day now)
     ∧ ((findStreak st userId = Some r
         ∧ updateStreak st now userId = st)
        ∨ (day <$> (findStreak st userId ≫= UserStreak.lastActiveDate)
           ≠ Some (day now)
           ∧ UserStreak.weekActivity r = getWeekActivity (setHours0 now)
           ∧ UserStreak.lastActiveDate r = Some (setHours0 now)
           ∧ ∀ old, findStreak st userId = Some old →
                    UserStreak.longestStreak old <= UserStreak.longestStreak r)))
  ∧ ∀ other, other ≠ userId →
      findStreak (updateStreak st now userId) other = findStreak st other.
Proof.
  assert (Hother : ∀ other a b, other ≠ userId →
            find (fun s => String.eqb (UserStreak.userId s) other)
              (updateWhere (fun s => String.eqb (UserStreak.userId s) userId)
                 (fun s =>
                    UserStreak.mk (UserStreak.userId s) a b
                      (Some (setHours0 now)) (getWeekActivity (setHours0 now)))
                 (userStreaks st))
            = find (fun s => String.eqb (UserStreak.userId s) other)
                (userStreaks st)).
  { intros other a b Hne. apply find_updateWhere_other; simpl; intros r Hr;
      apply String.eqb_eq in Hr; apply String.eqb_neq; congruence. }
  unfold updateStreak.
  destruct (findStreak st userId) as [s|] eqn:Hs.
  - assert (Hupd : ∀ a b,
              find (fun s => String.eqb (UserStreak.userId s) userId)
                (updateWhere (fun s => String.eqb (UserStreak.userId s) userId)
                   (fun s =>
                      UserStreak.mk (UserStreak.userId s) a b
                        (Some (setHours0 now)) (getWeekActivity (setHours0 now)))
                   (userStreaks st))
              = Some (UserStreak.mk (UserStreak.userId s) a b
                        (Some (setHours0 now)) (getWeekActivity (setHours0 now)))).
    { intros a b. unfold findStreak in Hs.
      by rewrite find_updateWhere, Hs by reflexivity. }
    destruct (UserStreak.lastActiveDate s) as [d|] eqn:Hd; simpl.
    + rewrite sameTime_midnights.
      destruct (Z.eqb_spec (day d) (day now)) as [Hday|Hday].
      { split; [|reflexivity]. exists s. rewrite Hs, Hd. simpl.
        split; [reflexivity|]. split; [by rewrite Hday|]. by left. }
      split.
      * unfold findStreak. simpl.
        match goal with
        | |- context [UserStreak.mk _ ?a ?b _ _] => rewrite (Hupd a b)
        end.
        eexists. split; [reflexivity|]. simpl. split; [reflexivity|]. right.
        split; [simpl; rewrite ?Hd; simpl; congruence|].
        split; [reflexivity|]. split; [reflexivity|].
        intros old [= <-]. lia.
      * intros other Hne. unfold findStreak. simpl.
        match goal with
        | |- context [UserStreak.mk _ ?a ?b _ _] => apply (Hother other a b Hne)
        end.
    + split.
      * unfold findStreak. simpl.
        match goal with
        | |- context [UserStreak.mk _ ?a ?b _ _] => rewrite (Hupd a b)
        end.
        eexists. split; [reflexivity|]. simpl. split; [reflexivity|]. right.
        split; [simpl; rewrite ?Hd; discriminate|].
        split; [reflexivity|]. split; [reflexivity|].
        intros old [= <-]. lia.
      * intros other Hne. unfold findStreak. simpl.
        match goal with
        | |- context [UserStreak.mk _ ?a ?b _ _] => apply (Hother other a b Hne)
        end.
  - split.
    + unfold findStreak in *. simpl.
      rewrite find_snoc_fresh;
        [|by apply find_none_Forall|simpl; apply String.eqb_refl].
      eexists. split; [reflexivity|]. simpl. split; [reflexivity|]. right.
      split; [discriminate|]. split; [reflexivity|]. split; [reflexivity|].
      intros old [=].
    + intros other Hne. unfold findStreak. simpl.
      apply find_snoc_other. simpl. apply String.eqb_neq. congruence.
Qed.

End StreakRows.

Lemma mondayIndex_spec (d : Date) :
  DailyMcqController.getWeekActivity d
  = <[Props.mondayIndex d := true]> (replicate 7 false)
  ∧ (Props.mondayIndex d < 7)%nat.
Proof.
  unfold DailyMcqController.getWeekActivity, Props.mondayIndex.
  pose proof (Z.mod_pos_bound (day d + 4) 7 ltac:(lia)) as Hdow.
  fold (getDay d) in Hdow. set (dow := getDay d) in *. clearbody dow.
  assert (Hcases : dow = 0 ∨ dow = 1 ∨ dow = 2 ∨ dow = 3 ∨ dow = 4 ∨ dow = 5
                   ∨ dow = 6) by lia.
  destruct Hcases as [->|[->|[->|[->|[->|[->| ->]]]]]]; 
    (split; [reflexivity|apply Nat.ltb_lt; reflexivity]).
Qed.

(** A share of the marks counted in doubles stays within the marks: the
    three roundings move it by less than a twentieth. *)
Lemma share_of_marks_le (c n T : Z) :
  0 <= c <= n → 0 < n → 0 <= T <= 10 ^ 12 →
  (roundTenth (fmul (inject_Z c) (fdiv (inject_Z T) (inject_Z n)))
   <= inject_Z T)%Q.
Proof.
  intros [Hc0 Hcn] Hn [HT0 HT1].
  rewrite Zle_Qle in Hc0, Hcn, HT0, HT1. rewrite Zlt_Qlt in Hn.
  change (inject_Z 0) with 0%Q in *.
  change (inject_Z (10 ^ 12)) with 1000000000000%Q in HT1.
  unfold roundTenth, fmul, fdiv.
  set (C := inject_Z c) in *. set (N := inject_Z n) in *.
  set (M := inject_Z T) in *.
  assert (Hq0 : (0 <= M / N)%Q) by (apply Qle_shift_div_l; lra).
  assert (Hu : (2 ^ (-53) == 1 # 9007199254740992)%Q) by reflexivity.
  pose proof (rnd_nonneg _ Hq0) as H1lo. pose proof (rnd_upper _ Hq0) as H1hi.
  set (a1 := rnd (M / N)) in *.
  assert (Hp0 : (0 <= C * a1)%Q) by (apply Qmult_le_0_compat; assumption).
  assert (Hp : (C * a1 <= M * (1 + 2 ^ (-53)))%Q).
  { apply Qle_trans with (N * a1)%Q; [apply Qmult_le_compat_r; assumption|].
    apply Qle_trans with (N * (M / N * (1 + 2 ^ (-53))))%Q.
    - apply Qmult_le_l; assumption.
    - apply Qle_lteq. right. field. lra. }
  pose proof (rnd_nonneg _ Hp0) as H2lo. pose proof (rnd_upper _ Hp0) as H2hi.
  set (a2 := rnd (C * a1)) in *.
  assert (Hs0 : (0 <= a2 * 10)%Q) by lra.
  pose proof (rnd_upper _ Hs0) as H3hi.
  set (a3 := rnd (a2 * 10)) in *.
  assert (Hr : round a3 <= T * 10).
  { apply round_lt_half. rewrite inject_Z_mult. fold M.
    change (inject_Z 10) with 10%Q.
    set (u := (2 ^ (-53))%Q) in *. clearbody u a1 a2 a3.
    assert (H2 : (a2 <= M * (1 + u) * (1 + u))%Q).
    { apply Qle_trans with (C * a1 * (1 + u))%Q; [exact H2hi|].
      apply Qmult_le_compat_r; lra. }
    assert (H3 : (a3 <= M * (1 + u) * (1 + u) * 10 * (1 + u))%Q).
    { apply Qle_trans with (a2 * 10 * (1 + u))%Q; [exact H3hi|].
      apply Qmult_le_compat_r; lra. }
    assert (Hk : (M * (1 + u) * (1 + u) * 10 * (1 + u)
                  == M * (10 * ((1 + u) * (1 + u) * (1 + u))))%Q) by ring.
    assert (Hk' : (10 * ((1 + u) * (1 + u) * (1 + u)) <= 10 + (1 # 4000000000000))%Q).
    { rewrite Hu. vm_compute. discriminate. }
    set (k := (10 * ((1 + u) * (1 + u) * (1 + u)))%Q) in *. clearbody k.
    assert (Hm : (k * M <= (10 + (1 # 4000000000000)) * M)%Q)
      by (apply Qmult_le_compat_r; lra).
    lra. }
  rewrite Zle_Qle, inject_Z_mult in Hr. fold M in Hr.
  change (inject_Z 10) with 10%Q in Hr.
  apply Qle_shift_div_r; [reflexivity|]. lra.
Qed.

(** X12: when today's MCQ has as many questions as it says and a total
    of marks between 0 and a million millions, the score that an accepted
    [submitMCQ] stores, computed in doubles, is a number between 0 and
    the total marks. *)
Theorem submitMCQ_score_range (st : State) (now : Date) (userId : string)
    (body : DailyMcqController.SubmitBody) (mcq : DailyMCQ.t) :
  Spec.accepted (snd (DailyMcqController.submitMCQ st now userId body)) = true →
  DailyMcqController.findMcq st (getToday now) = Some mcq →
  DailyMCQ.questionCount mcq
  = Z.of_nat (length (DailyMcqController.questionsOf st (DailyMCQ.id mcq))) →
  0 < DailyMCQ.questionCount mcq →
  0 <= DailyMCQ.totalMarks mcq <= 10 ^ 12 →
  ∃ a s,
    DailyMcqController.findAttempt
      (fst (DailyMcqController.submitMCQ st now userId body)) userId
      (DailyMCQ.id mcq) = Some a
    ∧ MCQAttempt.score a = Some s
    ∧ (0 <= s)%Q ∧ (s <= inject_Z (DailyMCQ.totalMarks mcq))%Q.
Proof.
  intros Hacc Hmcq Hn Hpos Hmarks.
  destruct (submitMCQ_stored st now userId body Hacc)
    as (mcq' & a & Hmcq' & _ & _ & Ha & Hvals & _ & _).
  rewrite Hmcq in Hmcq'. injection Hmcq' as <-.
  cbv zeta in Hvals. destruct Hvals as (_ & _ & _ & Hscore & _).
  unfold DailyMcqController.gradeAll in Hscore.
  destruct (mcq_foldl_counts (Props.answerList body)
              (DailyMcqController.questionsOf st (DailyMCQ.id mcq))
              (DailyMcqController.mkCounters 0 0 0 [] [])) as (Hc & _ & _).
  rewrite Hc in Hscore. simpl in Hscore. clear Hc.
  rewrite ?Z.add_0_l in Hscore.
  pose proof (mcq_classes_partition (Props.answerList body)
                (DailyMcqController.questionsOf st (DailyMCQ.id mcq))) as Hpart.
  set (c := Z.of_nat (length (Props.answeredRight (Props.answerList body)
                 (DailyMcqController.questionsOf st (DailyMCQ.id mcq))))) in *.
  assert (Hcn : 0 <= c <= DailyMCQ.questionCount mcq) by (unfold c; lia).
  clearbody c. unfold DailyMcqController.scoreOf in Hscore.
  destruct (Z.eqb_spec (DailyMCQ.questionCount mcq) 0) as [H0|_]; [lia|].
  exists a. eexists. split; [exact Ha|]. split; [exact Hscore|].
  set (T := DailyMCQ.totalMarks mcq) in *.
  set (n := DailyMCQ.questionCount mcq) in *.
  assert (HT : (inject_Z 0 <= inject_Z T)%Q)
    by (rewrite <- Zle_Qle; lia).
  assert (Hnq : (inject_Z 0 < inject_Z n)%Q)
    by (rewrite <- Zlt_Qlt; exact Hpos).
  assert (Hc0 : (inject_Z 0 <= inject_Z c)%Q)
    by (rewrite <- Zle_Qle; lia).
  change (inject_Z 0) with 0%Q in HT, Hnq, Hc0.
  assert (Hx : (0 <= inject_Z T / inject_Z n)%Q).
  { apply Qle_shift_div_l; [exact Hnq|]. lra. }
  split.
  - apply (roundTenth_ge_int _ 0); [done|]. unfold fmul, fdiv.
    apply rnd_nonneg, Qmult_le_0_compat; [exact Hc0|]. by apply rnd_nonneg.
  - by apply share_of_marks_le.
Qed.

Lemma submitMCQ_score_range_witness :
  ∃ a s,
    DailyMcqController.findAttempt
      (fst (DailyMcqController.submitMCQ Sample.seeded Sample.noon "u1"
              Sample.mcqBody)) "u1" (DailyMCQ.id Sample.mcq) = Some a
    ∧ MCQAttempt.score a = Some s
    ∧ (0 <= s)%Q ∧ (s <= inject_Z (DailyMCQ.totalMarks Sample.mcq))%Q.
Proof.
  apply (submitMCQ_score_range Sample.seeded Sample.noon "u1" Sample.mcqBody
           Sample.mcq).
  - vm_compute. reflexivity.
  - vm_compute. reflexivity.
  - vm_compute. reflexivity.
  - vm_compute. reflexivity.
  - split; vm_compute; discriminate.
Defined.

(** X13: [getTodayMCQ] tells a signed-in user whether today's MCQ is
    done.  A submission is only accepted from a user for whom the flag
    [attempted] is false; from then on the flag is true for this user
    for the rest of the day, while a visitor who is not signed in is
    told false. *)
Theorem getTodayMCQ_attempted_after_submit (st : State) (now later : Date)
    (userId : string) (body : DailyMcqController.SubmitBody) :
  Spec.accepted (snd (DailyMcqController.submitMCQ st now userId body)) = true →
  day later = day now →
  Props.dataField "attempted"
    (DailyMcqQueries.getTodayMCQ st now (Some userId)) = Some (JBool false)
  ∧ Props.dataField "attempted"
      (DailyMcqQueries.getTodayMCQ
         (fst (DailyMcqController.submitMCQ st now userId body)) later
         (Some userId)) = Some (JBool true)
  ∧ Props.dataField "attempted"
      (DailyMcqQueries.getTodayMCQ
         (fst (DailyMcqController.submitMCQ st now userId body)) later None)
    = Some (JBool false).
Proof.
  intros Hacc Hday.
  destruct (submitMCQ_stored st now userId body Hacc)
    as (mcq & a & Hmcq & Hd & _ & Ha & Hvals & _ & _).
  cbv zeta in Hvals. destruct Hvals as (_ & _ & _ & _ & _ & _ & Hdone).
  assert (Hlater : getToday later = getToday now).
  { unfold getToday, setHours0. by rewrite Hday. }
  unfold DailyMcqQueries.getTodayMCQ. rewrite Hlater.
  unfold DailyMcqController.findMcq in *. rewrite Hd, Hmcq.
  split; [|split].
  - destruct (DailyMcqController.findAttempt st userId (DailyMCQ.id mcq))
      as [old|] eqn:Hold; [|reflexivity].
    destruct (MCQAttempt.completedAt old) as [t|] eqn:Ht;
      [|simpl; by rewrite Ht].
    rewrite (submitMCQ_completed st now userId body mcq old) in Hacc;
      [discriminate|exact Hmcq|exact Hold|by rewrite Ht].
  - rewrite Ha. simpl. by rewrite Hdone.
  - reflexivity.
Qed.

Lemma getTodayMCQ_attempted_after_submit_witness :
  Props.dataField "attempted"
    (DailyMcqQueries.getTodayMCQ Sample.seeded Sample.noon (Some "u1"))
  = Some (JBool false)
  ∧ Props.dataField "attempted"
      (DailyMcqQueries.getTodayMCQ
         (fst (DailyMcqController.submitMCQ Sample.seeded Sample.noon "u1"
                 Sample.mcqBody)) (mkDate 20000 80000000) (Some "u1"))
    = Some (JBool true)
  ∧ Props.dataField "attempted"
      (DailyMcqQueries.getTodayMCQ
         (fst (DailyMcqController.submitMCQ Sample.seeded Sample.noon "u1"
                 Sample.mcqBody)) (mkDate 20000 80000000) None)
    = Some (JBool false).
Proof.
  apply (getTodayMCQ_attempted_after_submit Sample.seeded Sample.noon
           (mkDate 20000 80000000) "u1" Sample.mcqBody).
  - vm_compute. reflexivity.
  - reflexivity.
Defined.

(** X14: when [updateStreak] runs for a user whose last active day is not
    today, the week it stores has seven days of which exactly one is
    marked, the day of the run (counted from Monday); the days that were
    marked in the stored week before are not kept. *)
Theorem updateStreak_week_activity (st : State) (now : Date) (userId : string) :
  day <$> (DailyMcqController.findStreak st userId
           ≫= UserStreak.lastActiveDate) ≠ Some (day now) →
  ∃ r,
    DailyMcqController.findStreak
      (DailyMcqController.updateStreak st now userId) userId = Some r
    ∧ length (UserStreak.weekActivity r) = 7%nat
    ∧ ∀ i, UserStreak.weekActivity r !! i = Some true
           ↔ i = Props.mondayIndex now.
Proof.
  intros Hnot.
  destruct (updateStreak_rows st now userId) as [(r & Hr & _ & Hcase) _].
  exists r. split; [exact Hr|].
  destruct Hcase as [[Hsame Hst]|(_ & Hweek & _)].
  { exfalso. apply Hnot. rewrite Hst in Hr.
    destruct (updateStreak_rows st now userId) as [(r' & Hr' & Hlast & _) _].
    rewrite Hst, Hr in Hr'. injection Hr' as <-. by rewrite Hr. }
  rewrite Hweek.
  destruct (mondayIndex_spec (setHours0 now)) as [-> Hlt].
  change (Props.mondayIndex (setHours0 now)) with (Props.mondayIndex now) in *.
  split; [by rewrite length_insert, length_replicate|].
  intros i. rewrite list_lookup_insert_Some, lookup_replicate, length_replicate.
  split; [intros [(-> & _)|(_ & [=] & _)]; reflexivity|].
  intros ->. left. auto.
Qed.

Lemma updateStreak_week_activity_witness :
  ∃ r,
    DailyMcqController.findStreak
      (DailyMcqController.updateStreak More.activeWeek Sample.noon "u1") "u1"
    = Some r
    ∧ length (UserStreak.weekActivity r) = 7%nat
    ∧ ∀ i, UserStreak.weekActivity r !! i = Some true
           ↔ i = Props.mondayIndex Sample.noon.
Proof.
  apply (updateStreak_week_activity More.activeWeek Sample.noon "u1").
  vm_compute. intros [=].
Defined.

(** X15: [updateStreak] never lowers the longest streak of a user, and it
    leaves the streak rows of the users other than its own as they
    are. *)
Theorem updateStreak_longest_never_lowered (st : State) (now : Date)
    (userId other : string) (old : UserStreak.t) :
  DailyMcqController.findStreak st other = Some old →
  ∃ r,
    DailyMcqController.findStreak
      (DailyMcqController.updateStreak st now userId) other = Some r
    ∧ UserStreak.longestStreak old <= UserStreak.longestStreak r
    ∧ (other ≠ userId → r = old).
Proof.
  intros Hold.
  destruct (updateStreak_rows st now userId) as [(r & Hr & _ & Hcase) Hothers].
  destruct (decide (other = userId)) as [->|Hne].
  - exists r. split; [exact Hr|]. split; [|done].
    destruct Hcase as [[Hsame _]|(_ & _ & _ & Hlong)].
    + rewrite Hold in Hsame. injection Hsame as ->. lia.
    + by apply Hlong.
  - exists old. rewrite (Hothers other Hne). split; [exact Hold|].
    split; [lia|done].
Qed.

Lemma updateStreak_longest_never_lowered_witness :
  ∃ r,
    DailyMcqController.findStreak
      (DailyMcqController.updateStreak More.activeWeek Sample.noon "u1") "u1"
    = Some r
    ∧ 7 <= UserStreak.longestStreak r
    ∧ ("u1" ≠ "u1" →
       r = UserStreak.mk "u1" 2 7 (Some (mkDate 19999 0))
             [true; true; false; true; false; false; false]).
Proof.
  apply (updateStreak_longest_never_lowered More.activeWeek Sample.noon "u1"
           "u1"
           (UserStreak.mk "u1" 2 7 (Some (mkDate 19999 0))
              [true; true; false; true; false; false; false])).
  reflexivity.
Defined.

(** X16: after an accepted [submitMCQ] the user has a streak row whose
    last active day is the day of the submission, and the streak rows of
    the other users are as they were. *)
Theorem submitMCQ_marks_today_active (st : State) (now : Date)
    (userId : string) (body : DailyMcqController.SubmitBody) :
  Spec.accepted (snd (DailyMcqController.submitMCQ st now userId body)) = true →
  (∃ r,
     DailyMcqController.findStreak
       (fst (DailyMcqController.submitMCQ st now userId body)) userId = Some r
     ∧ day <$> UserStreak.lastActiveDate r = Some (day now))
  ∧ ∀ other, other ≠ userId →
      DailyMcqController.findStreak
        (fst (DailyMcqController.submitMCQ st now userId body)) other
      = DailyMcqController.findStreak st other.
Proof.
  intros Hacc.
  destruct (submitMCQ_stored st now userId body Hacc)
    as (mcq & a & _ & _ & _ & _ & _ & Hstreaks & _).
  destruct (updateStreak_rows st now userId) as [(r & Hr & Hlast & _) Hothers].
  unfold DailyMcqController.findStreak in *. rewrite Hstreaks.
  split; [by exists r|exact Hothers].
Qed.

Lemma submitMCQ_marks_today_active_witness :
  (∃ r,
     DailyMcqController.findStreak
       (fst (DailyMcqController.submitMCQ Sample.seeded Sample.noon "u1"
               Sample.mcqBody)) "u1" = Some r
     ∧ day <$> UserStreak.lastActiveDate r = Some (day Sample.noon))
  ∧ ∀ other, other ≠ "u1" →
      DailyMcqController.findStreak
        (fst (DailyMcqController.submitMCQ Sample.seeded Sample.noon "u1"
                Sample.mcqBody)) other
      = DailyMcqController.findStreak Sample.seeded other.
Proof.
  apply (submitMCQ_marks_today_active Sample.seeded Sample.noon "u1"
           Sample.mcqBody).
  vm_compute. reflexivity.
Defined.

Section McqTopics.

Import DailyMcqController.

Variable l : list Answer.

(** The entry that one turn of the loop of [submitMCQ] writes for the
    category of its question. *)
Lemma mcq_grade_topic (acc : counters) (q : MCQQuestion.t) :
  ∃ f,
    topicResults (grade l acc q)
    = bumpObject (mkTopic 0 0) (MCQQuestion.category q) f (topicResults acc)
    ∧ ∀ v, f v = mkTopic
                   (correct v + Z.of_nat (length (Props.answeredRight l [q])))
                   (total v + 1).
Proof.
  unfold Props.answeredRight. rewrite filter_cons, filter_nil.
  destruct (decide (Props.selectedFor l q = Some (MCQQuestion.correctOption q)))
    as [Hsel|Hsel]; revert Hsel;
    unfold Props.selectedFor, grade, or_null, truthy_str;
    destruct (findAnswer l (MCQQuestion.id q)) as [a|]; simpl;
    try destruct (selectedOption a) as [s|]; simpl;
    try destruct (String.eqb_spec s "") as [->|Hs]; simpl;
    try destruct (String.eqb_spec s (MCQQuestion.correctOption q)) as [->|Hne];
    intros Hsel; try discriminate; try congruence;
    (eexists; split; [reflexivity|]; intros v; simpl; f_equal; lia).
Qed.

Lemma answeredRight_cons (q : MCQQuestion.t) (qs : list MCQQuestion.t) :
  length (Props.answeredRight l (q :: qs))
  = (length (Props.answeredRight l [q]) + length (Props.answeredRight l qs))%nat.
Proof.
  unfold Props.answeredRight. rewrite !filter_cons, filter_nil.
  case_decide; reflexivity.
Qed.

(** The loop keeps, for every category whose name is not an inherited
    one, the numbers of the questions of that category it has seen and of
    those answered right; it keeps nothing for an inherited name. *)
Lemma mcq_foldl_topics (t : string) (qs : list MCQQuestion.t) (acc : counters) :
  Props.assoc t (topicResults (foldl (grade l) acc qs))
  = if inherited t then Props.assoc t (topicResults acc)
    else
      match Props.ofCategory t qs with
      | [] => Props.assoc t (topicResults acc)
      | qt =>
          let v := default (mkTopic 0 0) (Props.assoc t (topicResults acc)) in
          Some (mkTopic
                  (correct v + Z.of_nat (length (Props.answeredRight l qt)))
                  (total v + Z.of_nat (length qt)))
      end.
Proof.
  revert acc. induction qs as [|q qs IH]; intros acc.
  { simpl. by destruct (inherited t). }
  simpl foldl. rewrite IH. clear IH.
  destruct (mcq_grade_topic acc q) as (f & -> & Hf).
  rewrite assoc_bumpObject.
  unfold Props.ofCategory. rewrite filter_cons.
  destruct (inherited t) eqn:Ht.
  { destruct (inherited (MCQQuestion.category q)) eqn:Hq; [reflexivity|].
    destruct (decide (MCQQuestion.category q = t)); [congruence|].
    reflexivity. }
  destruct (decide (MCQQuestion.category q = t)) as [<-|Hne].
  - rewrite Ht, Hf. simpl default.
    destruct (filter _ qs) as [|q' qt] eqn:Hqt.
    + reflexivity.
    + cbv zeta. f_equal. rewrite (answeredRight_cons q (q' :: qt)).
      simpl default. simpl length. f_equal; simpl; lia.
  - by destruct (inherited (MCQQuestion.category q)).
Qed.

Lemma mcq_foldl_topics_NoDup (qs : list MCQQuestion.t) (acc : counters) :
  NoDup (fst <$> topicResults acc) →
  NoDup (fst <$> topicResults (foldl (grade l) acc qs)).
Proof.
  revert acc. induction qs as [|q qs IH]; intros acc Hnd; [exact Hnd|].
  simpl. apply IH. destruct (mcq_grade_topic acc q) as (f & -> & _).
  by apply bumpObject_NoDup.
Qed.

End McqTopics.

(** The keys kept by a filter of the entries of a dictionary. *)
Lemma elem_of_filtered_entries {V : Type} (P : string * V → Prop)
    `{∀ kv, Decision (P kv)} (t : string) (o : list (string * V)) :
  t ∈ fst <$> filter P (entries o) ↔ t ∈ fst <$> filter P o.
Proof. by rewrite entries_Permutation. Qed.

Lemma elem_of_filtered_keys {V : Type} (P : string * V → Prop)
    `{∀ kv, Decision (P kv)} (t : string) (o : list (string * V)) :
  NoDup (fst <$> o) →
  t ∈ fst <$> filter P o ↔ ∃ v, Props.assoc t o = Some v ∧ P (t, v).
Proof.
  unfold Props.assoc. induction o as [|[k v] o IH]; intros Hnd.
  { simpl. split; [by intros ?%elem_of_nil|].
    by intros (v & [=] & _). }
  rewrite fmap_cons in Hnd. apply NoDup_cons in Hnd as [Hk Hnd].
  specialize (IH Hnd). rewrite filter_cons. simpl find.
  destruct (String.eqb_spec k t) as [->|Hne].
  - simpl. split.
    + destruct (decide (P (t, v))) as [HP|HP].
      * intros _. by exists v.
      * intros Hin. exfalso. apply Hk. simpl.
        apply list_elem_of_fmap in Hin as ([k' v'] & -> & Hin).
        apply list_elem_of_filter in Hin as [_ Hin].
        apply list_elem_of_fmap. by exists (k', v').
    + intros (v' & [= <-] & HP). rewrite decide_True by exact HP.
      rewrite fmap_cons. apply elem_of_cons. by left.
  - rewrite <- IH. destruct (decide (P (k, v))); [|reflexivity].
    rewrite fmap_cons, elem_of_cons. simpl. split; [|by right].
    intros [->|Hin]; [done|exact Hin].
Qed.

Lemma ratio_strong (c n : Z) :
  0 < n → Qle_bool 0.7 (inject_Z c / inject_Z n) = true ↔ 7 * n <= 10 * c.
Proof.
  intros Hn. rewrite Qle_bool_iff. destruct n as [|p|p]; try lia.
  unfold Qle, Qdiv, Qmult, Qinv, inject_Z. simpl. lia.
Qed.

Lemma ratio_weak (c n : Z) :
  0 < n → qlt (inject_Z c / inject_Z n) 0.5 = true ↔ 2 * c < n.
Proof.
  intros Hn. unfold qlt. rewrite negb_true_iff, <- not_true_iff_false.
  rewrite Qle_bool_iff. destruct n as [|p|p]; try lia.
  unfold Qle, Qdiv, Qmult, Qinv, inject_Z. simpl. lia.
Qed.

(** X17: the topics that an accepted [submitMCQ] stores.  A category
    whose name every object inherits (constructor, toString, __proto__
    and the like) is never among them.  Any other category is a strong
    topic exactly when today's MCQ has questions of it and at least seven
    in ten of them were answered with the correct option; it is a weak
    topic exactly when it has questions and fewer than half of them were;
    so no category is both. *)
Theorem submitMCQ_topics (st : State) (now : Date) (userId : string)
    (body : DailyMcqController.SubmitBody) :
  Spec.accepted (snd (DailyMcqController.submitMCQ st now userId body)) = true →
  ∃ mcq a,
    DailyMcqController.findMcq st (getToday now) = Some mcq
    ∧ DailyMcqController.findAttempt
        (fst (DailyMcqController.submitMCQ st now userId body)) userId
        (DailyMCQ.id mcq) = Some a
    ∧ ∀ t,
        let qt :=
          Props.ofCategory t
            (DailyMcqController.questionsOf st (DailyMCQ.id mcq)) in
        let right :=
          Z.of_nat (length (Props.answeredRight (Props.answerList body) qt)) in
        let total := Z.of_nat (length qt) in
        (t ∈ MCQAttempt.strongTopics a
         ↔ (t ∉ objectPrototype) ∧ 0 < total ∧ 7 * total <= 10 * right)
        ∧ (t ∈ MCQAttempt.weakTopics a
           ↔ (t ∉ objectPrototype) ∧ 0 < total ∧ 2 * right < total)
        ∧ ¬ (t ∈ MCQAttempt.strongTopics a ∧ t ∈ MCQAttempt.weakTopics a).
Proof.
  intros Hacc.
  destruct (submitMCQ_stored st now userId body Hacc)
    as (mcq & a & Hmcq & _ & _ & Ha & Hvals & _ & _).
  exists mcq, a. split; [exact Hmcq|]. split; [exact Ha|].
  cbv zeta in Hvals. destruct Hvals as (_ & _ & _ & _ & Hstrong & Hweak & _).
  intros t. cbv zeta.
  set (qs := DailyMcqController.questionsOf st (DailyMCQ.id mcq)) in *.
  set (l := Props.answerList body) in *.
  assert (Hnd : NoDup (fst <$> DailyMcqController.topicResults
                                 (DailyMcqController.gradeAll l qs))).
  { apply mcq_foldl_topics_NoDup. simpl. constructor. }
  pose proof (mcq_foldl_topics l t qs
                (DailyMcqController.mkCounters 0 0 0 [] [])) as Hassoc.
  fold (DailyMcqController.gradeAll l qs) in Hassoc.
  assert (Hs : t ∈ MCQAttempt.strongTopics a
               ↔ (t ∉ objectPrototype)
                 ∧ 0 < Z.of_nat (length (Props.ofCategory t qs))
                 ∧ 7 * Z.of_nat (length (Props.ofCategory t qs))
                   <= 10 * Z.of_nat (length (Props.answeredRight l
                                               (Props.ofCategory t qs)))).
  { rewrite Hstrong. unfold DailyMcqController.strongTopicsOf.
    rewrite elem_of_filtered_entries.
    rewrite (elem_of_filtered_keys _ t _ Hnd), Hassoc.
    unfold inherited. case_bool_decide as Hin.
    { simpl. split; [by intros (v & [=] & _)|]. by intros [? _]. }
    assert (Hdrop : ∀ X : Prop, X ↔ (t ∉ objectPrototype) ∧ X) by tauto.
    rewrite <- Hdrop. clear Hdrop.
    destruct (Props.ofCategory t qs) as [|q qt] eqn:Hqt.
    - simpl. split; [by intros (v & [=] & _)|]. intros [? _]. lia.
    - cbv beta iota zeta. simpl default.
      unfold DailyMcqController.correct at 1, DailyMcqController.total at 1.
      rewrite !Z.add_0_l.
      set (n := Z.of_nat (length (q :: qt))).
      set (c := Z.of_nat (length (Props.answeredRight l (q :: qt)))).
      clearbody n c. split.
      + intros (v & [= <-] & Hv).
        cbn [snd DailyMcqController.total DailyMcqController.correct
             DailyMcqController.ratio] in Hv.
        apply andb_true_iff in Hv as [Hpos Hratio].
        apply Z.ltb_lt in Hpos. apply ratio_strong in Hratio; [|exact Hpos].
        split; [exact Hpos|exact Hratio].
      + intros [Hpos Hratio]. eexists. split; [reflexivity|].
        cbn [snd DailyMcqController.total DailyMcqController.correct
             DailyMcqController.ratio].
        apply andb_true_iff. split; [by apply Z.ltb_lt|].
        by apply ratio_strong. }
  assert (Hw : t ∈ MCQAttempt.weakTopics a
               ↔ (t ∉ objectPrototype)
                 ∧ 0 < Z.of_nat (length (Props.ofCategory t qs))
                 ∧ 2 * Z.of_nat (length (Props.answeredRight l
                                           (Props.ofCategory t qs)))
                   < Z.of_nat (length (Props.ofCategory t qs))).
  { rewrite Hweak. unfold DailyMcqController.weakTopicsOf.
    rewrite elem_of_filtered_entries.
    rewrite (elem_of_filtered_keys _ t _ Hnd), Hassoc.
    unfold inherited. case_bool_decide as Hin.
    { simpl. split; [by intros (v & [=] & _)|]. by intros [? _]. }
    assert (Hdrop : ∀ X : Prop, X ↔ (t ∉ objectPrototype) ∧ X) by tauto.
    rewrite <- Hdrop. clear Hdrop.
    destruct (Props.ofCategory t qs) as [|q qt] eqn:Hqt.
    - simpl. split; [by intros (v & [=] & _)|]. intros [? _]. lia.
    - cbv beta iota zeta. simpl default.
      unfold DailyMcqController.correct at 1, DailyMcqController.total at 1.
      rewrite !Z.add_0_l.
      set (n := Z.of_nat (length (q :: qt))).
      set (c := Z.of_nat (length (Props.answeredRight l (q :: qt)))).
      clearbody n c. split.
      + intros (v & [= <-] & Hv).
        cbn [snd DailyMcqController.total DailyMcqController.correct
             DailyMcqController.ratio] in Hv.
        apply andb_true_iff in Hv as [Hpos Hratio].
        apply Z.ltb_lt in Hpos. apply ratio_weak in Hratio; [|exact Hpos].
        split; [exact Hpos|exact Hratio].
      + intros [Hpos Hratio]. eexists. split; [reflexivity|].
        cbn [snd DailyMcqController.total DailyMcqController.correct
             DailyMcqController.ratio].
        apply andb_true_iff. split; [by apply Z.ltb_lt|].
        by apply ratio_weak. }
  split; [exact Hs|]. split; [exact Hw|].
  rewrite Hs, Hw. lia.
Qed.

Lemma submitMCQ_topics_witness :
  ∃ mcq a,
    DailyMcqController.findMcq Sample.seeded (getToday Sample.noon) = Some mcq
    ∧ DailyMcqController.findAttempt
        (fst (DailyMcqController.submitMCQ Sample.seeded Sample.noon "u1"
                Sample.mcqBody)) "u1" (DailyMCQ.id mcq) = Some a
    ∧ ∀ t,
        let qt :=
          Props.ofCategory t
            (DailyMcqController.questionsOf Sample.seeded (DailyMCQ.id mcq)) in
        let right :=
          Z.of_nat (length (Props.answeredRight
                              (Props.answerList Sample.mcqBody) qt)) in
        let total := Z.of_nat (length qt) in
        (t ∈ MCQAttempt.strongTopics a
         ↔ (t ∉ objectPrototype) ∧ 0 < total ∧ 7 * total <= 10 * right)
        ∧ (t ∈ MCQAttempt.weakTopics a
           ↔ (t ∉ objectPrototype) ∧ 0 < total ∧ 2 * right < total)
        ∧ ¬ (t ∈ MCQAttempt.strongTopics a ∧ t ∈ MCQAttempt.weakTopics a).
Proof.
  apply (submitMCQ_topics Sample.seeded Sample.noon "u1" Sample.mcqBody).
  vm_compute. reflexivity.
Defined.

Section McqReview.

Import DailyMcqController.

(** The response that one turn of the loop of [submitMCQ] records. *)
Lemma mcq_foldl_data (l : list Answer) (qs : list MCQQuestion.t)
    (acc : counters) :
  ∃ ds,
    responseData (foldl (grade l) acc qs) = responseData acc ++ ds
    ∧ Forall2
        (fun q d =>
           r_questionId d = MCQQuestion.id q
           ∧ r_selectedOption d = Props.selectedFor l q
           ∧ r_isCorrect d
             = (fun s => String.eqb s (MCQQuestion.correctOption q))
                 <$> Props.selectedFor l q)
        qs ds.
Proof.
  revert acc. induction qs as [|q qs IH]; intros acc.
  { exists []. split; [by rewrite app_nil_r|constructor]. }
  simpl foldl. destruct (IH (grade l acc q)) as (ds & -> & Hds).
  assert (Hq : ∃ d, responseData (grade l acc q) = responseData acc ++ [d]
                    ∧ r_questionId d = MCQQuestion.id q
                    ∧ r_selectedOption d = Props.selectedFor l q
                    ∧ r_isCorrect d
                      = (fun s => String.eqb s (MCQQuestion.correctOption q))
                          <$> Props.selectedFor l q).
  { unfold Props.selectedFor, grade, or_null, truthy_str.
    destruct (findAnswer l (MCQQuestion.id q)) as [a|]; simpl;
      [|eexists; split; [reflexivity|]; by repeat split].
    destruct (selectedOption a) as [s|]; simpl;
      [|eexists; split; [reflexivity|]; by repeat split].
    destruct (String.eqb_spec s "") as [->|Hs]; simpl;
      [eexists; split; [reflexivity|]; by repeat split|].
    destruct (String.eqb s (MCQQuestion.correctOption q)) eqn:Hc;
      (eexists; split; [reflexivity|]; simpl; by rewrite ?Hc). }
  destruct Hq as (d & -> & Hd). exists (d :: ds).
  split; [by rewrite <- app_assoc|]. by constructor.
Qed.

(** Saving a response leaves the rows of its question with its option
    and its verdict. *)
Lemma upsertResponse_saves (attemptId : string) (d : responseDatum)
    (s : State) :
  Props.saved attemptId d (mcqResponses (upsertResponse attemptId s d)).
Proof.
  unfold upsertResponse, Props.saved.
  destruct (find _ (mcqResponses s)) as [r0|] eqn:Hfind; simpl.
  - apply find_some in Hfind as [Hin Hkey]. split.
    + eexists. split.
      * unfold updateWhere. apply in_map_iff. exists r0. split; [|exact Hin].
        rewrite Hkey. reflexivity.
      * exact Hkey.
    + intros r Hr Hk. unfold updateWhere in Hr.
      apply in_map_iff in Hr as (x & <- & Hx).
      destruct (hasResponseKey attemptId (r_questionId d) x) eqn:Hkx.
      * by split.
      * congruence.
  - split.
    + eexists. split; [apply in_or_app; right; by left|].
      unfold hasResponseKey. simpl. by rewrite !String.eqb_refl.
    + intros r Hr Hk. apply in_app_or in Hr as [Hr|[<-|[]]]; [|by split].
      by rewrite (find_none _ _ Hfind r Hr) in Hk.
Qed.

(** Saving the response to another question does not touch them. *)
Lemma upsertResponse_keeps (attemptId : string) (d d' : responseDatum)
    (s : State) :
  r_questionId d' ≠ r_questionId d →
  Props.saved attemptId d (mcqResponses s) →
  Props.saved attemptId d (mcqResponses (upsertResponse attemptId s d')).
Proof.
  intros Hne [(r0 & Hin0 & Hkey0) Hall].
  assert (Hother : ∀ x, hasResponseKey attemptId (r_questionId d) x = true →
                        hasResponseKey attemptId (r_questionId d') x = false).
  { intros x Hx. unfold hasResponseKey in *.
    apply andb_true_iff in Hx as [_ Hq]. apply String.eqb_eq in Hq.
    apply andb_false_iff. right. apply String.eqb_neq. congruence. }
  unfold upsertResponse, Props.saved.
  destruct (find _ (mcqResponses s)) as [r1|] eqn:Hfind; simpl.
  - split.
    + exists r0. split; [|exact Hkey0].
      unfold updateWhere. apply in_map_iff. exists r0. split; [|exact Hin0].
      by rewrite (Hother r0 Hkey0).
    + intros r Hr Hk. unfold updateWhere in Hr.
      apply in_map_iff in Hr as (x & <- & Hx).
      destruct (hasResponseKey attemptId (r_questionId d') x) eqn:Hkx.
      * exfalso. unfold hasResponseKey in Hk, Hkx. simpl in Hk.
        apply andb_true_iff in Hk as [_ Hk]. apply String.eqb_eq in Hk.
        apply andb_true_iff in Hkx as [_ Hkx]. apply String.eqb_eq in Hkx.
        congruence.
      * by apply Hall.
  - split.
    + exists r0. split; [apply in_or_app; by left|exact Hkey0].
    + intros r Hr Hk. apply in_app_or in Hr as [Hr|[<-|[]]]; [by apply Hall|].
      exfalso. unfold hasResponseKey in Hk. simpl in Hk.
      apply andb_true_iff in Hk as [_ Hk]. apply String.eqb_eq in Hk.
      congruence.
Qed.

Lemma upsertResponses_keep (attemptId : string) (d : responseDatum)
    (ds : list responseDatum) (s : State) :
  r_questionId d ∉ r_questionId <$> ds →
  Props.saved attemptId d (mcqResponses s) →
  Props.saved attemptId d
    (mcqResponses (foldl (upsertResponse attemptId) s ds)).
Proof.
  revert s. induction ds as [|d' ds IH]; intros s Hnot Hs; [exact Hs|].
  simpl. rewrite fmap_cons in Hnot. apply not_elem_of_cons in Hnot as [Hne Hnot].
  apply IH; [exact Hnot|]. apply upsertResponse_keeps; [congruence|exact Hs].
Qed.

(** After the loop that saves the responses, each of them is held by the
    rows of the attempt, when no two belong to the same question. *)
Lemma upsertResponses_save (attemptId : string) (d : responseDatum)
    (ds : list responseDatum) (s : State) :
  NoDup (r_questionId <$> ds) → d ∈ ds →
  Props.saved attemptId d
    (mcqResponses (foldl (upsertResponse attemptId) s ds)).
Proof.
  revert s. induction ds as [|d' ds IH]; intros s Hnd Hin.
  { by apply elem_of_nil in Hin. }
  rewrite fmap_cons in Hnd. apply NoDup_cons in Hnd as [Hfresh Hnd].
  simpl. apply elem_of_cons in Hin as [->|Hin].
  - apply upsertResponses_keep; [exact Hfresh|apply upsertResponse_saves].
  - by apply IH.
Qed.

(** The response that the review reads for a question. *)
Lemma responseFor_saved (s : State) (attemptId : string) (d : responseDatum) :
  Props.saved attemptId d (mcqResponses s) →
  ∃ r,
    DailyMcqQueries.responseFor (DailyMcqQueries.responsesOf s attemptId)
      (r_questionId d) = Some r
    ∧ MCQResponse.selectedOption r = r_selectedOption d
    ∧ MCQResponse.isCorrect r = r_isCorrect d.
Proof.
  intros [(r0 & Hin0 & Hkey0) Hall].
  unfold DailyMcqQueries.responseFor, DailyMcqQueries.responsesOf.
  destruct (find _ (reverse _)) as [r|] eqn:Hfind.
  - exists r. split; [reflexivity|].
    apply find_some in Hfind as [Hin Hq].
    rewrite <- list_elem_of_In, elem_of_reverse, list_elem_of_In in Hin.
    apply filter_In in Hin as [Hin Ha]. apply Hall; [exact Hin|].
    unfold hasResponseKey. by rewrite Ha, Hq.
  - exfalso. unfold hasResponseKey in Hkey0.
    apply andb_true_iff in Hkey0 as [Ha Hq].
    assert (Hin : In r0 (reverse (List.filter
                    (fun r => String.eqb (MCQResponse.attemptId r) attemptId)
                    (mcqResponses s)))).
    { rewrite <- list_elem_of_In, elem_of_reverse, list_elem_of_In.
      apply filter_In. by split. }
    by rewrite (find_none _ _ Hfind r0 Hin) in Hq.
Qed.

Lemma selectedFor_truthy (l : list Answer) (q : MCQQuestion.t) :
  or_null (Props.selectedFor l q) = Props.selectedFor l q.
Proof.
  unfold Props.selectedFor, or_null, truthy_str.
  destruct (findAnswer l (MCQQuestion.id q)) as [a|]; [|reflexivity].
  destruct (selectedOption a) as [s|]; [|reflexivity].
  destruct (String.eqb s "") eqn:Hs; [reflexivity|]. by rewrite Hs.
Qed.

Lemma orderBy_elem {A : Type} (key : A → Z) (l : list A) (x : A) :
  x ∈ orderBy key l → x ∈ l.
Proof.
  assert (Hins : ∀ y r, x ∈ insertBy key y r → x = y ∨ x ∈ r).
  { intros y r. induction r as [|z r IH]; simpl.
    - intros [->|[]%elem_of_nil]%elem_of_cons. by left.
    - destruct (key y <=? key z).
      + intros [->|H]%elem_of_cons; [by left|by right].
      + intros [->|H]%elem_of_cons; [right; by left|].
        destruct (IH H) as [->|Hr]; [by left|right; by right]. }
  induction l as [|y l IH]; simpl; [done|].
  intros H. apply Hins in H as [->|H]; [by left|right; auto].
Qed.

End McqReview.

(** X18: what the review shows after an accepted submission, the ids of
    the questions being unique.  Asked on that day on the store the
    submission leaves, [getTodayReview] answers the user with today's
    questions, each once, their numbers never decreasing, each with its
    correct option and explanation, the option the user selected in the
    submission (null when none was selected) and whether that option is
    the correct one. *)
Theorem getTodayReview_after_submit (st : State) (now later : Date)
    (userId : string) (body : DailyMcqController.SubmitBody)
    (mcq : DailyMCQ.t) :
  Spec.accepted (snd (DailyMcqController.submitMCQ st now userId body)) = true →
  DailyMcqController.findMcq st (getToday now) = Some mcq →
  NoDup (MCQQuestion.id <$> mcqQuestions st) →
  day later = day now →
  ∃ ordered,
    ordered ≡ₚ DailyMcqController.questionsOf st (DailyMCQ.id mcq)
    ∧ StronglySorted Z.le (MCQQuestion.questionNum <$> ordered)
    ∧ DailyMcqQueries.getTodayReview
        (fst (DailyMcqController.submitMCQ st now userId body)) later userId
      = ok (JObj
              [("status", JStr "success");
               ("data",
                JObj [("questions",
                       JArr (Props.reviewOf (Props.answerList body)
                               <$> ordered))])]).
Proof.
  intros Hacc Hmcq Hnd Hday.
  exists (orderBy MCQQuestion.questionNum
            (DailyMcqController.questionsOf st (DailyMCQ.id mcq))).
  split; [apply orderBy_Permutation|]. split; [apply orderBy_sorted|].
  destruct (submitMCQ_stored st now userId body Hacc)
    as (mcq' & a & Hmcq' & Hd & Hq & Ha & _ & _ & Hrows).
  rewrite Hmcq in Hmcq'. injection Hmcq' as <-.
  assert (Hlater : getToday later = getToday now).
  { unfold getToday, setHours0. by rewrite Hday. }
  unfold DailyMcqQueries.getTodayReview. rewrite Hlater.
  unfold DailyMcqController.findMcq in *. rewrite Hd, Hmcq, Ha.
  unfold DailyMcqController.questionsOf in *. rewrite Hq.
  set (qs := filter (fun q => MCQQuestion.dailyMcqId q = DailyMCQ.id mcq)
               (mcqQuestions st)) in *.
  set (l := Props.answerList body) in *.
  set (R := fst (DailyMcqController.submitMCQ st now userId body)) in *.
  assert (Hmap : ∀ ord : list MCQQuestion.t, (∀ q, q ∈ ord → q ∈ qs) →
            DailyMcqQueries.reviewQuestion
              (DailyMcqQueries.responsesOf R (MCQAttempt.id a)) <$> ord
            = Props.reviewOf l <$> ord);
    [|by rewrite Hmap by (intros q; apply orderBy_elem)].
  intros ord Hord. apply Forall_fmap_ext, Forall_forall. intros q Hin%Hord.
  clear ord Hord.
  unfold DailyMcqController.gradeAll in Hrows.
  destruct (mcq_foldl_data l qs (DailyMcqController.mkCounters 0 0 0 [] []))
    as (ds & Hds & Hall).
  simpl in Hds. rewrite Hds in Hrows. clear Hds.
  assert (Hids : DailyMcqController.r_questionId <$> ds = MCQQuestion.id <$> qs).
  { clear -Hall. induction Hall as [|q d qs ds (Hid & _) _ IH]; [reflexivity|].
    rewrite !fmap_cons. by f_equal. }
  assert (Hndqs : NoDup (MCQQuestion.id <$> qs)).
  { eapply sublist_NoDup; [exact Hnd|].
    apply fmap_sublist, sublist_filter. }
  assert (Hex : ∃ d, d ∈ ds
                     ∧ DailyMcqController.r_questionId d = MCQQuestion.id q
                     ∧ DailyMcqController.r_selectedOption d
                       = Props.selectedFor l q
                     ∧ DailyMcqController.r_isCorrect d
                       = (fun s => String.eqb s (MCQQuestion.correctOption q))
                           <$> Props.selectedFor l q).
  { clear -Hall Hin.
    induction Hall as [|q' d qs ds Hqd _ IH]; [by apply elem_of_nil in Hin|].
    apply elem_of_cons in Hin as [->|Hin].
    - exists d. split; [by left|exact Hqd].
    - destruct (IH Hin) as (d0 & Hd0 & H0). exists d0.
      split; [by right|exact H0]. }
  destruct Hex as (d & Hdin & Hid & Hsel & Hcor).
  assert (Hsaved : Props.saved (MCQAttempt.id a) d (mcqResponses R)).
  { rewrite Hrows. apply upsertResponses_save; [by rewrite Hids|exact Hdin]. }
  destruct (responseFor_saved R (MCQAttempt.id a) d Hsaved)
    as (r & Hr & Hrs & Hrc).
  rewrite Hid in Hr.
  unfold DailyMcqQueries.reviewQuestion, Props.reviewOf.
  rewrite Hr. simpl. rewrite Hrs, Hrc, Hsel, Hcor, selectedFor_truthy.
  destruct (Props.selectedFor l q) as [s|]; simpl; [|reflexivity].
  destruct (String.eqb_spec s (MCQQuestion.correctOption q)) as [->|Hne].
  - by rewrite bool_decide_eq_true_2.
  - rewrite bool_decide_eq_false_2; [reflexivity|congruence].
Qed.

Lemma getTodayReview_after_submit_witness :
  ∃ ordered,
    ordered ≡ₚ DailyMcqController.questionsOf Sample.seeded
                 (DailyMCQ.id Sample.mcq)
    ∧ StronglySorted Z.le (MCQQuestion.questionNum <$> ordered)
    ∧ DailyMcqQueries.getTodayReview
        (fst (DailyMcqController.submitMCQ Sample.seeded Sample.noon "u1"
                Sample.mcqBody)) (mkDate 20000 80000000) "u1"
      = ok (JObj
              [("status", JStr "success");
               ("data",
                JObj [("questions",
                       JArr (Props.reviewOf (Props.answerList Sample.mcqBody)
                               <$> ordered))])]).
Proof.
  apply (getTodayReview_after_submit Sample.seeded Sample.noon
           (mkDate 20000 80000000) "u1" Sample.mcqBody Sample.mcq).
  - vm_compute. reflexivity.
  - vm_compute. reflexivity.
  - simpl. apply NoDup_cons. split; [by intros [=]%list_elem_of_singleton|].
    apply NoDup_singleton.
  - reflexivity.
Defined.

(** ** The daily mains question: from the submission to the results *)

Section MainsStored.

Import DailyAnswerController.

Lemma find_updateWhere_by {A : Type} (p q : A → bool) (f : A → A)
    (l : list A) (e : A) :
  (∀ x, q (f x) = q x) → find q l = Some e → p e = true →
  find q (updateWhere p f l) = Some (f e).
Proof.
  intros Hq. unfold updateWhere.
  induction l as [|x l IH]; simpl; [discriminate|].
  destruct (q x) eqn:Hx.
  - intros [= ->] Hp. by rewrite Hp, Hq, Hx.
  - intros He Hp. destruct (p x); rewrite ?Hq, Hx; auto.
Qed.

(** What an accepted [submitTextAnswer] leaves in the store. *)
Lemma submitTextAnswer_stored (st : State) (now : Date) (userId : string)
    (f : textField) :
  Spec.accepted (snd (submitTextAnswer st now userId f)) = true →
  ∃ text question attempt e,
    f = TextStr text
    ∧ truthy_text text = true
    ∧ findQuestion st (getToday now) = Some question
    ∧ dailyMainsQuestions (fst (submitTextAnswer st now userId f))
      = dailyMainsQuestions st
    ∧ findAttempt (fst (submitTextAnswer st now userId f)) userId
        (DailyMainsQuestion.id question) = Some attempt
    ∧ MainsAttempt.wordCount attempt = Some (wordCountOf text)
    ∧ MainsAttempt.submittedAt attempt = Some now
    ∧ match findAttempt st userId (DailyMainsQuestion.id question) with
      | Some old =>
          mainsAttempts (fst (submitTextAnswer st now userId f))
          = updateWhere (hasKey userId (DailyMainsQuestion.id question))
              (withText text now) (mainsAttempts st)
          ∧ MainsAttempt.id attempt = MainsAttempt.id old
      | None =>
          mainsAttempts (fst (submitTextAnswer st now userId f))
          = mainsAttempts st ++ [attempt]
          ∧ MainsAttempt.id attempt = genId st
      end
    ∧ evaluationOf (fst (submitTextAnswer st now userId f))
        (MainsAttempt.id attempt) = Some e
    ∧ match evaluationOf st (MainsAttempt.id attempt) with
      | Some old => e = markEvaluating old
      | None =>
          MainsEvaluation.attemptId e = MainsAttempt.id attempt
          ∧ MainsEvaluation.score e = 0%Q
          ∧ MainsEvaluation.maxScore e = DailyMainsQuestion.marks question
          ∧ MainsEvaluation.status e = "evaluating"
          ∧ MainsEvaluation.strengths e = []
          ∧ MainsEvaluation.improvements e = []
          ∧ MainsEvaluation.suggestions e = []
          ∧ MainsEvaluation.detailedFeedback e = None
      end
    ∧ timers (fst (submitTextAnswer st now userId f))
      = timers st
        ++ [Timer.mk (MainsEvaluation.id e) (Some text)
              (DailyMainsQuestion.marks question)].
Proof.
  unfold submitTextAnswer.
  destruct f as [|text|[|]]; try discriminate.
  destruct (truthy_text text) eqn:Htruthy; [|discriminate]. simpl negb.
  rewrite orb_false_l.
  destruct (length (trim text) =? 0)%nat; [discriminate|].
  destruct (findQuestion st (getToday now)) as [question|] eqn:Hq;
    [|discriminate].
  intros _. exists text, question.
  assert (Hkey : ∀ a, hasKey userId (DailyMainsQuestion.id question)
                        (withText text now a)
                      = hasKey userId (DailyMainsQuestion.id question) a)
    by reflexivity.
  assert (Hev : ∀ x, String.eqb (MainsEvaluation.attemptId (markEvaluating x))
                       = String.eqb (MainsEvaluation.attemptId x))
    by reflexivity.
  unfold upsertAttempt.
  destruct (findAttempt st userId (DailyMainsQuestion.id question))
    as [old|] eqn:Hold.
  - cbv beta iota zeta. unfold startEvaluation.
    change (evaluationOf (set_mainsAttempts ?v st) ?i) with (evaluationOf st i).
    change (MainsAttempt.id (withText text now old)) with (MainsAttempt.id old).
    destruct (evaluationOf st (MainsAttempt.id old)) as [ev|] eqn:Hevo.
    + exists (withText text now old), (markEvaluating ev).
      cbn [fst]. unfold findAttempt, evaluationOf in *. simpl.
      rewrite Htruthy, find_updateWhere, Hold by exact Hkey.
      rewrite Hevo, find_updateWhere, Hevo by reflexivity.
      by repeat split.
    + eexists (withText text now old), _.
      cbn [fst]. unfold findAttempt, evaluationOf in *. simpl.
      rewrite Htruthy, find_updateWhere, Hold by exact Hkey.
      rewrite Hevo.
      rewrite find_snoc_fresh;
        [|by apply find_none_Forall|simpl; apply String.eqb_refl].
      by repeat split.
  - cbv beta iota zeta. unfold startEvaluation.
    match goal with
    | |- context [evaluationOf ?s (MainsAttempt.id ?a)] =>
        change (evaluationOf s (MainsAttempt.id a))
          with (evaluationOf st (genId st))
    end.
    destruct (evaluationOf st (genId st)) as [ev|] eqn:Hevo.
    + exists (MainsAttempt.mk (genId st) userId (DailyMainsQuestion.id question)
                 (Some text) None (Some (wordCountOf text)) (Some now)),
        (markEvaluating ev).
      cbn [fst]. unfold findAttempt, evaluationOf, genId in *. simpl.
      rewrite Htruthy.
      rewrite find_snoc_fresh;
        [|by apply find_none_Forall
         |unfold hasKey; simpl; by rewrite !String.eqb_refl].
      simpl. rewrite Hevo, find_updateWhere, Hevo by reflexivity.
      by repeat split.
    + eexists (MainsAttempt.mk (genId st) userId (DailyMainsQuestion.id question)
                 (Some text) None (Some (wordCountOf text)) (Some now)), _.
      cbn [fst]. unfold findAttempt, evaluationOf, genId in *. simpl.
      rewrite Htruthy.
      rewrite find_snoc_fresh;
        [|by apply find_none_Forall
         |unfold hasKey; simpl; by rewrite !String.eqb_refl].
      simpl. rewrite Hevo.
      rewrite find_snoc_fresh;
        [|by apply find_none_Forall|simpl; apply String.eqb_refl].
      by repeat split.
Qed.

End MainsStored.

Section MainsResults.

Import DailyAnswerController.

Lemma min_le_l (a b : Q) : (Js.min a b <= a)%Q.
Proof.
  unfold Js.min. destruct (Qle_bool a b) eqn:H; [apply Qle_refl|].
  apply Qnot_lt_le. intros Hlt. apply Qlt_le_weak, Qle_bool_iff in Hlt.
  congruence.
Qed.

Lemma min_ge (a b c : Q) : (c <= a)%Q → (c <= b)%Q → (c <= Js.min a b)%Q.
Proof. intros Ha Hb. unfold Js.min. by destruct (Qle_bool a b). Qed.

Lemma max_ge_l (a b : Q) : (a <= Js.max a b)%Q.
Proof.
  unfold Js.max. destruct (Qle_bool a b) eqn:H; [|apply Qle_refl].
  by apply Qle_bool_iff.
Qed.

(** The score of a typed answer is at most the marks of the question,
    and at least 3 when the question has 3 marks or more. *)
Lemma simulatedScore_typed (text : text) (marks : Z) (r : Q) :
  truthy_text text = true →
  (simulatedScore (Some text) marks r <= inject_Z marks)%Q
  ∧ (3 <= marks → (3 <= simulatedScore (Some text) marks r)%Q).
Proof.
  intros Htext. destruct text as [|c text]; [discriminate|].
  unfold simulatedScore. split.
  - apply min_le_l.
  - intros Hm. apply min_ge; [|apply max_ge_l].
    change 3%Q with (inject_Z 3). by rewrite <- Zle_Qle.
Qed.

(** Every text has at least one word for [split]. *)
Lemma wordCountOf_pos (text : text) : 1 <= wordCountOf text.
Proof.
  unfold wordCountOf, splitSpaces.
  assert (H : ∀ s cur inSep, (1 <= length (splitFrom cur inSep s))%nat).
  { induction s as [|c s IH]; intros cur inSep; simpl; [lia|].
    destruct (isSpace c); [destruct inSep|]; simpl; auto with lia. }
  specialize (H (trim text) [] false). lia.
Qed.

Lemma getToday_same_day (a b : Date) : day a = day b → getToday a = getToday b.
Proof. intros H. unfold getToday, setHours0. by rewrite H. Qed.

End MainsResults.

(** X19: from a typed answer to its results.  After an accepted
    [submitTextAnswer], when the callback that the submission armed has
    run, [getTodayResults], asked on the day of the submission on the
    store that the callback leaves, sends the user a score that is at
    most the marks of the question (and at least 3 when the question has
    3 marks or more), whatever [Math.random] gave, the three lists and
    the feedback of the evaluation, the number of words (at least one)
    and the time of the submission; [getEvaluationStatus] reports the
    evaluation as complete; and the timer is no longer armed. *)
Theorem mains_results_after_evaluation (st : State) (now fired later : Date)
    (userId : string) (f : DailyAnswerController.textField) (r : Q) :
  Spec.accepted (snd (DailyAnswerController.submitTextAnswer st now userId f))
  = true →
  day later = day now →
  let st1 := fst (DailyAnswerController.submitTextAnswer st now userId f) in
  let st2 := DailyAnswerController.fireTimer st1 (length (timers st)) fired r in
  ∃ question res words,
    DailyAnswerController.findQuestion st (getToday now) = Some question
    ∧ DailyAnswerQueries.getTodayResults st2 later userId = Data res
    ∧ (DailyAnswerQueries.score res
       <= inject_Z (DailyMainsQuestion.marks question))%Q
    ∧ (3 <= DailyMainsQuestion.marks question →
       (3 <= DailyAnswerQueries.score res)%Q)
    ∧ DailyAnswerQueries.strengths res = DailyAnswerController.strengthsText
    ∧ DailyAnswerQueries.improvements res
      = DailyAnswerController.improvementsText
    ∧ DailyAnswerQueries.suggestions res
      = DailyAnswerController.suggestionsText
    ∧ DailyAnswerQueries.detailedFeedback res
      = Some DailyAnswerController.feedbackText
    ∧ DailyAnswerQueries.wordCount res = Some words ∧ 1 <= words
    ∧ DailyAnswerQueries.submittedAt res = Some now
    ∧ Props.dataField "isComplete"
        (DailyAnswerController.getEvaluationStatus st2 later userId)
      = Some (JBool true)
    ∧ timers st2 = timers st.
Proof.
  intros Hacc Hday st1 st2.
  destruct (submitTextAnswer_stored st now userId f Hacc)
    as (text & question & attempt & e & -> & Htext & Hq & Hqs & Ha & Hwords
        & Hat & _ & He & _ & Htimers).
  fold st1 in Hqs, Ha, He, Htimers.
  exists question.
  assert (Hlookup : timers st1 !! length (timers st)
                    = Some (Timer.mk (MainsEvaluation.id e) (Some text)
                              (DailyMainsQuestion.marks question))).
  { rewrite Htimers. apply list_lookup_middle. reflexivity. }
  set (score := DailyAnswerController.simulatedScore (Some text)
                  (DailyMainsQuestion.marks question) r).
  assert (Hst2 : dailyMainsQuestions st2 = dailyMainsQuestions st
                 ∧ mainsAttempts st2 = mainsAttempts st1
                 ∧ mainsEvaluations st2
                   = updateWhere
                       (fun x => String.eqb (MainsEvaluation.id x)
                                   (MainsEvaluation.id e))
                       (DailyAnswerController.markCompleted score fired)
                       (mainsEvaluations st1)
                 ∧ timers st2 = timers st).
  { unfold st2, DailyAnswerController.fireTimer. rewrite Hlookup.
    unfold DailyAnswerController.evaluationCallback. simpl.
    split; [exact Hqs|]. split; [reflexivity|]. split; [reflexivity|].
    rewrite Htimers. rewrite delete_middle. apply app_nil_r. }
  destruct Hst2 as (Hqs2 & Hat2 & Hev2 & Htm2).
  assert (Hfind : DailyAnswerController.evaluationOf st2 (MainsAttempt.id attempt)
                  = Some (DailyAnswerController.markCompleted score fired e)).
  { unfold DailyAnswerController.evaluationOf in *. rewrite Hev2.
    apply find_updateWhere_by; [reflexivity|exact He|apply String.eqb_refl]. }
  clearbody st2.
  unfold DailyAnswerQueries.getTodayResults,
    DailyAnswerController.getEvaluationStatus.
  rewrite (getToday_same_day later now Hday).
  unfold DailyAnswerController.findQuestion,
    DailyAnswerController.findAttempt in *.
  rewrite Hqs2, Hq, Hat2, Ha, Hfind.
  eexists. exists (DailyAnswerController.wordCountOf text).
  split; [reflexivity|]. split; [reflexivity|]. simpl.
  destruct (simulatedScore_typed text (DailyMainsQuestion.marks question) r Htext)
    as [Hle Hge].
  split; [exact Hle|]. split; [exact Hge|].
  repeat (split; [reflexivity|]).
  split; [exact Hwords|]. split; [apply wordCountOf_pos|].
  split; [exact Hat|]. split; [reflexivity|exact Htm2].
Qed.

Lemma mains_results_after_evaluation_witness :
  let st1 :=
    fst (DailyAnswerController.submitTextAnswer Sample.seeded Sample.noon "u1"
           (DailyAnswerController.TextStr (units "A first answer"))) in
  let st2 :=
    DailyAnswerController.fireTimer st1 (length (timers Sample.seeded))
      Sample.noon 0.5 in
  ∃ question res words,
    DailyAnswerController.findQuestion Sample.seeded (getToday Sample.noon)
    = Some question
    ∧ DailyAnswerQueries.getTodayResults st2 Sample.noon "u1" = Data res
    ∧ (DailyAnswerQueries.score res
       <= inject_Z (DailyMainsQuestion.marks question))%Q
    ∧ (3 <= DailyMainsQuestion.marks question →
       (3 <= DailyAnswerQueries.score res)%Q)
    ∧ DailyAnswerQueries.strengths res = DailyAnswerController.strengthsText
    ∧ DailyAnswerQueries.improvements res
      = DailyAnswerController.improvementsText
    ∧ DailyAnswerQueries.suggestions res
      = DailyAnswerController.suggestionsText
    ∧ DailyAnswerQueries.detailedFeedback res
      = Some DailyAnswerController.feedbackText
    ∧ DailyAnswerQueries.wordCount res = Some words ∧ 1 <= words
    ∧ DailyAnswerQueries.submittedAt res = Some Sample.noon
    ∧ Props.dataField "isComplete"
        (DailyAnswerController.getEvaluationStatus st2 Sample.noon "u1")
      = Some (JBool true)
    ∧ timers st2 = timers Sample.seeded.
Proof.
  apply (mains_results_after_evaluation Sample.seeded Sample.noon Sample.noon
           Sample.noon "u1" (DailyAnswerController.TextStr (units "A first answer"))
           0.5).
  - vm_compute. reflexivity.
  - reflexivity.
Defined.

(** X20: the results are served before the evaluation has run.  After
    the first submission of a user to today's question (the id given to
    the new attempt being unused), and until the callback runs,
    [getTodayResults] answers with 200 and a score of 0 out of the marks
    of the question, with empty lists and no feedback, while
    [getEvaluationStatus] reports the evaluation as evaluating and not
    complete. *)
Theorem mains_results_before_evaluation (st : State) (now later : Date)
    (userId : string) (f : DailyAnswerController.textField)
    (question : DailyMainsQuestion.t) :
  Spec.accepted (snd (DailyAnswerController.submitTextAnswer st now userId f))
  = true →
  day later = day now →
  DailyAnswerController.findQuestion st (getToday now) = Some question →
  DailyAnswerController.findAttempt st userId (DailyMainsQuestion.id question)
  = None →
  DailyAnswerController.evaluationOf st (genId st) = None →
  let st1 := fst (DailyAnswerController.submitTextAnswer st now userId f) in
  ∃ res,
    DailyAnswerQueries.getTodayResults st1 later userId = Data res
    ∧ DailyAnswerQueries.score res = 0%Q
    ∧ DailyAnswerQueries.maxScore res = DailyMainsQuestion.marks question
    ∧ DailyAnswerQueries.strengths res = []
    ∧ DailyAnswerQueries.improvements res = []
    ∧ DailyAnswerQueries.suggestions res = []
    ∧ DailyAnswerQueries.detailedFeedback res = None
    ∧ DailyAnswerQueries.submittedAt res = Some now
    ∧ Props.dataField "evaluationStatus"
        (DailyAnswerController.getEvaluationStatus st1 later userId)
      = Some (JStr "evaluating")
    ∧ Props.dataField "isComplete"
        (DailyAnswerController.getEvaluationStatus st1 later userId)
      = Some (JBool false).
Proof.
  intros Hacc Hday Hq Hnone Hfresh st1.
  destruct (submitTextAnswer_stored st now userId f Hacc)
    as (text & question' & attempt & e & -> & Htext & Hq' & Hqs & Ha & Hwords
        & Hat & Hrows & He & Hnew & Htimers).
  rewrite Hq in Hq'. injection Hq' as <-.
  rewrite Hnone in Hrows. destruct Hrows as [_ Hid].
  rewrite Hid, Hfresh in Hnew.
  destruct Hnew as (_ & Hscore & Hmax & Hstatus & Hs & Hi & Hsu & Hfb).
  fold st1 in Hqs, Ha, He. clearbody st1.
  unfold DailyAnswerQueries.getTodayResults,
    DailyAnswerController.getEvaluationStatus.
  rewrite (getToday_same_day later now Hday).
  unfold DailyAnswerController.findQuestion,
    DailyAnswerController.findAttempt in *.
  rewrite Hqs, Hq, Ha, He.
  eexists. split; [reflexivity|]. simpl.
  unfold DailyAnswerController.reportedStatus,
    DailyAnswerController.reportedComplete.
  simpl. rewrite Hstatus. by repeat split.
Qed.

Lemma mains_results_before_evaluation_witness :
  let st1 :=
    fst (DailyAnswerController.submitTextAnswer Sample.seeded Sample.noon "u1"
           (DailyAnswerController.TextStr (units "A first answer"))) in
  ∃ res,
    DailyAnswerQueries.getTodayResults st1 Sample.noon "u1" = Data res
    ∧ DailyAnswerQueries.score res = 0%Q
    ∧ DailyAnswerQueries.maxScore res = DailyMainsQuestion.marks Sample.mains
    ∧ DailyAnswerQueries.strengths res = []
    ∧ DailyAnswerQueries.improvements res = []
    ∧ DailyAnswerQueries.suggestions res = []
    ∧ DailyAnswerQueries.detailedFeedback res = None
    ∧ DailyAnswerQueries.submittedAt res = Some Sample.noon
    ∧ Props.dataField "evaluationStatus"
        (DailyAnswerController.getEvaluationStatus st1 Sample.noon "u1")
      = Some (JStr "evaluating")
    ∧ Props.dataField "isComplete"
        (DailyAnswerController.getEvaluationStatus st1 Sample.noon "u1")
      = Some (JBool false).
Proof.
  apply (mains_results_before_evaluation Sample.seeded Sample.noon Sample.noon
           "u1" (DailyAnswerController.TextStr (units "A first answer")) Sample.mains).
  - vm_compute. reflexivity.
  - reflexivity.
  - vm_compute. reflexivity.
  - vm_compute. reflexivity.
  - vm_compute. reflexivity.
Defined.

Lemma filter_updateWhere_length {A : Type} (p q : A → bool) (f : A → A)
    (l : list A) :
  (∀ x, q (f x) = q x) →
  length (List.filter q (updateWhere p f l)) = length (List.filter q l).
Proof.
  intros Hq. unfold updateWhere. induction l as [|x l IH]; [reflexivity|].
  rewrite fmap_cons. cbn [List.filter].
  destruct (p x); rewrite ?Hq; destruct (q x); cbn [length]; by rewrite IH.
Qed.

(** X21: a user counts once among the attempts of a question.  After an
    accepted [submitTextAnswer], [getTodayQuestion] tells the user that
    the question is attempted, and tells everyone a number of attempts
    that is one more than before when the user had no attempt for the
    question, and the same as before when the user had one. *)
Theorem mains_attempt_counted_once (st : State) (now later : Date)
    (userId : string) (f : DailyAnswerController.textField)
    (who : option string) :
  Spec.accepted (snd (DailyAnswerController.submitTextAnswer st now userId f))
  = true →
  day later = day now →
  let st1 := fst (DailyAnswerController.submitTextAnswer st now userId f) in
  ∃ question,
    DailyAnswerController.findQuestion st (getToday now) = Some question
    ∧ Props.dataField "attempted"
        (DailyAnswerQueries.getTodayQuestion st1 later (Some userId))
      = Some (JBool true)
    ∧ Props.dataField "attemptCount"
        (DailyAnswerQueries.getTodayQuestion st1 later who)
      = Some (JInt
                (DailyAnswerQueries.attemptCount st
                   (DailyMainsQuestion.id question)
                 + match DailyAnswerController.findAttempt st userId
                           (DailyMainsQuestion.id question) with
                   | Some _ => 0
                   | None => 1
                   end)).
Proof.
  intros Hacc Hday st1.
  destruct (submitTextAnswer_stored st now userId f Hacc)
    as (text & question & attempt & e & -> & Htext & Hq & Hqs & Ha & Hwords
        & Hat & Hrows & _).
  fold st1 in Hqs, Ha, Hrows. clearbody st1.
  exists question. split; [exact Hq|].
  assert (Hcount : DailyAnswerQueries.attemptCount st1
                     (DailyMainsQuestion.id question)
                   = DailyAnswerQueries.attemptCount st
                       (DailyMainsQuestion.id question)
                     + match DailyAnswerController.findAttempt st userId
                               (DailyMainsQuestion.id question) with
                       | Some _ => 0
                       | None => 1
                       end).
  { unfold DailyAnswerQueries.attemptCount.
    destruct (DailyAnswerController.findAttempt st userId
                (DailyMainsQuestion.id question)) as [old|].
    - destruct Hrows as [-> _].
      rewrite filter_updateWhere_length by reflexivity. lia.
    - destruct Hrows as [-> _]. rewrite List.filter_app, length_app. simpl.
      unfold DailyAnswerController.findAttempt in Ha.
      apply find_some in Ha as [_ Hkey].
      unfold DailyAnswerController.hasKey in Hkey.
      apply andb_true_iff in Hkey as [_ ->]. simpl. lia. }
  unfold DailyAnswerQueries.getTodayQuestion.
  rewrite (getToday_same_day later now Hday).
  unfold DailyAnswerController.findQuestion in *. rewrite Hqs, Hq.
  rewrite Ha, Hcount. split.
  - simpl. by rewrite Hat.
  - reflexivity.
Qed.

Lemma mains_attempt_counted_once_witness :
  let st1 :=
    fst (DailyAnswerController.submitTextAnswer Sample.seeded Sample.noon "u1"
           (DailyAnswerController.TextStr (units "A first answer"))) in
  ∃ question,
    DailyAnswerController.findQuestion Sample.seeded (getToday Sample.noon)
    = Some question
    ∧ Props.dataField "attempted"
        (DailyAnswerQueries.getTodayQuestion st1 Sample.noon (Some "u1"))
      = Some (JBool true)
    ∧ Props.dataField "attemptCount"
        (DailyAnswerQueries.getTodayQuestion st1 Sample.noon None)
      = Some (JInt
                (DailyAnswerQueries.attemptCount Sample.seeded
                   (DailyMainsQuestion.id question)
                 + match DailyAnswerController.findAttempt Sample.seeded "u1"
                           (DailyMainsQuestion.id question) with
                   | Some _ => 0
                   | None => 1
                   end)).
Proof.
  apply (mains_attempt_counted_once Sample.seeded Sample.noon Sample.noon "u1"
           (DailyAnswerController.TextStr (units "A first answer")) None).
  - vm_compute. reflexivity.
  - reflexivity.
Defined.

(** ** Streaks, day by day *)

(** X22: [updateStreak] counts a day once.  Run again for the same user
    on the same day, at whatever time, it leaves the store as the first
    run left it. *)
Theorem updateStreak_once_a_day (st : State) (now later : Date)
    (userId : string) :
  day later = day now →
  DailyMcqController.updateStreak
    (DailyMcqController.updateStreak st now userId) later userId
  = DailyMcqController.updateStreak st now userId.
Proof.
  intros Hday.
  destruct (updateStreak_rows st now userId) as [(r & Hr & Hlast & _) _].
  set (st1 := DailyMcqController.updateStreak st now userId) in *.
  clearbody st1. unfold DailyMcqController.updateStreak. rewrite Hr.
  destruct (UserStreak.lastActiveDate r) as [d|]; [|discriminate].
  simpl in *. injection Hlast as Hd.
  rewrite sameTime_midnights, Hd, Hday, Z.eqb_refl. reflexivity.
Qed.

Lemma updateStreak_once_a_day_witness :
  DailyMcqController.updateStreak
    (DailyMcqController.updateStreak More.activeWeek Sample.noon "u1")
    (mkDate 20000 80000000) "u1"
  = DailyMcqController.updateStreak More.activeWeek Sample.noon "u1".
Proof.
  apply (updateStreak_once_a_day More.activeWeek Sample.noon
           (mkDate 20000 80000000) "u1").
  reflexivity.
Defined.

Section StudyStreakRows.

Import StudyPlannerController.

(** What [updateStudyStreak] leaves in the row of its user. *)
Lemma updateStudyStreak_rows (st : State) (now : Date) (userId : string) :
  ∃ r,
    findStreak (updateStudyStreak st now userId) userId = Some r
    ∧ day <$> StudyStreak.lastStudyDate r = Some (day now)
    ∧ match findStreak st userId with
      | None => StudyStreak.totalStudyDays r = 1
      | Some old =>
          StudyStreak.totalStudyDays r
          = StudyStreak.totalStudyDays old
            + (if bool_decide (day <$> StudyStreak.lastStudyDate old
                               = Some (day now)) then 0 else 1)
          ∧ StudyStreak.longestStreak old <= StudyStreak.longestStreak r
      end.
Proof.
  unfold updateStudyStreak.
  destruct (findStreak st userId) as [s|] eqn:Hs.
  - assert (Hupd : ∀ a b c,
              find (fun s => String.eqb (StudyStreak.userId s) userId)
                (updateWhere (fun s => String.eqb (StudyStreak.userId s) userId)
                   (fun s =>
                      StudyStreak.mk (StudyStreak.userId s) a b c
                        (Some (getToday now)))
                   (studyStreaks st))
              = Some (StudyStreak.mk (StudyStreak.userId s) a b c
                        (Some (getToday now)))).
    { intros a b c. unfold findStreak in Hs.
      by rewrite find_updateWhere, Hs by reflexivity. }
    case_bool_decide as Hb.
    + destruct (StudyStreak.lastStudyDate s) as [d|] eqn:Hd; [|discriminate].
      simpl in Hb. injection Hb as Hday. simpl.
      unfold getToday. rewrite sameTime_midnights, Hday, Z.eqb_refl.
      exists s. rewrite Hs, Hd. simpl. rewrite Hday. split; [reflexivity|].
      split; [reflexivity|]. lia.
    + assert (Hnot : match setHours0 <$> StudyStreak.lastStudyDate s with
                     | Some d => sameTime d (getToday now)
                     | None => false
                     end = false).
      { destruct (StudyStreak.lastStudyDate s) as [d|]; [|reflexivity].
        simpl. unfold getToday. rewrite sameTime_midnights.
        apply Z.eqb_neq. intros Hday. apply Hb. simpl. by rewrite Hday. }
      cbv zeta. rewrite Hnot. unfold findStreak. cbn [studyStreaks set_studyStreaks].
      match goal with
      | |- context [StudyStreak.mk _ ?a ?b ?c _] => rewrite (Hupd a b c)
      end.
      eexists. split; [reflexivity|]. split; [reflexivity|]. simpl. lia.
  - unfold findStreak in *. simpl.
    rewrite find_snoc_fresh;
      [|by apply find_none_Forall|simpl; apply String.eqb_refl].
    eexists. split; [reflexivity|]. simpl. by split.
Qed.

End StudyStreakRows.

(** X23: [updateStudyStreak] counts the days of study.  Its first run of
    a day leaves a row for the user whose last day of study is that day
    and whose [totalStudyDays] is 1 for a new row, the former total plus
    one for a row with another last day, and the former total for a row
    whose last day is already that day; the longest streak is not
    lowered; and a further run on the same day changes nothing. *)
Theorem updateStudyStreak_counts_days (st : State) (now later : Date)
    (userId : string) :
  day later = day now →
  (∃ r,
     StudyPlannerController.findStreak
       (StudyPlannerController.updateStudyStreak st now userId) userId = Some r
     ∧ day <$> StudyStreak.lastStudyDate r = Some (day now)
     ∧ match StudyPlannerController.findStreak st userId with
       | None => StudyStreak.totalStudyDays r = 1
       | Some old =>
           StudyStreak.totalStudyDays r
           = StudyStreak.totalStudyDays old
             + (if bool_decide (day <$> StudyStreak.lastStudyDate old
                                = Some (day now)) then 0 else 1)
           ∧ StudyStreak.longestStreak old <= StudyStreak.longestStreak r
       end)
  ∧ StudyPlannerController.updateStudyStreak
      (StudyPlannerController.updateStudyStreak st now userId) later userId
    = StudyPlannerController.updateStudyStreak st now userId.
Proof.
  intros Hday. split; [apply updateStudyStreak_rows|].
  destruct (updateStudyStreak_rows st now userId) as (r & Hr & Hlast & _).
  set (st1 := StudyPlannerController.updateStudyStreak st now userId) in *.
  clearbody st1. unfold StudyPlannerController.updateStudyStreak. rewrite Hr.
  destruct (StudyStreak.lastStudyDate r) as [d|]; [|discriminate].
  simpl in *. injection Hlast as Hd.
  unfold getToday. rewrite sameTime_midnights, Hd, Hday, Z.eqb_refl.
  reflexivity.
Qed.

Lemma updateStudyStreak_counts_days_witness :
  (∃ r,
     StudyPlannerController.findStreak
       (StudyPlannerController.updateStudyStreak Sample.streaks Sample.noon
          "u1") "u1" = Some r
     ∧ day <$> StudyStreak.lastStudyDate r = Some (day Sample.noon)
     ∧ match StudyPlannerController.findStreak Sample.streaks "u1" with
       | None => StudyStreak.totalStudyDays r = 1
       | Some old =>
           StudyStreak.totalStudyDays r
           = StudyStreak.totalStudyDays old
             + (if bool_decide (day <$> StudyStreak.lastStudyDate old
                                = Some (day Sample.noon)) then 0 else 1)
           ∧ StudyStreak.longestStreak old <= StudyStreak.longestStreak r
       end)
  ∧ StudyPlannerController.updateStudyStreak
      (StudyPlannerController.updateStudyStreak Sample.streaks Sample.noon
         "u1") (mkDate 20000 80000000) "u1"
    = StudyPlannerController.updateStudyStreak Sample.streaks Sample.noon "u1".
Proof.
  apply (updateStudyStreak_counts_days Sample.streaks Sample.noon
           (mkDate 20000 80000000) "u1").
  reflexivity.
Defined.

(** X24: the streak rows are created lazily and once.  [getStreak] and
    [getStudyStreak] answer a user who has no row with a new row at
    zero, and a user who has a row with that row, writing nothing; so a
    second call returns what the first returned and leaves the store as
    the first left it.  The first [updateStreak] after [getStreak] has
    created the row puts the streak of the user at 1. *)
Theorem streak_rows_created_once (st : State) (now : Date) (userId : string) :
  let first := DashboardController.getStreak st userId in
  let study := StudyPlannerController.getStudyStreak st userId in
  DashboardController.getStreak (fst first) userId = (fst first, snd first)
  ∧ StudyPlannerController.getStudyStreak (fst study) userId
    = (fst study, snd study)
  ∧ (DailyMcqController.findStreak st userId = None →
     snd first = UserStreak.mk userId 0 0 None (replicate 7 false)
     ∧ ∃ r,
         DailyMcqController.findStreak
           (DailyMcqController.updateStreak (fst first) now userId) userId
         = Some r
         ∧ UserStreak.currentStreak r = 1
         ∧ UserStreak.longestStreak r = 1)
  ∧ (∀ r, DailyMcqController.findStreak st userId = Some r →
          first = (st, r))
  ∧ (StudyPlannerController.findStreak st userId = None →
     snd study = StudyStreak.mk userId 0 0 0 None)
  ∧ (∀ r, StudyPlannerController.findStreak st userId = Some r →
          study = (st, r)).
Proof.
  cbv zeta. unfold DashboardController.getStreak,
    StudyPlannerController.getStudyStreak.
  split; [|split; [|split; [|split; [|split]]]].
  - destruct (DailyMcqController.findStreak st userId) as [r|] eqn:Hr; simpl.
    + by rewrite Hr.
    + unfold DailyMcqController.findStreak in *. simpl.
      rewrite find_snoc_fresh;
        [reflexivity|by apply find_none_Forall|simpl; apply String.eqb_refl].
  - destruct (StudyPlannerController.findStreak st userId) as [r|] eqn:Hr; simpl.
    + by rewrite Hr.
    + unfold StudyPlannerController.findStreak in *. simpl.
      rewrite find_snoc_fresh;
        [reflexivity|by apply find_none_Forall|simpl; apply String.eqb_refl].
  - intros Hnone. rewrite Hnone. simpl. split; [reflexivity|].
    unfold DailyMcqController.updateStreak, DailyMcqController.findStreak in *.
    simpl.
    rewrite find_snoc_fresh;
      [|by apply find_none_Forall|simpl; apply String.eqb_refl].
    simpl.
    rewrite find_updateWhere by reflexivity.
    rewrite find_snoc_fresh;
      [|by apply find_none_Forall|simpl; apply String.eqb_refl].
    eexists. split; [reflexivity|]. by split.
  - intros r ->. reflexivity.
  - intros ->. reflexivity.
  - intros r ->. reflexivity.
Qed.

(** ** The study planner *)

(** X25: the week of [getWeekStart] begins on Monday.  The date it
    returns is a Monday at midnight, the day of the call or one of the
    six days before it; the number of days between the two is the index
    that [updateStreak] marks in the week of a streak. *)
Theorem getWeekStart_is_monday (now : Date) :
  getDay (StudyPlannerTasks.getWeekStart now) = 1
  ∧ msec (StudyPlannerTasks.getWeekStart now) = 0
  ∧ day (StudyPlannerTasks.getWeekStart now) <= day now
  ∧ day now <= day (StudyPlannerTasks.getWeekStart now) + 6
  ∧ day now - day (StudyPlannerTasks.getWeekStart now)
    = Z.of_nat (Props.mondayIndex now).
Proof.
  unfold StudyPlannerTasks.getWeekStart, Props.mondayIndex, getDay. simpl.
  pose proof (Z.mod_pos_bound (day now + 4) 7 ltac:(lia)) as Hdow.
  pose proof (Z.div_mod (day now + 4) 7 ltac:(lia)) as Hdiv.
  set (dow := (day now + 4) mod 7) in *.
  set (w := (day now + 4) / 7) in *. clearbody dow w.
  assert (Hcases : dow = 0 ∨ dow = 1 ∨ dow = 2 ∨ dow = 3 ∨ dow = 4 ∨ dow = 5
                   ∨ dow = 6) by lia.
  assert (Hmonday : ∀ k, (7 * k + 1) mod 7 = 1).
  { intros k. rewrite Z.add_comm, Z.mul_comm, Z.mod_add by lia. reflexivity. }
  destruct Hcases as [->|[->|[->|[->|[->|[->| ->]]]]]]; simpl;
    (split;
     [match goal with
      | |- ?x mod 7 = 1 =>
          first [replace x with (7 * w + 1) by lia
                |replace x with (7 * (w - 1) + 1) by lia]
      end; apply Hmonday
     |split; [reflexivity|split; [lia|split; [lia|]]]]);
    vm_compute (Z.of_nat _); lia.
Qed.

Section WeeklyGoals.

Import StudyPlannerTasks.

Lemma orderBy_nil {A : Type} (key : A → Z) (l : list A) :
  orderBy key l = [] → l = [].
Proof.
  destruct l as [|x l]; [reflexivity|]. simpl.
  destruct (orderBy key l) as [|y r]; simpl; [discriminate|].
  destruct (key x <=? key y); discriminate.
Qed.

Lemma sameTime_refl (d : Date) : sameTime d d = true.
Proof. unfold sameTime. by rewrite !Z.eqb_refl. Qed.

End WeeklyGoals.

(** X26: the default goals of a week are created once.  [getWeeklyGoals]
    answers a user who has goals for the week with them, writing nothing;
    it answers a user who has none with four new goals, the defaults,
    added to the table for this user and this week; the tasks are never
    touched; and a further call in the same week returns what the first
    returned and writes nothing. *)
Theorem getWeeklyGoals_defaults_once (p : Planner) (now later : Date)
    (userId : string) :
  StudyPlannerTasks.getWeekStart later = StudyPlannerTasks.getWeekStart now →
  let week := StudyPlannerTasks.getWeekStart now in
  let first := StudyPlannerTasks.getWeeklyGoals p now userId in
  studyPlanTasks (fst first) = studyPlanTasks p
  ∧ (StudyPlannerTasks.goalsOf p userId week ≠ [] →
     first = (p, StudyPlannerTasks.goalsOf p userId week))
  ∧ (StudyPlannerTasks.goalsOf p userId week = [] →
     weeklyGoals (fst first) = weeklyGoals p ++ snd first
     ∧ (fun g => (WeeklyGoal.title g, WeeklyGoal.targetCount g)) <$> snd first
       = StudyPlannerTasks.defaultGoals
     ∧ Forall (fun g => WeeklyGoal.userId g = userId
                        ∧ WeeklyGoal.weekStart g = week) (snd first))
  ∧ StudyPlannerTasks.getWeeklyGoals (fst first) later userId
    = (fst first, snd first).
Proof.
  intros Hweek week first.
  assert (Hnew : StudyPlannerTasks.goalsOf p userId week = [] →
            studyPlanTasks (fst first) = studyPlanTasks p
            ∧ weeklyGoals (fst first) = weeklyGoals p ++ snd first
            ∧ snd first
              = (fun g =>
                   WeeklyGoal.mk (fst g) userId (fst (snd g)) (snd (snd g))
                     week now)
                  <$> [(pretty (nextId (store p)), ("Complete Daily MCQs", 7));
                       (pretty (N.succ (nextId (store p))),
                        ("Practice Answer Writing", 5));
                       (pretty (N.succ (N.succ (nextId (store p)))),
                        ("Read Editorials", 7));
                       (pretty (N.succ (N.succ (N.succ (nextId (store p))))),
                        ("Study Hours", 35))]
            ∧ StudyPlannerTasks.goalsOf (fst first) userId week = snd first).
  { intros Hnone.
    assert (Hold : List.filter
                     (fun g => String.eqb (WeeklyGoal.userId g) userId
                               && sameTime (WeeklyGoal.weekStart g) week)
                     (weeklyGoals p) = []).
    { apply (orderBy_nil (fun g => StudyPlannerTasks.timeOf
                                     (WeeklyGoal.createdAt g))).
      exact Hnone. }
    unfold first, StudyPlannerTasks.getWeeklyGoals. fold week.
    rewrite Hnone. cbn [length Nat.eqb fst snd].
    unfold StudyPlannerTasks.goalsOf, StudyPlannerTasks.defaultGoals,
      StudyPlannerTasks.createGoal, genId.
    cbn [foldl store studyPlanTasks weeklyGoals bumpId nextId fst snd].
    rewrite <- !app_assoc. cbn [app].
    rewrite List.filter_app, Hold. cbn [app List.filter WeeklyGoal.userId
      WeeklyGoal.weekStart].
    rewrite String.eqb_refl, sameTime_refl.
    do 4 (cbn [andb orderBy insertBy WeeklyGoal.createdAt];
          rewrite ?Z.leb_refl).
    cbn [fmap list_fmap fst snd].
    by repeat split. }
  destruct (StudyPlannerTasks.goalsOf p userId week) as [|g gs] eqn:Hgoals.
  - destruct (Hnew eq_refl) as (Htasks & Hrows & Hfirst & Hagain).
    split; [exact Htasks|]. split; [done|].
    split.
    { intros _. split; [exact Hrows|]. rewrite Hfirst.
      split; [reflexivity|]. repeat constructor. }
    unfold StudyPlannerTasks.getWeeklyGoals at 1. rewrite Hweek. fold week.
    rewrite Hagain, Hfirst. reflexivity.
  - assert (Hfirst : first = (p, g :: gs)).
    { unfold first, StudyPlannerTasks.getWeeklyGoals. fold week.
      rewrite Hgoals. reflexivity. }
    rewrite Hfirst. cbn [fst snd].
    split; [reflexivity|]. split; [reflexivity|]. split; [discriminate|].
    unfold StudyPlannerTasks.getWeeklyGoals. rewrite Hweek. fold week.
    rewrite Hgoals. reflexivity.
Qed.

Lemma getWeeklyGoals_defaults_once_witness :
  let week := StudyPlannerTasks.getWeekStart Sample.noon in
  let first :=
    StudyPlannerTasks.getWeeklyGoals PlannerSample.oneTask Sample.noon "u1" in
  studyPlanTasks (fst first) = studyPlanTasks PlannerSample.oneTask
  ∧ (StudyPlannerTasks.goalsOf PlannerSample.oneTask "u1" week ≠ [] →
     first = (PlannerSample.oneTask,
              StudyPlannerTasks.goalsOf PlannerSample.oneTask "u1" week))
  ∧ (StudyPlannerTasks.goalsOf PlannerSample.oneTask "u1" week = [] →
     weeklyGoals (fst first) = weeklyGoals PlannerSample.oneTask ++ snd first
     ∧ (fun g => (WeeklyGoal.title g, WeeklyGoal.targetCount g)) <$> snd first
       = StudyPlannerTasks.defaultGoals
     ∧ Forall (fun g => WeeklyGoal.userId g = "u1"
                        ∧ WeeklyGoal.weekStart g = week) (snd first))
  ∧ StudyPlannerTasks.getWeeklyGoals (fst first) (mkDate 20002 5000) "u1"
    = (fst first, snd first).
Proof.
  apply (getWeeklyGoals_defaults_once PlannerSample.oneTask Sample.noon
           (mkDate 20002 5000) "u1").
  vm_compute. reflexivity.
Defined.

Section Tasks.

Import StudyPlannerTasks.

(** Removing the rows that have an id that no row has removes nothing. *)
Lemma filter_fresh_id (id : string) (l : list StudyPlanTask.t) :
  Forall (fun t => StudyPlanTask.id t ≠ id) l →
  List.filter (fun t => negb (String.eqb (StudyPlanTask.id t) id)) l = l.
Proof.
  induction 1 as [|t l Ht _ IH]; [reflexivity|]. simpl.
  destruct (String.eqb_spec (StudyPlanTask.id t) id); [contradiction|].
  simpl. by rewrite IH.
Qed.

End Tasks.

(** X27: [deleteTask] deletes own tasks only, the ids of the tasks being
    unique.  The tasks of the other users are all kept; a user who has
    no task with the id is answered with 404 and nothing is deleted; a
    user who has one is answered with 200, and the tasks left are the
    former ones without that one. *)
Theorem deleteTask_own_tasks_only (p : Planner) (userId id : string) :
  NoDup (StudyPlanTask.id <$> studyPlanTasks p) →
  let after := fst (StudyPlannerTasks.deleteTask p userId id) in
  store after = store p
  ∧ weeklyGoals after = weeklyGoals p
  ∧ (∀ t, StudyPlanTask.userId t ≠ userId →
          t ∈ studyPlanTasks after ↔ t ∈ studyPlanTasks p)
  ∧ (StudyPlannerTasks.findTask p id userId = None →
     StudyPlannerTasks.deleteTask p userId id
     = (p, Respond 404 (errorBody "Task not found")))
  ∧ (∀ mine, StudyPlannerTasks.findTask p id userId = Some mine →
       Spec.accepted (snd (StudyPlannerTasks.deleteTask p userId id)) = true
       ∧ StudyPlanTask.id mine = id
       ∧ StudyPlanTask.userId mine = userId
       ∧ ∀ t, t ∈ studyPlanTasks after ↔ t ∈ studyPlanTasks p ∧ t ≠ mine).
Proof.
  intros Hnd after.
  assert (Hunique : ∀ a b, a ∈ studyPlanTasks p → b ∈ studyPlanTasks p →
                           StudyPlanTask.id a = StudyPlanTask.id b → a = b).
  { clear -Hnd. induction (studyPlanTasks p) as [|x l IH]; intros a b Ha Hb Hab.
    { by apply elem_of_nil in Ha. }
    rewrite fmap_cons in Hnd. apply NoDup_cons in Hnd as [Hx Hnd].
    apply elem_of_cons in Ha as [->|Ha]; apply elem_of_cons in Hb as [->|Hb].
    - reflexivity.
    - exfalso. apply Hx. rewrite Hab. by apply list_elem_of_fmap_2.
    - exfalso. apply Hx. rewrite <- Hab. by apply list_elem_of_fmap_2.
    - by apply IH. }
  unfold after, StudyPlannerTasks.deleteTask.
  destruct (StudyPlannerTasks.findTask p id userId) as [mine|] eqn:Hmine.
  - unfold StudyPlannerTasks.findTask in Hmine.
    apply find_some in Hmine as [Hin Hkey].
    apply andb_true_iff in Hkey as [Hid Hu].
    apply String.eqb_eq in Hid, Hu. apply list_elem_of_In in Hin.
    cbn [fst snd store weeklyGoals studyPlanTasks].
    assert (Hleft : ∀ t,
              t ∈ List.filter
                    (fun t => negb (String.eqb (StudyPlanTask.id t) id))
                    (studyPlanTasks p)
              ↔ t ∈ studyPlanTasks p ∧ t ≠ mine).
    { intros t. rewrite list_elem_of_In, filter_In, <- list_elem_of_In.
      rewrite negb_true_iff, String.eqb_neq. split.
      - intros [Ht Hne]. split; [exact Ht|]. congruence.
      - intros [Ht Hne]. split; [exact Ht|]. intros Heq. apply Hne.
        apply Hunique; [exact Ht|exact Hin|congruence]. }
    split; [reflexivity|]. split; [reflexivity|]. split.
    { intros t Ht. rewrite Hleft. split; [by intros [? _]|].
      intros Hin'. split; [exact Hin'|]. congruence. }
    split; [discriminate|].
    intros mine' [= <-]. split; [reflexivity|]. split; [exact Hid|].
    split; [exact Hu|]. exact Hleft.
  - split; [reflexivity|]. split; [reflexivity|]. split; [reflexivity|].
    split; [reflexivity|]. intros mine [=].
Qed.

Lemma deleteTask_own_tasks_only_witness :
  let after := fst (StudyPlannerTasks.deleteTask PlannerSample.oneTask "u1" "t9") in
  store after = store PlannerSample.oneTask
  ∧ weeklyGoals after = weeklyGoals PlannerSample.oneTask
  ∧ (∀ t, StudyPlanTask.userId t ≠ "u1" →
          t ∈ studyPlanTasks after ↔ t ∈ studyPlanTasks PlannerSample.oneTask)
  ∧ (StudyPlannerTasks.findTask PlannerSample.oneTask "t9" "u1" = None →
     StudyPlannerTasks.deleteTask PlannerSample.oneTask "u1" "t9"
     = (PlannerSample.oneTask, Respond 404 (errorBody "Task not found")))
  ∧ (∀ mine, StudyPlannerTasks.findTask PlannerSample.oneTask "t9" "u1"
             = Some mine →
       Spec.accepted
         (snd (StudyPlannerTasks.deleteTask PlannerSample.oneTask "u1" "t9"))
       = true
       ∧ StudyPlanTask.id mine = "t9"
       ∧ StudyPlanTask.userId mine = "u1"
       ∧ ∀ t, t ∈ studyPlanTasks after
              ↔ t ∈ studyPlanTasks PlannerSample.oneTask ∧ t ≠ mine).
Proof.
  apply (deleteTask_own_tasks_only PlannerSample.oneTask "u1" "t9").
  simpl. apply NoDup_singleton.
Defined.

(** X28: a task from its creation to its deletion, the id given to the
    new task being unused.  [createTask] refuses a missing or empty title
    with 400 and writes nothing; with a title and a [date] that is no
    date it writes nothing and hands the error of the ORM on; otherwise it
    answers 201 with a new task of the caller, dated at the midnight of
    the date of the body, or of today when the body has none, of type
    "study" when the body has no type, added to the table; deleting that
    task as another user is refused with 404, and deleting it as the
    caller gives back the table of tasks as it was before the creation. *)
Theorem createTask_then_deleteTask (p : Planner) (now : Date)
    (userId other : string) (body : StudyPlannerTasks.TaskBody) :
  Forall (fun t => StudyPlanTask.id t ≠ genId (store p)) (studyPlanTasks p) →
  other ≠ userId →
  match StudyPlannerTasks.createTask p now userId body with
  | (p1, Failed code _) =>
      code = 400 ∧ p1 = p ∧ or_null (StudyPlannerTasks.title body) = None
  | (p1, Thrown) =>
      p1 = p
      ∧ or_null (StudyPlannerTasks.title body) ≠ None
      ∧ StudyPlannerTasks.date body = StudyPlannerTasks.DateInvalid
  | (p1, Sent code task) =>
      code = 201
      ∧ StudyPlannerTasks.date body ≠ StudyPlannerTasks.DateInvalid
      ∧ StudyPlannerTasks.title body = Some (StudyPlanTask.title task)
      ∧ StudyPlanTask.title task ≠ ""
      ∧ StudyPlanTask.userId task = userId
      ∧ msec (StudyPlanTask.date task) = 0
      ∧ StudyPlanTask.type task ≠ ""
      ∧ (StudyPlannerTasks.type body = None → StudyPlanTask.type task = "study")
      ∧ (StudyPlannerTasks.date body = StudyPlannerTasks.DateMissing →
         StudyPlanTask.date task = getToday now)
      ∧ (∀ d, StudyPlannerTasks.date body = StudyPlannerTasks.DateValid d →
              StudyPlanTask.date task = setHours0 d)
      ∧ studyPlanTasks p1 = studyPlanTasks p ++ [task]
      ∧ StudyPlannerTasks.deleteTask p1 other (StudyPlanTask.id task)
        = (p1, Respond 404 (errorBody "Task not found"))
      ∧ Spec.accepted
          (snd (StudyPlannerTasks.deleteTask p1 userId (StudyPlanTask.id task)))
        = true
      ∧ studyPlanTasks
          (fst (StudyPlannerTasks.deleteTask p1 userId (StudyPlanTask.id task)))
        = studyPlanTasks p
  end.
Proof.
  intros Hfresh Hother. unfold StudyPlannerTasks.createTask.
  destruct (or_null (StudyPlannerTasks.title body)) as [title|] eqn:Htitle;
    [|by repeat split].
  assert (Htruthy : StudyPlannerTasks.title body = Some title ∧ title ≠ "").
  { unfold or_null, truthy_str in Htitle.
    destruct (StudyPlannerTasks.title body) as [s|]; [|discriminate].
    destruct (String.eqb_spec s ""); [discriminate|].
    simpl in Htitle. injection Htitle as <-. by split. }
  destruct Htruthy as [Hbody Hne].
  cbv zeta.
  assert (Hmade : ∀ taskDate,
    let task :=
      StudyPlanTask.mk (genId (store p)) userId title
        (StudyPlannerTasks.description body) (StudyPlannerTasks.subject body)
        (or_str (StudyPlannerTasks.type body) "study") taskDate
        (StudyPlannerTasks.startTime body) (StudyPlannerTasks.endTime body)
        (StudyPlannerTasks.duration body) in
    let p1 :=
      mkPlanner (bumpId (store p)) (studyPlanTasks p ++ [task])
        (weeklyGoals p) in
    StudyPlanTask.type task ≠ ""
    ∧ (StudyPlannerTasks.type body = None → StudyPlanTask.type task = "study")
    ∧ StudyPlannerTasks.deleteTask p1 other (StudyPlanTask.id task)
      = (p1, Respond 404 (errorBody "Task not found"))
    ∧ Spec.accepted
        (snd (StudyPlannerTasks.deleteTask p1 userId (StudyPlanTask.id task)))
      = true
    ∧ studyPlanTasks
        (fst (StudyPlannerTasks.deleteTask p1 userId (StudyPlanTask.id task)))
      = studyPlanTasks p).
  { intros taskDate task p1.
    assert (Hfind : ∀ u,
              StudyPlannerTasks.findTask p1 (genId (store p)) u
              = if String.eqb userId u then Some task else None).
    { intros u. unfold StudyPlannerTasks.findTask, p1. cbn [studyPlanTasks].
      destruct (String.eqb userId u) eqn:Hu.
      - apply find_snoc_fresh.
        + eapply Forall_impl; [exact Hfresh|]. intros t Ht. cbv beta.
          apply andb_false_iff. left. by apply String.eqb_neq.
        + unfold task. cbn [StudyPlanTask.id StudyPlanTask.userId].
          by rewrite String.eqb_refl, Hu.
      - rewrite find_snoc_other.
        + destruct (find _ (studyPlanTasks p)) as [t|] eqn:Ht; [|reflexivity].
          apply find_some in Ht as [Hin Hkey].
          apply andb_true_iff in Hkey as [Hid _]. apply String.eqb_eq in Hid.
          rewrite Forall_forall in Hfresh.
          exfalso. apply (Hfresh t); [by apply list_elem_of_In|exact Hid].
        + unfold task. cbn [StudyPlanTask.id StudyPlanTask.userId].
          by rewrite String.eqb_refl, Hu. }
    split.
    { unfold task. cbn [StudyPlanTask.type]. unfold or_str, truthy_str.
      destruct (StudyPlannerTasks.type body) as [s|]; [|discriminate].
      destruct (String.eqb_spec s ""); [discriminate|exact n]. }
    split.
    { intros Hty. unfold task. cbn [StudyPlanTask.type]. by rewrite Hty. }
    unfold StudyPlannerTasks.deleteTask.
    change (StudyPlanTask.id task) with (genId (store p)).
    rewrite !Hfind, String.eqb_refl.
    destruct (String.eqb_spec userId other) as [Heq|_]; [congruence|].
    split; [reflexivity|]. split; [reflexivity|].
    unfold p1. cbn [fst studyPlanTasks]. rewrite List.filter_app.
    rewrite filter_fresh_id by exact Hfresh.
    unfold task. cbn [List.filter StudyPlanTask.id].
    rewrite String.eqb_refl. apply app_nil_r. }
  destruct (StudyPlannerTasks.date body) as [|d|] eqn:Hdate.
  - destruct (Hmade (setHours0 (getToday now))) as (Hty & Hstudy & Hdel).
    split; [reflexivity|]. split; [discriminate|]. split; [exact Hbody|].
    split; [exact Hne|]. split; [reflexivity|]. split; [reflexivity|].
    split; [exact Hty|]. split; [exact Hstudy|]. split; [reflexivity|].
    split; [discriminate|]. split; [reflexivity|]. exact Hdel.
  - destruct (Hmade (setHours0 d)) as (Hty & Hstudy & Hdel).
    split; [reflexivity|]. split; [discriminate|]. split; [exact Hbody|].
    split; [exact Hne|]. split; [reflexivity|]. split; [reflexivity|].
    split; [exact Hty|]. split; [exact Hstudy|]. split; [discriminate|].
    split; [by intros d' [= <-]|]. split; [reflexivity|]. exact Hdel.
  - split; [reflexivity|]. split; [discriminate|reflexivity].
Qed.

Lemma createTask_then_deleteTask_witness :
  match StudyPlannerTasks.createTask PlannerSample.oneTask Sample.noon "u1"
          PlannerSample.polity with
  | (p1, Failed code _) =>
      code = 400 ∧ p1 = PlannerSample.oneTask
      ∧ or_null (StudyPlannerTasks.title PlannerSample.polity) = None
  | (p1, Thrown) =>
      p1 = PlannerSample.oneTask
      ∧ or_null (StudyPlannerTasks.title PlannerSample.polity) ≠ None
      ∧ StudyPlannerTasks.date PlannerSample.polity = StudyPlannerTasks.DateInvalid
  | (p1, Sent code task) =>
      code = 201
      ∧ StudyPlannerTasks.date PlannerSample.polity ≠ StudyPlannerTasks.DateInvalid
      ∧ StudyPlannerTasks.title PlannerSample.polity
        = Some (StudyPlanTask.title task)
      ∧ StudyPlanTask.title task ≠ ""
      ∧ StudyPlanTask.userId task = "u1"
      ∧ msec (StudyPlanTask.date task) = 0
      ∧ StudyPlanTask.type task ≠ ""
      ∧ (StudyPlannerTasks.type PlannerSample.polity = None →
         StudyPlanTask.type task = "study")
      ∧ (StudyPlannerTasks.date PlannerSample.polity = StudyPlannerTasks.DateMissing →
         StudyPlanTask.date task = getToday Sample.noon)
      ∧ (∀ d, StudyPlannerTasks.date PlannerSample.polity = StudyPlannerTasks.DateValid d →
              StudyPlanTask.date task = setHours0 d)
      ∧ studyPlanTasks p1 = studyPlanTasks PlannerSample.oneTask ++ [task]
      ∧ StudyPlannerTasks.deleteTask p1 "u2" (StudyPlanTask.id task)
        = (p1, Respond 404 (errorBody "Task not found"))
      ∧ Spec.accepted
          (snd (StudyPlannerTasks.deleteTask p1 "u1" (StudyPlanTask.id task)))
        = true
      ∧ studyPlanTasks
          (fst (StudyPlannerTasks.deleteTask p1 "u1" (StudyPlanTask.id task)))
        = studyPlanTasks PlannerSample.oneTask
  end.
Proof.
  apply (createTask_then_deleteTask PlannerSample.oneTask Sample.noon "u1"
           "u2" PlannerSample.polity).
  - repeat constructor. vm_compute. discriminate.
  - discriminate.
Defined.
